(** * time-parser: the date resolution pipeline of the RBP Time Parser service

    A shallow embedding of the Express handler [POST /parse-fecha] and of the
    functions it calls ([preprocesarExpresion], [validarYCorregirFecha],
    [esExpresionTemporalClara], [detectarIdioma], [parsearConOpenAI]),
    together with the part of the JavaScript runtime and of Luxon that the
    handler relies on.

    - JavaScript strings are lists of UTF-16 code units ([jsstring]).
    - The regular expressions of the source are values of [regex], run by a
      backtracking matcher with the priorities of the JavaScript one.
    - A Luxon [DateTime] is an epoch time stamp in milliseconds with a zone,
      or [Invalid]; zones are modelled by their offset from UTC.
    - chrono-node and the OpenAI client are collaborators of the handler:
      they are variables of the sections below.
    - [Server] is the handler of the latest revision and [ServerJs] the one
      of src/server.js; [SegundoServidor] and [PrimerServidor] hold what the
      two earlier revisions have of their own. *)

From Stdlib Require Import ZArith List Bool Lia String Ascii.
Import ListNotations.
Open Scope Z_scope.

(** ** JavaScript strings *)

Module JS.

Definition jsstring := list Z.

(** Decoding of a UTF-8 source literal into UTF-16 code units. *)
Fixpoint utf8_units (fuel : nat) (bs : list Z) : jsstring :=
  match fuel with
  | O => []
  | S fuel' =>
    match bs with
    | [] => []
    | b :: r =>
      if b <? 128 then b :: utf8_units fuel' r
      else if b <? 224 then
        match r with
        | b2 :: r' => ((b mod 32) * 64 + b2 mod 64) :: utf8_units fuel' r'
        | _ => []
        end
      else if b <? 240 then
        match r with
        | b2 :: b3 :: r' =>
          ((b mod 16) * 4096 + (b2 mod 64) * 64 + b3 mod 64) :: utf8_units fuel' r'
        | _ => []
        end
      else
        match r with
        | b2 :: b3 :: b4 :: r' =>
          let cp := (b mod 8) * 262144 + (b2 mod 64) * 4096 + (b3 mod 64) * 64 + b4 mod 64 in
          let v := cp - 65536 in
          (55296 + v / 1024) :: (56320 + v mod 1024) :: utf8_units fuel' r'
        | _ => []
        end
    end
  end.

Definition js (s : string) : jsstring :=
  let bs := map (fun a => Z.of_N (N_of_ascii a)) (list_ascii_of_string s) in
  utf8_units (List.length bs) bs.

Fixpoint str_eqb (a b : jsstring) : bool :=
  match a, b with
  | [], [] => true
  | x :: a', y :: b' => (x =? y) && str_eqb a' b'
  | _, _ => false
  end.

(** [String.prototype.toLowerCase] on Basic Latin and Latin-1 Supplement,
    the alphabets of Spanish and Catalan; other code units are kept. *)
Definition lower_unit (c : Z) : Z :=
  if (65 <=? c) && (c <=? 90) then c + 32
  else if (192 <=? c) && (c <=? 222) && negb (c =? 215) then c + 32
  else c.

Definition toLowerCase (s : jsstring) : jsstring := map lower_unit s.

(** White space and line terminators of ECMAScript ([trim], [\s]). *)
Definition isSpace (c : Z) : bool :=
  ((9 <=? c) && (c <=? 13)) || (c =? 32) || (c =? 160) || (c =? 5760)
  || ((8192 <=? c) && (c <=? 8202)) || (c =? 8232) || (c =? 8233)
  || (c =? 8239) || (c =? 8287) || (c =? 12288) || (c =? 65279).

Fixpoint trimStart (s : jsstring) : jsstring :=
  match s with
  | c :: s' => if isSpace c then trimStart s' else s
  | [] => []
  end.

Definition trim (s : jsstring) : jsstring := rev (trimStart (rev (trimStart s))).

Fixpoint startsWith (s p : jsstring) : bool :=
  match p, s with
  | [], _ => true
  | c :: p', x :: s' => (x =? c) && startsWith s' p'
  | _ :: _, [] => false
  end.

(** [String.prototype.includes]. *)
Fixpoint includes (s sub : jsstring) : bool :=
  startsWith s sub ||
  match s with
  | [] => false
  | _ :: s' => includes s' sub
  end.

(** [Array.prototype.some]. *)
Definition some {A} (p : A -> bool) (l : list A) : bool := existsb p l.

(** *** Regular expressions

    Every pattern of the source carries the flag [i]; none carries [u]. A
    literal is compared after [Canonicalize], the simple upper-case mapping,
    written out for Latin-1; the literals of the source are all Latin-1. *)

Definition canon (c : Z) : Z :=
  if (97 <=? c) && (c <=? 122) then c - 32
  else if (224 <=? c) && (c <=? 254) && negb (c =? 247) then c - 32
  else if c =? 255 then 376
  else if c =? 181 then 924
  else c.

Inductive regex : Type :=
| REmpty
| RChar (c : Z)
| RSet (cs : list Z)
| RClass (p : Z -> bool)
| RSeq (a b : regex)
| RAlt (a b : regex)
| RStar (a : regex)
| RGroup (a : regex)
| RWordB.

Definition isDigit (c : Z) : bool := (48 <=? c) && (c <=? 57).

Definition isWordChar (c : Z) : bool :=
  isDigit c || ((65 <=? c) && (c <=? 90)) || ((97 <=? c) && (c <=? 122)) || (c =? 95).

Definition isWordAt (o : option Z) : bool :=
  match o with Some c => isWordChar c | None => false end.

(** The result of a match: the text of the capture group the code reads
    ([None] when the group took no part), inside [Some] for a match. *)
Definition mresult := option (option jsstring).

Definition cont := option Z -> jsstring -> option jsstring -> mresult.

(** The iterations of a greedy star over a matcher [ma]: one more iteration,
    which has to consume input, before the continuation is tried. *)
Fixpoint starLoop (ma : option Z -> jsstring -> option jsstring -> cont -> mresult) (k : cont)
         (n : nat) (prev : option Z) (s : jsstring) (cap : option jsstring) : mresult :=
  match n with
  | O => k prev s cap
  | S n' =>
    match ma prev s cap
            (fun p' s' c' =>
               if (List.length s' <? List.length s)%nat then starLoop ma k n' p' s' c' else None) with
    | Some res => Some res
    | None => k prev s cap
    end
  end.

Fixpoint rmatch (r : regex) (prev : option Z) (s : jsstring) (cap : option jsstring)
         (k : cont) {struct r} : mresult :=
  match r with
  | REmpty => k prev s cap
  | RChar c =>
    match s with
    | x :: s' => if canon x =? canon c then k (Some x) s' cap else None
    | [] => None
    end
  | RSet cs =>
    match s with
    | x :: s' => if existsb (fun c => canon x =? canon c) cs then k (Some x) s' cap else None
    | [] => None
    end
  | RClass p =>
    match s with
    | x :: s' => if p x then k (Some x) s' cap else None
    | [] => None
    end
  | RSeq a b => rmatch a prev s cap (fun p' s' c' => rmatch b p' s' c' k)
  | RAlt a b =>
    match rmatch a prev s cap k with
    | Some res => Some res
    | None => rmatch b prev s cap k
    end
  | RStar a => starLoop (rmatch a) k (List.length s) prev s cap
  | RGroup a =>
    rmatch a prev s cap
      (fun p' s' _ => k p' s' (Some (firstn (List.length s - List.length s') s)))
  | RWordB =>
    if xorb (isWordAt prev) (isWordAt (hd_error s)) then k prev s cap else None
  end.

(** [String.prototype.match] without the flag [g]: the leftmost match. *)
Fixpoint search_from (r : regex) (prev : option Z) (s : jsstring) : mresult :=
  match rmatch r prev s None (fun _ _ c => Some c) with
  | Some c => Some c
  | None =>
    match s with
    | [] => None
    | x :: s' => search_from r (Some x) s'
    end
  end.

Definition match_ (s : jsstring) (r : regex) : mresult := search_from r None s.

Definition matches (s : jsstring) (r : regex) : bool :=
  match match_ s r with Some _ => true | None => false end.

(** Pattern syntax. *)
Fixpoint lit_units (l : jsstring) : regex :=
  match l with
  | [] => REmpty
  | [c] => RChar c
  | c :: l' => RSeq (RChar c) (lit_units l')
  end.

Definition lit (s : string) : regex := lit_units (js s).
Definition plus (a : regex) : regex := RSeq a (RStar a).
Definition opt (a : regex) : regex := RAlt a REmpty.
Definition ws : regex := RClass isSpace.
Definition digit : regex := RClass isDigit.

Fixpoint alts (l : list regex) : regex :=
  match l with
  | [] => RClass (fun _ => false)
  | [a] => a
  | a :: l' => RAlt a (alts l')
  end.

Fixpoint seqs (l : list regex) : regex :=
  match l with
  | [] => REmpty
  | [a] => a
  | a :: l' => RSeq a (seqs l')
  end.

(** [parseInt] on a run of decimal digits, as an exact integer: the double
    of JavaScript is this number below 2^53. *)
Definition parseInt (s : jsstring) : Z :=
  fold_left (fun acc c => acc * 10 + (c - 48)) s 0.

(** The decimal digits of a natural number, [String(n)]. *)
Fixpoint digits_fuel (fuel : nat) (n : Z) (acc : jsstring) : jsstring :=
  match fuel with
  | O => acc
  | S f =>
    let acc' := (48 + n mod 10) :: acc in
    if n <? 10 then acc' else digits_fuel f (n / 10) acc'
  end.

Definition toString (n : Z) : jsstring := digits_fuel (Z.to_nat (Z.log2 n) + 1) n [].

(** [padStart] of Luxon's [util.js], for integers. *)
Definition padTo (w : nat) (s : jsstring) : jsstring :=
  repeat 48 (w - List.length s) ++ s.

Definition padStart (n : Z) (w : nat) : jsstring :=
  if n <? 0 then 45 :: padTo w (toString (- n)) else padTo w (toString n).

End JS.

Import JS.


(** ** Luxon

    A [DateTime] is valid when it holds a time stamp within the range of the
    ECMAScript [Date] (TimeClip); a zone is read through its offset from UTC
    in minutes. The calendar fields come from the proleptic Gregorian
    calendar; numbers are exact integers, which is what the doubles of
    JavaScript hold below 2^53.

    A zone has one offset. The model follows Luxon on spans of time within
    which the offset of the zone does not change; across a change of
    daylight saving Luxon keeps the wall clock in [plus] and moves a local
    time that falls in a gap forward in [set], which a single offset does
    not show. [fromISO] reads the extended calendar form with an upper-case
    T, the form [toISO] writes and the prompt asks the model for. *)

Module Luxon.

Inductive ZoneKind := SystemZone | IANAZone | FixedOffsetZone.

Record Zone := mkZone { zkind : ZoneKind; zoffset : Z }.

Inductive DateTime :=
| Invalid
| DT (ts : Z) (zone : Zone).

Definition MAX_TS : Z := 8640000000000000.

Definition msPerDay : Z := 86400000.

(** The constructor: a time stamp that is not a number makes the value
    invalid. [None] stands for NaN. *)
Definition timeClip (t : Z) : option Z :=
  if Z.abs t <=? MAX_TS then Some t else None.

Definition mk (t : Z) (z : Zone) : DateTime :=
  match timeClip t with
  | Some t' => DT t' z
  | None => Invalid
  end.

Definition isValid (d : DateTime) : bool :=
  match d with Invalid => false | DT _ _ => true end.

(** [valueOf]: the epoch milliseconds, NaN when invalid. *)
Definition valueOf (d : DateTime) : option Z :=
  match d with Invalid => None | DT t _ => Some t end.

(** [a < b] and [a >= b] on DateTimes compare [valueOf]; a comparison with
    NaN is false. *)
Definition lt (a b : DateTime) : bool :=
  match valueOf a, valueOf b with
  | Some x, Some y => x <? y
  | _, _ => false
  end.

Definition ge (a b : DateTime) : bool :=
  match valueOf a, valueOf b with
  | Some x, Some y => y <=? x
  | _, _ => false
  end.

(** Days since 1970-01-01 of a civil date, and back. *)
Definition days_from_civil (y m d : Z) : Z :=
  let y' := if m <=? 2 then y - 1 else y in
  let era := y' / 400 in
  let yoe := y' - era * 400 in
  let mp := if 2 <? m then m - 3 else m + 9 in
  let doy := (153 * mp + 2) / 5 + d - 1 in
  let doe := yoe * 365 + yoe / 4 - yoe / 100 + doy in
  era * 146097 + doe - 719468.

Definition civil_from_days (n : Z) : Z * Z * Z :=
  let z := n + 719468 in
  let era := z / 146097 in
  let doe := z - era * 146097 in
  let yoe := (doe - doe / 1460 + doe / 36524 - doe / 146096) / 365 in
  let doy := doe - (365 * yoe + yoe / 4 - yoe / 100) in
  let mp := (5 * doy + 2) / 153 in
  let d := doy - (153 * mp + 2) / 5 + 1 in
  let m := if mp <? 10 then mp + 3 else mp - 9 in
  let y := yoe + era * 400 in
  (if m <=? 2 then y + 1 else y, m, d).

(** [Date.UTC], with the month counted from 1 as Luxon passes it on. *)
Definition DateUTC (y m d h mi s ms : Z) : Z :=
  days_from_civil y m d * msPerDay + h * 3600000 + mi * 60000 + s * 1000 + ms.

Record DateObject := mkObj {
  year : Z; month : Z; day : Z;
  hour : Z; minute : Z; second : Z; millisecond : Z }.

Definition objToLocalTS (o : DateObject) : Z :=
  DateUTC (year o) (month o) (day o) (hour o) (minute o) (second o) (millisecond o).

(** [tsToObj]: the fields of a local time stamp. *)
Definition tsToObj (lts : Z) : DateObject :=
  let n := lts / msPerDay in
  let r := lts mod msPerDay in
  let '(y, m, d) := civil_from_days n in
  mkObj y m d (r / 3600000) ((r / 60000) mod 60) ((r / 1000) mod 60) (r mod 1000).

Definition localTS (t : Z) (z : Zone) : Z := t + zoffset z * 60000.

(** The fields of a DateTime; [None] is the NaN of an invalid one. *)
Definition toObject (d : DateTime) : option DateObject :=
  match d with
  | Invalid => None
  | DT t z => Some (tsToObj (localTS t z))
  end.

Definition get (f : DateObject -> Z) (d : DateTime) : option Z :=
  option_map f (toObject d).

(** [dayOfWeek]: 1 is Monday, 7 is Sunday. *)
Definition dayOfWeek (y m d : Z) : Z :=
  let jsDay := (days_from_civil y m d + 4) mod 7 in
  if jsDay =? 0 then 7 else jsDay.

Definition weekdayOf (o : DateObject) : Z := dayOfWeek (year o) (month o) (day o).

Definition weekday (d : DateTime) : option Z := get weekdayOf d.

(** [plus({ days: n })]. *)
Definition plusDays (d : DateTime) (n : Z) : DateTime :=
  match d with
  | Invalid => Invalid
  | DT t z =>
    let o := tsToObj (localTS t z) in
    let l := DateUTC (year o) (month o) (day o + n) (hour o) (minute o) (second o) (millisecond o) in
    mk (l - zoffset z * 60000) z
  end.

(** [set(values)] for the time units; a unit left out keeps its value. The
    values are not range checked: [Date.UTC] carries an overflow on. *)
Record SetValues := mkSet {
  set_hour : option Z; set_minute : option Z;
  set_second : option Z; set_millisecond : option Z }.

Definition orKeep (v : option Z) (old : Z) : Z :=
  match v with Some x => x | None => old end.

Definition set (d : DateTime) (v : SetValues) : DateTime :=
  match d with
  | Invalid => Invalid
  | DT t z =>
    let o := tsToObj (localTS t z) in
    let l := DateUTC (year o) (month o) (day o)
               (orKeep (set_hour v) (hour o)) (orKeep (set_minute v) (minute o))
               (orKeep (set_second v) (second o)) (orKeep (set_millisecond v) (millisecond o)) in
    mk (l - zoffset z * 60000) z
  end.

(** [DateTime.fromJSDate(date, { zone })]; a JS Date is its time value. *)
Definition fromJSDate (date : Z) (z : Zone) : DateTime := mk date z.

(** [toJSDate] of a valid DateTime. *)
Definition toJSDate (d : DateTime) : Z :=
  match d with Invalid => 0 | DT t _ => t end.

(** *** Formatting *)

Definition invalidText : jsstring := js "Invalid DateTime".

(** [toFormat("yyyy-MM-dd")]. *)
Definition toFormat_date (d : DateTime) : jsstring :=
  match toObject d with
  | None => invalidText
  | Some o => padStart (year o) 4 ++ js "-" ++ padStart (month o) 2 ++ js "-" ++ padStart (day o) 2
  end.

(** [toFormat("HH:mm")]. *)
Definition toFormat_time (d : DateTime) : jsstring :=
  match toObject d with
  | None => invalidText
  | Some o => padStart (hour o) 2 ++ js ":" ++ padStart (minute o) 2
  end.

(** [toISODate] and [toISOTime] with the default options, as [toISO] calls
    them; [Math.trunc] of the offset parts is [Z.quot] and [Z.rem]. *)
Definition toISODate (o : DateObject) : jsstring :=
  let longFormat := (9999 <? year o) || (year o <? 0) in
  (if longFormat && (0 <=? year o) then js "+" else [])
  ++ padStart (year o) (if longFormat then 6 else 4)
  ++ js "-" ++ padStart (month o) 2 ++ js "-" ++ padStart (day o) 2.

Definition toISOTime (o : DateObject) (z : Zone) : jsstring :=
  padStart (hour o) 2 ++ js ":" ++ padStart (minute o) 2 ++ js ":" ++ padStart (second o) 2
  ++ js "." ++ padStart (millisecond o) 3
  ++ (match zkind z, zoffset z =? 0 with
      | FixedOffsetZone, true => js "Z"
      | _, _ =>
        if zoffset z <? 0
        then js "-" ++ padStart (Z.quot (- zoffset z) 60) 2 ++ js ":" ++ padStart (Z.rem (- zoffset z) 60) 2
        else js "+" ++ padStart (Z.quot (zoffset z) 60) 2 ++ js ":" ++ padStart (Z.rem (zoffset z) 60) 2
      end).

(** [toISO()]: [None] is the [null] of an invalid DateTime. *)
Definition toISO (d : DateTime) : option jsstring :=
  match d with
  | Invalid => None
  | DT t z => let o := tsToObj (localTS t z) in Some (toISODate o ++ js "T" ++ toISOTime o z)
  end.

(** [toFormat("cccc")] under [setLocale]: the weekday names of the Spanish
    and Catalan locales. *)
Inductive Locale := es | ca.

Definition weekdayName (l : Locale) (w : Z) : jsstring :=
  match l with
  | es => nth (Z.to_nat (w - 1))
            (map js ["lunes"; "martes"; "miércoles"; "jueves"; "viernes"; "sábado"; "domingo"]%string) []
  | ca => nth (Z.to_nat (w - 1))
            (map js ["dilluns"; "dimarts"; "dimecres"; "dijous"; "divendres"; "dissabte"; "diumenge"]%string) []
  end.

Definition toFormat_cccc (l : Locale) (d : DateTime) : jsstring :=
  match weekday d with
  | None => invalidText
  | Some w => weekdayName l w
  end.

(** *** [DateTime.fromISO(text, { zone })]

    The calendar forms of ISO 8601 as Luxon reads them: a year of four
    digits, or a sign and six, then month and day, then [T] and the time
    with an offset; the separators may be left out. Week dates, ordinal
    dates and a time alone are not modelled and read as unparsable. *)

Definition twoDigits (s : jsstring) : option (Z * jsstring) :=
  match s with
  | a :: b :: r => if isDigit a && isDigit b then Some ((a - 48) * 10 + (b - 48), r) else None
  | _ => None
  end.

Fixpoint nDigits (n : nat) (s : jsstring) (acc : Z) : option (Z * jsstring) :=
  match n with
  | O => Some (acc, s)
  | S n' =>
    match s with
    | a :: r => if isDigit a then nDigits n' r (acc * 10 + (a - 48)) else None
    | [] => None
    end
  end.

Definition skipChar (c : Z) (s : jsstring) : jsstring :=
  match s with
  | x :: r => if x =? c then r else s
  | [] => []
  end.

Fixpoint spanDigits (s : jsstring) : jsstring * jsstring :=
  match s with
  | a :: r => if isDigit a then let '(ds, r') := spanDigits r in (a :: ds, r') else ([], s)
  | [] => ([], [])
  end.

(** [parseMillis]: the first three digits of the fraction. *)
Definition parseMillis (frac : jsstring) : Z :=
  parseInt (firstn 3 (frac ++ js "000")).

Definition parseYear (s : jsstring) : option (Z * jsstring) :=
  match s with
  | c :: r =>
    if c =? 43 then nDigits 6 r 0
    else if c =? 45 then
      match nDigits 6 r 0 with Some (y, r') => Some (- y, r') | None => None end
    else nDigits 4 s 0
  | [] => None
  end.

(** The offset [Z] or [+hh(:mm)]; [None] inside is the absence of an offset. *)
Definition parseOffset (s : jsstring) : option (option Z * jsstring) :=
  match s with
  | c :: r =>
    if c =? 90 then Some (Some 0, r)
    else if (c =? 43) || (c =? 45) then
      match twoDigits r with
      | Some (h, r1) =>
        let '(m, r2) := match twoDigits (skipChar 58 r1) with
                        | Some (m, r2) => (m, r2)
                        | None => (0, r1)
                        end in
        Some (Some (if c =? 45 then - (h * 60 + m) else h * 60 + m), r2)
      | None => None
      end
    else Some (None, s)
  | [] => Some (None, [])
  end.

Record IsoParts := mkIso { iso_obj : DateObject; iso_offset : option Z }.

Definition parseISOTime (y m d : Z) (s : jsstring) : option IsoParts :=
  match twoDigits s with
  | None => None
  | Some (h, r1) =>
    let '(mi, sec, ms, r4) :=
      match twoDigits (skipChar 58 r1) with
      | None => (0, 0, 0, r1)
      | Some (mi, r2) =>
        match twoDigits (skipChar 58 r2) with
        | None => (mi, 0, 0, r2)
        | Some (sec, r3) =>
          match r3 with
          | c :: rf =>
            if (c =? 46) || (c =? 44) then
              let '(fr, r') := spanDigits rf in
              if ((1 <=? List.length fr) && (List.length fr <=? 30))%nat
              then (mi, sec, parseMillis fr, r')
              else (mi, sec, 0, r3)
            else (mi, sec, 0, r3)
          | [] => (mi, sec, 0, r3)
          end
        end
      end in
    match parseOffset r4 with
    | Some (off, []) => Some (mkIso (mkObj y m d h mi sec ms) off)
    | _ => None
    end
  end.

Definition parseISODate (s : jsstring) : option IsoParts :=
  match parseYear s with
  | None => None
  | Some (y, r0) =>
    let '(m, d, r2) :=
      match twoDigits (skipChar 45 r0) with
      | None => (1, 1, r0)
      | Some (m, r1) =>
        match twoDigits (skipChar 45 r1) with
        | None => (m, 1, r1)
        | Some (d, r2) => (m, d, r2)
        end
      end in
    match r2 with
    | [] => Some (mkIso (mkObj y m d 0 0 0 0) None)
    | c :: rt => if c =? 84 then parseISOTime y m d rt else None
    end
  end.

Definition isLeapYear (y : Z) : bool :=
  (y mod 4 =? 0) && (negb (y mod 100 =? 0) || (y mod 400 =? 0)).

Definition daysInMonth (y m : Z) : Z :=
  if m =? 2 then (if isLeapYear y then 29 else 28)
  else nth (Z.to_nat (m - 1)) [31; 28; 31; 30; 31; 30; 31; 31; 30; 31; 30; 31] 0.

Definition hasInvalidGregorianData (o : DateObject) : bool :=
  negb ((1 <=? month o) && (month o <=? 12)
        && (1 <=? day o) && (day o <=? daysInMonth (year o) (month o))).

Definition hasInvalidTimeData (o : DateObject) : bool :=
  let validHour := ((0 <=? hour o) && (hour o <=? 23))
                   || ((hour o =? 24) && (minute o =? 0) && (second o =? 0) && (millisecond o =? 0)) in
  negb (validHour && (0 <=? minute o) && (minute o <=? 59)
        && (0 <=? second o) && (second o <=? 59)
        && (0 <=? millisecond o) && (millisecond o <=? 999)).

(** [zone] is [None] for a zone name that Luxon does not know. *)
Definition fromISO (text : jsstring) (zone : option Zone) : DateTime :=
  match zone with
  | None => Invalid
  | Some z =>
    match parseISODate text with
    | None => Invalid
    | Some p =>
      let o := iso_obj p in
      if hasInvalidGregorianData o || hasInvalidTimeData o then Invalid
      else
        let off := match iso_offset p with Some f => f | None => zoffset z end in
        mk (objToLocalTS o - off * 60000) z
    end
  end.


End Luxon.

Import Luxon.



(** ** The collaborators of the handler *)

(** What a call of [openai.chat.completions.create] comes to: it throws an
    error with a message, or it answers, and
    [choices[0]?.message?.content] is a string or undefined. *)
Inductive Reply :=
| Throws (mensaje : jsstring)
| Content (c : option jsstring).

(** The client, seen through the two prompts the server builds: the
    translation prompt holds the expression; the date prompt holds the
    expression, the reference in ISO form and the zone name. *)
Record OpenAI := mkOpenAI {
  translation : jsstring -> Reply;
  completion : jsstring -> option jsstring -> jsstring -> Reply }.

(** A JavaScript call returns, or raises an error with a message. *)
Inductive Outcome (A : Type) :=
| Returns (a : A)
| Raises (mensaje : jsstring).
Arguments Returns {A} a.
Arguments Raises {A} mensaje.

(** The values [parsearConOpenAI] returns: the string ['sin_definir'], a
    DateTime, or [null]. *)
Inductive Fallback :=
| SinDefinir
| Fecha (d : DateTime)
| Null.

(** The JSON body of a response. *)
Inductive Body :=
| ErrorBody (mensaje : jsstring)
| FechaBody (fecha_resuelta dia_semana hora : jsstring) (iso_datetime : option jsstring)
            (es_finde es_pasado : bool).

Record Response := mkResponse { status : Z; body : Body }.

(** The body of a request: each field is a string, or is absent, as the
    clients of the service send it. *)
Record Request := mkRequest {
  referencia : option jsstring;
  expresion_usuario : option jsstring;
  zona_horaria : option jsstring }.

(** Truthiness of a string that may be undefined. *)
Definition truthy (v : option jsstring) : bool :=
  match v with
  | Some (_ :: _) => true
  | _ => false
  end.

(** The global replacement that deletes single and double quotes. *)
Definition stripQuotes (s : jsstring) : jsstring :=
  filter (fun c => negb ((c =? 39) || (c =? 34))) s.

(** [s.replace(new RegExp(pat, 'gi'), rep)] for a pattern of plain letters. *)
Fixpoint startsWith_ci (s p : jsstring) : bool :=
  match p, s with
  | [], _ => true
  | c :: p', x :: s' => (canon x =? canon c) && startsWith_ci s' p'
  | _ :: _, [] => false
  end.

Fixpoint replace_gi (skip : nat) (s pat rep : jsstring) : jsstring :=
  match s with
  | [] => []
  | x :: s' =>
    match skip with
    | S k => replace_gi k s' pat rep
    | O =>
      match pat with
      | [] => x :: replace_gi O s' pat rep
      | _ :: pat' =>
        if startsWith_ci s pat then rep ++ replace_gi (List.length pat') s' pat rep
        else x :: replace_gi O s' pat rep
      end
    end
  end.

(** ** The server, latest revision *)

Module Server.

(** The weekday names the preprocessor looks for. *)
Definition nombresDia : regex :=
  alts (map lit ["lunes"; "martes"; "miércoles"; "miercoles"; "jueves"; "viernes";
                 "sábado"; "sabado"; "domingo"; "dilluns"; "dimarts"; "dimecres";
                 "dijous"; "divendres"; "dissabte"; "diumenge"]%string).

Definition rePasadoMananaHora : regex :=
  seqs [lit "pasado"; plus ws; lit "mañana"; plus ws; lit "a"; plus ws; lit "las"; plus ws;
        RGroup (plus digit)].

Definition reDemaPassatHora : regex :=
  seqs [lit "demà"; plus ws; lit "passat"; plus ws; lit "a"; plus ws; lit "les"; plus ws;
        RGroup (plus digit)].

Definition reProxima : regex :=
  alts (map lit ["próxima"; "proxima"; "pròxima"; "vinent"; "propera"; "siguiente"; "següent"]%string).

Definition reSemana : regex := alts [lit "semana"; lit "setmana"].

Definition reSemanaQueViene1 : regex :=
  seqs [opt (seqs [lit "el"; plus ws]); RGroup nombresDia; plus ws;
        opt (seqs [lit "de"; plus ws; lit "la"; plus ws]); reSemana; plus ws;
        RAlt (seqs [lit "que"; plus ws; alts [lit "viene"; lit "ve"]]) reProxima].

Definition reSemanaQueViene2 : regex :=
  seqs [opt (seqs [lit "el"; plus ws]); RGroup nombresDia; plus ws; reProxima; plus ws; reSemana].

Definition reQueViene : regex :=
  seqs [opt (seqs [lit "el"; plus ws]); RGroup nombresDia; plus ws; lit "que"; plus ws;
        alts [lit "viene"; lit "ve"]].

(** The object [diasSemana], keyed by name. *)
Definition diasSemana : list (jsstring * Z) :=
  map (fun p => (js (fst p), snd p))
    [("lunes", 1); ("martes", 2); ("miércoles", 3); ("miercoles", 3); ("jueves", 4);
     ("viernes", 5); ("sábado", 6); ("sabado", 6); ("domingo", 7);
     ("dilluns", 1); ("dimarts", 2); ("dimecres", 3); ("dijous", 4); ("divendres", 5);
     ("dissabte", 6); ("diumenge", 7)]%string.

Fixpoint lookup (k : jsstring) (t : list (jsstring * Z)) : option Z :=
  match t with
  | [] => None
  | (k', v) :: t' => if str_eqb k k' then Some v else lookup k t'
  end.

(** [diasSemana[m[1].toLowerCase()]] of a match [m]. *)
Definition diaObjetivoDe (m : option jsstring) : option Z :=
  match m with
  | Some name => lookup (toLowerCase name) diasSemana
  | None => None
  end.

(** [a || b] on two match results. *)
Definition orMatch (a b : mresult) : mresult :=
  match a with Some _ => a | None => b end.

Definition matchSemanaQueViene (normalizada : jsstring) : mresult :=
  orMatch (match_ normalizada reSemanaQueViene1) (match_ normalizada reSemanaQueViene2).

Definition horaEnPunto (h : Z) : SetValues := mkSet (Some h) (Some 0) (Some 0) (Some 0).

(** The patterns of [validarYCorregirFecha]. *)
Definition reDias : regex := seqs [lit "d"; RSet (js "ií"); lit "a"; opt (lit "s")].

Definition reConteoDias : regex :=
  seqs [alts [lit "en"; lit "dentro de"; lit "dins de"]; plus ws; RGroup (plus digit); plus ws; reDias].

Definition reParDeDias : regex :=
  seqs [lit "par"; plus ws; lit "de"; plus ws; reDias].

Definition reDiaSemanaEspecifico : regex :=
  seqs [alts [lit "el"; lit "la"; lit "els"; lit "les"]; plus ws;
        RGroup (alts (map lit ["lunes"; "martes"; "miércoles"; "jueves"; "viernes"; "sábado";
                               "domingo"; "dilluns"; "dimarts"; "dimecres"; "dijous";
                               "divendres"; "dissabte"; "diumenge"]%string))].

Definition reHoraExplicita : regex :=
  seqs [plus digit; RStar ws;
        RGroup (alts [lit "h"; seqs [lit "hora"; opt (lit "s")]; seqs [lit "hr"; opt (lit "s")];
                      lit "m"; seqs [lit "minuto"; opt (lit "s")]])].

Definition reHora7 : regex :=
  seqs [lit "a"; plus ws;
        RGroup (alts [seqs [lit "la"; opt (lit "s")]; seqs [lit "le"; opt (lit "s")]]);
        plus ws; lit "7"; RWordB].

Definition reHora7AM : regex :=
  seqs [lit "7"; RStar ws; RGroup (alts [lit "am"; lit "a.m."; lit "de la mañana"])].

(** The word lists of the classifier and of the language detector. *)
Definition palabrasTemporales : list jsstring :=
  map js ["hoy"; "mañana"; "pasado"; "ayer"; "avui"; "demà"; "ahir";
          "lunes"; "martes"; "miércoles"; "jueves"; "viernes"; "sábado"; "sabado"; "domingo";
          "dilluns"; "dimarts"; "dimecres"; "dijous"; "divendres"; "dissabte"; "diumenge";
          "semana"; "mes"; "año"; "setmana"; "any";
          "día"; "dias"; "dia"; "dies";
          "hora"; "horas"; "hora"; "hores";
          "minuto"; "minutos"; "minut"; "minuts";
          "que viene"; "que ve"; "próximo"; "proximo"; "pròxim";
          "dentro de"; "dins de"; "en"; "a las"; "a les"; "las"; "les";
          "par de"; "parell de"; "cuando"; "quan"]%string.

Definition soloSaludos : list jsstring :=
  map js ["hola"; "buenos días"; "buenos dias"; "buenas tardes"; "buenas noches";
          "bon dia"; "bona tarda"; "bona nit"; "adeu"; "adios"; "hasta luego";
          "gracias"; "gràcies"; "de nada"; "per favor"; "por favor"; "si"; "no";
          "ok"; "vale"; "perfecto"; "perfecte"]%string.

Definition palabrasCatalanas : list jsstring :=
  map js ["demà"; "avui"; "ahir"; "setmana"; "mes"; "any";
          "dilluns"; "dimarts"; "dimecres"; "dijous"; "divendres"; "dissabte"; "diumenge";
          "gener"; "febrer"; "març"; "abril"; "maig"; "juny"; "juliol";
          "agost"; "setembre"; "octubre"; "novembre"; "desembre"]%string.

(** The table [traducciones], in the order of its entries. *)
Definition traducciones : list (jsstring * jsstring) :=
  map (fun p => (js (fst p), js (snd p)))
    [("dilluns", "lunes"); ("dimarts", "martes"); ("dimecres", "miércoles");
     ("dijous", "jueves"); ("divendres", "viernes"); ("dissabte", "sábado");
     ("diumenge", "domingo"); ("avui", "hoy"); ("demà", "mañana"); ("ahir", "ayer");
     ("setmana", "semana"); ("mes", "mes"); ("any", "año")]%string.

Definition sin_definir : jsstring := js "sin_definir".

Definition respuestaSinDefinir : Response :=
  mkResponse 200 (FechaBody sin_definir sin_definir sin_definir (Some sin_definir) false false).

(** Detecta si la expresión contiene información temporal clara. *)
Definition esExpresionTemporalClara (expresion : jsstring) : bool :=
  let normalizada := trim (toLowerCase expresion) in
  let tieneTemporal := some (fun palabra => includes normalizada palabra) palabrasTemporales in
  if tieneTemporal then true
  else
    let esSoloSaludo :=
      some (fun saludo =>
              let saludoLower := toLowerCase saludo in
              str_eqb normalizada saludoLower
              || str_eqb normalizada (saludoLower ++ js ".")
              || str_eqb normalizada (saludoLower ++ js "!")
              || str_eqb normalizada (saludoLower ++ js "?")) soloSaludos in
    if esSoloSaludo then false else true.

Definition detectarIdioma (expresion : jsstring) : Locale :=
  let normalizada := toLowerCase expresion in
  let tieneCatalan := some (fun palabra => includes normalizada palabra) palabrasCatalanas in
  if tieneCatalan then ca else es.

Section Handler.

(** The zone of the process ([Settings.defaultZone]), the zone a name
    stands for ([None] when Luxon does not know it), chrono-node's
    [es.parseDate] on a text and a reference date, and the OpenAI client,
    [None] without an API key. *)
Variable systemZone : Zone.
Variable normalizeZone : jsstring -> option Zone.
Variable parseDate : jsstring -> Z -> option Z.
Variable openai : option OpenAI.

(** The second rule of the "que viene" branch: the days to add. *)
Definition diasQueViene (diaObjetivo hoyDiaSemana : Z) : Z :=
  let diasSumar := diaObjetivo - hoyDiaSemana in
  let diasSumar := if diasSumar <=? 0 then diasSumar + 7 else diasSumar in
  if (hoyDiaSemana =? 5) && (diasSumar <=? 2) then 3 else diasSumar.

(** The "semana que viene" branch: the days to add. [x || 7] is 7 when [x]
    is 0; [%] is the remainder of JavaScript. *)
Definition diasSemanaQueViene (diaObjetivo hoyDiaSemana : Z) : Z :=
  let r := Z.rem (8 - hoyDiaSemana) 7 in
  let diasHastaLunesProxima := if r =? 0 then 7 else r in
  let diasDesdeLunes := Z.rem (diaObjetivo - 1) 7 in
  diasHastaLunesProxima + diasDesdeLunes.

Definition preprocesarExpresion (expresion : jsstring) (fechaReferencia : Z) : option DateTime :=
  let normalizada := trim (toLowerCase expresion) in
  let refDate := fromJSDate fechaReferencia systemZone in
  match match_ expresion rePasadoMananaHora with
  | Some m =>
    let horaNum := parseInt (match m with Some t => t | None => [] end) in
    Some (set (plusDays refDate 2) (horaEnPunto horaNum))
  | None =>
  match match_ expresion reDemaPassatHora with
  | Some m =>
    let horaNum := parseInt (match m with Some t => t | None => [] end) in
    Some (set (plusDays refDate 2) (horaEnPunto horaNum))
  | None =>
  if includes normalizada (js "pasado mañana") || includes normalizada (js "demà passat")
  then Some (plusDays refDate 2)
  else
    let semana :=
      match matchSemanaQueViene normalizada with
      | Some m =>
        match diaObjetivoDe m, weekday refDate with
        | Some diaObjetivo, Some hoyDiaSemana =>
          Some (set (plusDays refDate (diasSemanaQueViene diaObjetivo hoyDiaSemana)) (horaEnPunto 14))
        | Some _, None => Some Invalid
        | None, _ => None
        end
      | None => None
      end in
    match semana with
    | Some d => Some d
    | None =>
      match match_ normalizada reQueViene with
      | Some m =>
        match diaObjetivoDe m, weekday refDate with
        | Some diaObjetivo, Some hoyDiaSemana =>
          Some (set (plusDays refDate (diasQueViene diaObjetivo hoyDiaSemana)) (horaEnPunto 14))
        | Some _, None => Some Invalid
        | None, _ => None
        end
      | None => None
      end
    end
  end end.

(** The three rules of [validarYCorregirFecha], in the order of the source. *)
Definition esConteoDias (normalizada : jsstring) : bool :=
  matches normalizada reConteoDias
  || includes normalizada (js "pasado mañana")
  || includes normalizada (js "demà passat")
  || matches normalizada reParDeDias.

Definition diasHastaProximo (diaSemana hoyDiaSemana : Z) : Z :=
  let diasSumar := diaSemana - hoyDiaSemana in
  if diasSumar <=? 0 then diasSumar + 7 else diasSumar.

Definition corregirPasado (fecha refDate : DateTime) (normalizada : jsstring) : DateTime :=
  if lt fecha refDate then
    let esDiaSemanaEspecifico := matches normalizada reDiaSemanaEspecifico in
    if esDiaSemanaEspecifico && negb (esConteoDias normalizada) then
      match weekday fecha, weekday refDate, get hour fecha, get minute fecha with
      | Some diaSemana, Some hoyDiaSemana, Some h, Some mi =>
        set (plusDays refDate (diasHastaProximo diaSemana hoyDiaSemana))
            (mkSet (Some h) (Some mi) (Some 0) (Some 0))
      | _, _, _, _ => fecha
      end
    else fecha
  else fecha.

Definition horaPorDefecto (fecha : DateTime) (normalizada : jsstring) : DateTime :=
  match get hour fecha, get minute fecha with
  | Some 0, Some 0 =>
    if negb (matches normalizada reHoraExplicita)
    then set fecha (mkSet (Some 12) (Some 0) None None)
    else fecha
  | _, _ => fecha
  end.

Definition hora7 (fecha : DateTime) (normalizada : jsstring) : DateTime :=
  if matches normalizada reHora7 then
    match get hour fecha with
    | Some 7 =>
      if negb (matches normalizada reHora7AM)
      then set fecha (mkSet (Some 19) None None None)
      else fecha
    | _ => fecha
    end
  else fecha.

Definition validarYCorregirFecha (fecha : DateTime) (fechaReferencia : Z) (expresion : jsstring)
  : DateTime :=
  let refDate := fromJSDate fechaReferencia systemZone in
  let normalizada := toLowerCase expresion in
  let fecha := corregirPasado fecha refDate normalizada in
  let fecha := horaPorDefecto fecha normalizada in
  hora7 fecha normalizada.

(** Traduce una expresión en catalán a español usando OpenAI. *)
Definition traducirCatalanaEspanol (expresion : jsstring) : option jsstring :=
  match openai with
  | None => None
  | Some client =>
    match translation client expresion with
    | Throws _ => None
    | Content c =>
      let traduccion := option_map trim c in
      if truthy traduccion
      then option_map (fun t => trim (stripQuotes t)) traduccion
      else None
    end
  end.

(** The body of the [try] of [parsearConOpenAI]. *)
Definition parsearConOpenAI_try (client : OpenAI) (expresion : jsstring) (fechaReferencia : Z)
           (zonaHoraria : jsstring) : Outcome Fallback :=
  let refDate := match normalizeZone zonaHoraria with
                 | Some z => fromJSDate fechaReferencia z
                 | None => Invalid
                 end in
  let fechaRefISO := toISO refDate in
  match completion client expresion fechaRefISO zonaHoraria with
  | Throws mensaje => Raises mensaje
  | Content c =>
    let fechaISO := option_map trim c in
    match fechaISO with
    | Some (x :: t) =>
      if str_eqb (toLowerCase (x :: t)) sin_definir then Returns SinDefinir
      else
        let fechaLimpia := trim (stripQuotes (x :: t)) in
        let fechaParsed := fromISO fechaLimpia (normalizeZone zonaHoraria) in
        if isValid fechaParsed then Returns (Fecha fechaParsed) else Returns Null
    | _ => Returns SinDefinir
    end
  end.

(** Usa OpenAI como fallback para parsear expresiones que Chrono no entiende. *)
Definition parsearConOpenAI (expresion : jsstring) (fechaReferencia : Z) (zonaHoraria : jsstring)
  : Outcome Fallback :=
  match openai with
  | None => Returns Null
  | Some client =>
    match parsearConOpenAI_try client expresion fechaReferencia zonaHoraria with
    | Raises _ => Returns Null
    | Returns v => Returns v
    end
  end.

(** The Catalan branch of the handler: chrono on the text, then on the text
    after the table of translations, then on the translation of the model. *)
Definition traducirConTabla (expresion : jsstring) : jsstring :=
  fold_left (fun acc p => replace_gi O acc (fst p) (snd p)) traducciones expresion.

Definition parsearCatalan (expresion : jsstring) (refDateJS : Z) : option Z :=
  let parsed := parseDate expresion refDateJS in
  let parsed :=
    match parsed with
    | Some _ => parsed
    | None =>
      let expresionTraducida := traducirConTabla expresion in
      if negb (str_eqb expresionTraducida expresion)
      then parseDate expresionTraducida refDateJS
      else None
    end in
  match parsed, openai with
  | None, Some _ =>
    match traducirCatalanaEspanol expresion with
    | Some (x :: t) => parseDate (x :: t) refDateJS
    | _ => None
    end
  | _, _ => parsed
  end.

(** The base parser under the detected language. *)
Definition parsearBase (expresion : jsstring) (refDateJS : Z) : option Z :=
  let idioma := detectarIdioma expresion in
  match idioma with
  | ca => parsearCatalan expresion refDateJS
  | es => parseDate expresion refDateJS
  end.

(** What the stages before the assembly come to: a date, or a response
    sent at once. *)
Inductive Stage :=
| Resuelta (fecha : DateTime)
| Responde (r : Response).

Definition respuestaNoInterpretada : Response :=
  mkResponse 200 (ErrorBody (js "No se pudo interpretar la fecha.")).

(** What the [catch] of the handler answers to an error. *)
Definition respuesta500 (mensaje : jsstring) : Response := mkResponse 500 (ErrorBody mensaje).

Definition resolver (expresion : jsstring) (refDate : DateTime) (zonaHoraria : jsstring) : Stage :=
  match preprocesarExpresion expresion (toJSDate refDate) with
  | Some preprocesado => Resuelta preprocesado
  | None =>
    let refDateJS := toJSDate refDate in
    match parsearBase expresion refDateJS with
    | None =>
      match parsearConOpenAI expresion refDateJS zonaHoraria with
      | Raises mensaje => Responde (respuesta500 mensaje)
      | Returns SinDefinir => Responde respuestaSinDefinir
      | Returns (Fecha fechaOpenAI) => Resuelta fechaOpenAI
      | Returns Null => Responde respuestaNoInterpretada
      end
    | Some p =>
      let fecha := match normalizeZone zonaHoraria with
                   | Some z => fromJSDate p z
                   | None => Invalid
                   end in
      let fecha := validarYCorregirFecha fecha refDateJS expresion in
      if lt fecha refDate && (match openai with Some _ => true | None => false end) then
        match parsearConOpenAI expresion refDateJS zonaHoraria with
        | Raises mensaje => Responde (respuesta500 mensaje)
        | Returns SinDefinir => Resuelta fecha
        | Returns (Fecha fechaOpenAI) =>
          if ge fechaOpenAI refDate then Resuelta fechaOpenAI else Resuelta fecha
        | Returns Null => Resuelta fecha
        end
      else Resuelta fecha
    end
  end.

(** The assembly of the response from the resolved date. *)
Definition diasFinde (idioma : Locale) : list jsstring :=
  match idioma with
  | ca => map js ["dissabte"; "diumenge"; "sábado"; "domingo"]%string
  | es => map js ["sábado"; "domingo"]%string
  end.

Definition ensamblar (fecha refDate : DateTime) (expresion : jsstring) : Response :=
  let idioma := detectarIdioma expresion in
  let dia_semana := toFormat_cccc idioma fecha in
  let es_finde :=
    some (fun dia => includes (toLowerCase dia_semana) (toLowerCase dia)) (diasFinde idioma) in
  let es_pasado := lt fecha refDate in
  mkResponse 200
    (FechaBody (toFormat_date fecha) dia_semana (toFormat_time fecha) (toISO fecha)
               es_finde es_pasado).

(** [app.post("/parse-fecha", ...)]. *)
Definition parse_fecha (req : Request) : Response :=
  let zonaHoraria := match zona_horaria req with
                     | Some z => z
                     | None => js "Europe/Madrid"
                     end in
  match referencia req, expresion_usuario req with
  | Some (r :: rs), Some (e :: ex) =>
    let referencia := r :: rs in
    let expresion := e :: ex in
    if negb (esExpresionTemporalClara expresion) then respuestaSinDefinir
    else
      let refDate := fromISO referencia (normalizeZone zonaHoraria) in
      if negb (isValid refDate)
      then mkResponse 400 (ErrorBody (js "Referencia inválida."))
      else
        match resolver expresion refDate zonaHoraria with
        | Responde r => r
        | Resuelta fecha => ensamblar fecha refDate expresion
        end
  | _, _ =>
    mkResponse 400 (ErrorBody (js "Faltan parámetros requeridos: referencia y expresion_usuario."))
  end.

End Handler.

End Server.

(** ** The server, revision of [src/server.js]

    The earlier revision has no classifier and no rule for "weekday of next
    week"; its corrector moves every past date, skips the weekend on a
    Friday, gives 14:00 by default and keeps the morning for Fridays. Its
    patterns are those of the latest revision. *)

Module ServerJs.

Section Handler.

Variable systemZone : Zone.

Definition preprocesarExpresion (expresion : jsstring) (fechaReferencia : Z) : option DateTime :=
  let normalizada := trim (toLowerCase expresion) in
  let refDate := fromJSDate fechaReferencia systemZone in
  match match_ expresion Server.rePasadoMananaHora with
  | Some m =>
    let horaNum := parseInt (match m with Some t => t | None => [] end) in
    Some (set (plusDays refDate 2) (Server.horaEnPunto horaNum))
  | None =>
  match match_ expresion Server.reDemaPassatHora with
  | Some m =>
    let horaNum := parseInt (match m with Some t => t | None => [] end) in
    Some (set (plusDays refDate 2) (Server.horaEnPunto horaNum))
  | None =>
  if includes normalizada (js "pasado mañana") || includes normalizada (js "demà passat")
  then Some (plusDays refDate 2)
  else
    match match_ normalizada Server.reQueViene with
    | Some m =>
      match Server.diaObjetivoDe m, weekday refDate with
      | Some diaObjetivo, Some hoyDiaSemana =>
        Some (set (plusDays refDate (Server.diasQueViene diaObjetivo hoyDiaSemana))
                  (Server.horaEnPunto 14))
      | Some _, None => Some Invalid
      | None, _ => None
      end
    | None => None
    end
  end end.

(** The four rules of [validarYCorregirFecha], in the order of the source. *)
Definition corregirPasado (fecha refDate : DateTime) : DateTime :=
  if lt fecha refDate then
    match weekday fecha, weekday refDate, get hour fecha, get minute fecha with
    | Some diaSemana, Some hoyDiaSemana, Some h, Some mi =>
      let diasSumar := diaSemana - hoyDiaSemana in
      let diasSumar := if diasSumar <=? 0 then diasSumar + 7 else diasSumar in
      let diasSumar := if (hoyDiaSemana =? 5) && (diasSumar <=? 2) then 3 else diasSumar in
      set (plusDays refDate diasSumar) (mkSet (Some h) (Some mi) (Some 0) (Some 0))
    | _, _, _, _ => fecha
    end
  else fecha.

Definition horaPorDefecto (fecha : DateTime) (normalizada : jsstring) : DateTime :=
  match get hour fecha, get minute fecha with
  | Some 0, Some 0 =>
    if negb (matches normalizada Server.reHoraExplicita)
    then set fecha (mkSet (Some 14) (Some 0) None None)
    else fecha
  | _, _ => fecha
  end.

Definition hora7 (fecha : DateTime) (normalizada : jsstring) : DateTime :=
  if matches normalizada Server.reHora7 then
    match get hour fecha with
    | Some 7 => set fecha (mkSet (Some 19) None None None)
    | _ => fecha
    end
  else fecha.

Definition soloViernesManana (fecha : DateTime) : DateTime :=
  match weekday fecha, get hour fecha with
  | Some w, Some h =>
    if negb (w =? 5) && (10 <=? h) && (h <? 14)
    then set fecha (mkSet (Some 14) None None None)
    else fecha
  | _, _ => fecha
  end.

Definition validarYCorregirFecha (fecha : DateTime) (fechaReferencia : Z) (expresion : jsstring)
  : DateTime :=
  let refDate := fromJSDate fechaReferencia systemZone in
  let normalizada := toLowerCase expresion in
  let fecha := corregirPasado fecha refDate in
  let fecha := horaPorDefecto fecha normalizada in
  let fecha := hora7 fecha normalizada in
  soloViernesManana fecha.

(** The collaborators of the handler, as in the latest revision. *)
Variable normalizeZone : jsstring -> option Zone.
Variable parseDate : jsstring -> Z -> option Z.
Variable openai : option OpenAI.

(** The body of the [try] of [parsearConOpenAI]: this revision has no
    sentinel, the function returns a DateTime or [null]. *)
Definition parsearConOpenAI_try (client : OpenAI) (expresion : jsstring) (fechaReferencia : Z)
           (zonaHoraria : jsstring) : Outcome (option DateTime) :=
  let refDate := match normalizeZone zonaHoraria with
                 | Some z => fromJSDate fechaReferencia z
                 | None => Invalid
                 end in
  let fechaRefISO := toISO refDate in
  match completion client expresion fechaRefISO zonaHoraria with
  | Throws mensaje => Raises mensaje
  | Content c =>
    let fechaISO := option_map trim c in
    match fechaISO with
    | Some (x :: t) =>
      let fechaLimpia := trim (stripQuotes (x :: t)) in
      let fechaParsed := fromISO fechaLimpia (normalizeZone zonaHoraria) in
      if isValid fechaParsed then Returns (Some fechaParsed) else Returns None
    | _ => Returns None
    end
  end.

Definition parsearConOpenAI (expresion : jsstring) (fechaReferencia : Z) (zonaHoraria : jsstring)
  : option DateTime :=
  match openai with
  | None => None
  | Some client =>
    match parsearConOpenAI_try client expresion fechaReferencia zonaHoraria with
    | Raises _ => None
    | Returns v => v
    end
  end.

(** The stages of the handler before the assembly. The language detector,
    the Catalan branch and the assembly are those of the latest revision,
    word for word. *)
Definition resolver (expresion : jsstring) (refDate : DateTime) (zonaHoraria : jsstring)
  : Server.Stage :=
  match preprocesarExpresion expresion (toJSDate refDate) with
  | Some preprocesado => Server.Resuelta preprocesado
  | None =>
    let refDateJS := toJSDate refDate in
    match Server.parsearBase parseDate openai expresion refDateJS with
    | None =>
      match parsearConOpenAI expresion refDateJS zonaHoraria with
      | Some fechaOpenAI => Server.Resuelta fechaOpenAI
      | None => Server.Responde Server.respuestaNoInterpretada
      end
    | Some p =>
      let fecha := match normalizeZone zonaHoraria with
                   | Some z => fromJSDate p z
                   | None => Invalid
                   end in
      let fecha := validarYCorregirFecha fecha refDateJS expresion in
      if lt fecha refDate && (match openai with Some _ => true | None => false end) then
        match parsearConOpenAI expresion refDateJS zonaHoraria with
        | Some fechaOpenAI =>
          if ge fechaOpenAI refDate then Server.Resuelta fechaOpenAI else Server.Resuelta fecha
        | None => Server.Resuelta fecha
        end
      else Server.Resuelta fecha
    end
  end.

(** [app.post("/parse-fecha", ...)] of this revision: no classifier. *)
Definition parse_fecha (req : Request) : Response :=
  let zonaHoraria := match zona_horaria req with
                     | Some z => z
                     | None => js "Europe/Madrid"
                     end in
  match referencia req, expresion_usuario req with
  | Some (r :: rs), Some (e :: ex) =>
    let referencia := r :: rs in
    let expresion := e :: ex in
    let refDate := fromISO referencia (normalizeZone zonaHoraria) in
    if negb (isValid refDate)
    then mkResponse 400 (ErrorBody (js "Referencia inválida."))
    else
      match resolver expresion refDate zonaHoraria with
      | Server.Responde r => r
      | Server.Resuelta fecha => Server.ensamblar fecha refDate expresion
      end
  | _, _ =>
    mkResponse 400 (ErrorBody (js "Faltan parámetros requeridos: referencia y expresion_usuario."))
  end.

End Handler.

End ServerJs.

(** ** The server, second revision

    The preprocessor of the second revision knows the three "pasado
    mañana" phrases and nothing else. *)

Module SegundoServidor.

Section Handler.

Variable systemZone : Zone.

Definition preprocesarExpresion (expresion : jsstring) (fechaReferencia : Z) : option DateTime :=
  let normalizada := trim (toLowerCase expresion) in
  let refDate := fromJSDate fechaReferencia systemZone in
  match match_ expresion Server.rePasadoMananaHora with
  | Some m =>
    let horaNum := parseInt (match m with Some t => t | None => [] end) in
    Some (set (plusDays refDate 2) (Server.horaEnPunto horaNum))
  | None =>
  match match_ expresion Server.reDemaPassatHora with
  | Some m =>
    let horaNum := parseInt (match m with Some t => t | None => [] end) in
    Some (set (plusDays refDate 2) (Server.horaEnPunto horaNum))
  | None =>
  if includes normalizada (js "pasado mañana") || includes normalizada (js "demà passat")
  then Some (plusDays refDate 2)
  else None
  end end.

End Handler.

End SegundoServidor.

(** ** The server, first revision

    The handler of the first revision hands the expression to chrono and
    formats what it reads: no preprocessor, no corrector, no model, Spanish
    weekday names. *)

Module PrimerServidor.

Section Handler.

Variable normalizeZone : jsstring -> option Zone.
Variable parseDate : jsstring -> Z -> option Z.

Definition parse_fecha (req : Request) : Response :=
  let zonaHoraria := match zona_horaria req with
                     | Some z => z
                     | None => js "Europe/Madrid"
                     end in
  match referencia req, expresion_usuario req with
  | Some (r :: rs), Some (e :: ex) =>
    let referencia := r :: rs in
    let expresion := e :: ex in
    let refDate := fromISO referencia (normalizeZone zonaHoraria) in
    if negb (isValid refDate)
    then mkResponse 400 (ErrorBody (js "Referencia inválida."))
    else
      match parseDate expresion (toJSDate refDate) with
      | None => mkResponse 200 (ErrorBody (js "No se pudo interpretar la fecha."))
      | Some parsed =>
        let fecha := match normalizeZone zonaHoraria with
                     | Some z => fromJSDate parsed z
                     | None => Invalid
                     end in
        let dia_semana := toFormat_cccc es fecha in
        let es_finde :=
          existsb (str_eqb (toLowerCase dia_semana)) (map js ["sábado"; "domingo"]%string) in
        let es_pasado := lt fecha refDate in
        mkResponse 200
          (FechaBody (toFormat_date fecha) dia_semana (toFormat_time fecha) (toISO fecha)
                     es_finde es_pasado)
      end
  | _, _ =>
    mkResponse 400 (ErrorBody (js "Faltan parámetros requeridos: referencia y expresion_usuario."))
  end.

End Handler.

End PrimerServidor.

(** ** Auxiliary definitions of the proofs *)

(** A bounded universal quantifier over an integer interval, by evaluation. *)
Fixpoint all_from (fuel : nat) (i : Z) (p : Z -> bool) : bool :=
  match fuel with
  | O => true
  | S f => p i && all_from f (i + 1) p
  end.

(** The day of the 400-year era, split into year of era, month and day, and
    put together again. *)
Definition era_check (doe : Z) : bool :=
  let yoe := (doe - doe / 1460 + doe / 36524 - doe / 146096) / 365 in
  let doy := doe - (365 * yoe + yoe / 4 - yoe / 100) in
  let mp := (5 * doy + 2) / 153 in
  let d := doy - (153 * mp + 2) / 5 + 1 in
  let m := if mp <? 10 then mp + 3 else mp - 9 in
  let mp' := if 2 <? m then m - 3 else m + 9 in
  (d <=? daysInMonth (if m <=? 2 then yoe + 1 else yoe) m)
  && (0 <=? yoe) && (yoe <? 400) && (1 <=? m) && (m <=? 12) && (1 <=? d) && (d <=? 31)
  && (yoe * 365 + yoe / 4 - yoe / 100 + ((153 * mp' + 2) / 5 + d - 1) =? doe).

(** Day number and time of day of a local time stamp. *)
Definition dayNumber (l : Z) : Z := l / msPerDay.
Definition msOfDay (l : Z) : Z := l mod msPerDay.

(** The weekday of a day number: 1970-01-01 was a Thursday. *)
Definition wd (n : Z) : Z :=
  let j := (n + 4) mod 7 in if j =? 0 then 7 else j.

(** The time of day that [set] writes. *)
Definition setMsOfDay (l : Z) (v : SetValues) : Z :=
  orKeep (set_hour v) (hour (tsToObj l)) * 3600000
  + orKeep (set_minute v) (minute (tsToObj l)) * 60000
  + orKeep (set_second v) (second (tsToObj l)) * 1000
  + orKeep (set_millisecond v) (millisecond (tsToObj l)).



(** The Monday that opens the week of a day number. *)
Definition lunesDe (n : Z) : Z := n - (wd n - 1).

(** The day counts in the words of the specification: the days to next
    Monday, [(8 - currentWeekday) mod 7] with 7 for a remainder of 0, and
    the nearest future occurrence, [(target - current) mod 7] with 7 in
    place of 0. *)
Definition hastaLunesProximo (hoy : Z) : Z :=
  let r := (8 - hoy) mod 7 in if r =? 0 then 7 else r.

Definition proximaOcurrencia (objetivo hoy : Z) : Z :=
  let r := (objetivo - hoy) mod 7 in if r =? 0 then 7 else r.

(** None of the three "pasado mañana" rules of the preprocessor applies. *)
Definition sinPasadoManana (expresion : jsstring) : bool :=
  negb (matches expresion Server.rePasadoMananaHora)
  && negb (matches expresion Server.reDemaPassatHora)
  && negb (includes (trim (toLowerCase expresion)) (js "pasado mañana"))
  && negb (includes (trim (toLowerCase expresion)) (js "demà passat")).

(** The zone of the scenarios: Europe/Madrid in November, UTC+1. *)
Definition Madrid : Zone := mkZone IANAZone 60.

(** A date is not before a time stamp: it is invalid, so that no comparison
    holds, or its time stamp is at or after it. *)
Definition noAntes (d : DateTime) (ref : Z) : Prop :=
  match d with
  | Invalid => True
  | DT t _ => ref <= t
  end.

(** The greetings of [soloSaludos] that hold no temporal keyword. *)
Definition saludosPuros : list jsstring :=
  filter (fun saludo => negb (some (fun palabra => includes saludo palabra) Server.palabrasTemporales))
         Server.soloSaludos.

(** The punctuation a greeting may end with. *)
Definition sufijos : list jsstring := [[]; js "."; js "!"; js "?"].

(** The response of the model after the two cleanings of the code: [trim],
    then the deletion of quotes and [trim] again. *)
Definition limpiar (respuesta : jsstring) : jsstring := trim (stripQuotes (trim respuesta)).

(** A client whose completions all hold the same content. *)
Definition clienteFijo (contenido : option jsstring) : OpenAI :=
  mkOpenAI (fun _ => Content contenido) (fun _ _ _ => Content contenido).

(** A code unit that is neither white space nor a quote. *)
Definition sinEspacioNiComilla (c : Z) : bool :=
  negb (isSpace c) && negb ((c =? 39) || (c =? 34)).

(** A client whose calls all fail. *)
Definition clienteCaido : OpenAI :=
  mkOpenAI (fun _ => Throws (js "Request timed out.")) (fun _ _ _ => Throws (js "Request timed out.")).

(** A request with its three fields. *)
Definition peticion (ref expresion zona : string) : Request :=
  mkRequest (Some (js ref)) (Some (js expresion)) (Some (js zona)).

(** The decimal digits of a number in a field of two, three and four. *)
Definition digitos2 (n : Z) : jsstring := [48 + n / 10; 48 + n mod 10].

Definition digitos3 (n : Z) : jsstring :=
  [48 + n / 100; 48 + (n / 10) mod 10; 48 + n mod 10].

Definition digitos4 (n : Z) : jsstring :=
  [48 + n / 1000; 48 + (n / 100) mod 10; 48 + (n / 10) mod 10; 48 + n mod 10].

(** The offset that closes an ISO string, as [toISOTime] writes it. *)
Definition textoOffset (z : Zone) : jsstring :=
  match zkind z, zoffset z =? 0 with
  | FixedOffsetZone, true => js "Z"
  | _, _ =>
    if zoffset z <? 0
    then js "-" ++ padStart (Z.quot (- zoffset z) 60) 2 ++ js ":" ++ padStart (Z.rem (- zoffset z) 60) 2
    else js "+" ++ padStart (Z.quot (zoffset z) 60) 2 ++ js ":" ++ padStart (Z.rem (zoffset z) 60) 2
  end.

(** The zone table knows Europe/Madrid. *)
Definition normalizeZone_ok (normalizeZone : jsstring -> option Zone) : Prop :=
  normalizeZone (js "Europe/Madrid") = Some Madrid.

(** The collaborators of the scenarios: the zone names of the scenarios,
    a chrono that reads nothing, a chrono with one fixed answer. *)
Definition NuevaYork : Zone := mkZone IANAZone (-300).

(** Two zones a process may run in: UTC, the zone of a container that sets
    none, and Pacific/Honolulu, UTC-10 the whole year. *)
Definition UTC : Zone := mkZone SystemZone 0.

Definition Honolulu : Zone := mkZone SystemZone (-600).

Definition zonas (nombre : jsstring) : option Zone :=
  if str_eqb nombre (js "Europe/Madrid") then Some Madrid
  else if str_eqb nombre (js "America/New_York") then Some NuevaYork
  else None.

Definition sinChrono : jsstring -> Z -> option Z := fun _ _ => None.

Definition chronoFijo (t : Z) : jsstring -> Z -> option Z := fun _ _ => Some t.

(** The field [fecha_resuelta] of a body, when it has one. *)
Definition fechaResuelta (b : Body) : option jsstring :=
  match b with
  | FechaBody f _ _ _ _ _ => Some f
  | ErrorBody _ => None
  end.

Definition esPasado (b : Body) : option bool :=
  match b with
  | FechaBody _ _ _ _ _ p => Some p
  | ErrorBody _ => None
  end.

(** The other fields of a body that holds a date. *)
Definition esFinde (b : Body) : option bool :=
  match b with
  | FechaBody _ _ _ _ f _ => Some f
  | ErrorBody _ => None
  end.

Definition horaDe (b : Body) : option jsstring :=
  match b with
  | FechaBody _ _ h _ _ _ => Some h
  | ErrorBody _ => None
  end.

Definition diaSemanaDe (b : Body) : option jsstring :=
  match b with
  | FechaBody _ d _ _ _ _ => Some d
  | ErrorBody _ => None
  end.

Definition isoDatetime (b : Body) : option (option jsstring) :=
  match b with
  | FechaBody _ _ _ iso _ _ => Some iso
  | ErrorBody _ => None
  end.

(** A code unit that is no quote, and one that is no white space. *)
Definition sinComilla (c : Z) : bool := negb ((c =? 39) || (c =? 34)).

Definition sinEspacio (c : Z) : bool := negb (isSpace c).

(** The weekday names of the patterns of the preprocessor, as texts. *)
Definition nombresDeDia : list jsstring :=
  map js ["lunes"; "martes"; "miércoles"; "miercoles"; "jueves"; "viernes";
          "sábado"; "sabado"; "domingo"; "dilluns"; "dimarts"; "dimecres";
          "dijous"; "divendres"; "dissabte"; "diumenge"]%string.

(** A text is the end of another. *)
Definition sufijo (s' s : jsstring) : Prop := exists pre, s = pre ++ s'.

(** A lower-case letter of the alphabets of the word lists. *)
Definition letra (c : Z) : bool :=
  ((97 <=? c) && (c <=? 122)) || ((224 <=? c) && (c <=? 254) && negb (c =? 247)).

(** Every key of the table of translations is a word of the language
    detector, made of lower-case letters. *)
Definition claves_tabla : bool :=
  forallb (fun p => existsb (str_eqb (fst p)) Server.palabrasCatalanas
                    && forallb letra (fst p)
                    && negb (Nat.eqb (List.length (fst p)) 0))
          Server.traducciones.

(** The weekend flag of the first revision, an exact comparison with the
    two Spanish names, checked against the number of the weekday. *)
Definition finde_tabla_es : bool :=
  forallb (fun w =>
             Bool.eqb (existsb (str_eqb (toLowerCase (weekdayName es w)))
                               (map js ["sábado"; "domingo"]%string))
                      (6 <=? w))
          [1; 2; 3; 4; 5; 6; 7].

(** The weekend flag of every weekday name, checked against the number of
    the weekday, in the two locales. *)
Definition finde_tabla : bool :=
  forallb (fun l =>
             forallb (fun w =>
                        Bool.eqb (some (fun dia => includes (toLowerCase (weekdayName l w))
                                                            (toLowerCase dia))
                                       (Server.diasFinde l))
                                 (6 <=? w))
                     [1; 2; 3; 4; 5; 6; 7])
          [es; ca].

(** * Proofs *)

(** ** Facts about the matcher *)

Section RegexFacts.

Lemma str_eqb_eq (a b : jsstring) : str_eqb a b = true <-> a = b.
Proof.
  revert b; induction a as [|x a IH]; intros [|y b]; simpl; split;
    try congruence; try discriminate.
  - intros H. apply andb_true_iff in H as [H1 H2].
    apply Z.eqb_eq in H1. apply IH in H2. congruence.
  - intros H. injection H as -> ->. rewrite Z.eqb_refl. simpl. now apply IH.
Qed.

(** A match ends in the continuation. *)
Lemma rmatch_cont (r : regex) :
  forall prev s cap (k : cont) res,
    rmatch r prev s cap k = Some res ->
    exists p' s' c', k p' s' c' = Some res.
Proof.
  induction r as [|c|cs|p|a IHa b IHb|a IHa b IHb|a IHa|a IHa|]; intros prev s cap k res H; simpl in H.
  - eauto.
  - destruct s as [|x s']; [discriminate|]. destruct (canon x =? canon c); [eauto|discriminate].
  - destruct s as [|x s']; [discriminate|].
    destruct (existsb _ cs); [eauto|discriminate].
  - destruct s as [|x s']; [discriminate|]. destruct (p x); [eauto|discriminate].
  - apply IHa in H as (p' & s' & c' & H). apply IHb in H. exact H.
  - destruct (rmatch a prev s cap k) eqn:E.
    + injection H as <-. apply IHa in E. exact E.
    + apply IHb in H. exact H.
  - revert H. generalize (List.length s) as n. revert prev s cap.
    intros prev0 s0 cap0 n; revert prev0 s0 cap0.
    induction n as [|n IHn]; intros prev s cap H; simpl in H.
    + eauto.
    + match type of H with
      | match ?X with _ => _ end = _ => destruct X eqn:E
      end.
      * injection H as <-. apply IHa in E as (p' & s' & c' & E).
        destruct (List.length s' <? List.length s)%nat; [|discriminate].
        apply IHn in E. exact E.
      * eauto.
  - apply IHa in H as (p' & s' & c' & H). eauto.
  - destruct (xorb _ _); [eauto|discriminate].
Qed.

Lemma rmatch_seq_tail (a b : regex) prev s cap (k : cont) res :
  rmatch (RSeq a b) prev s cap k = Some res ->
  exists p' s' c', rmatch b p' s' c' k = Some res.
Proof. simpl. intros H. apply rmatch_cont in H. exact H. Qed.

(** What a run of digits hands on: the digits it took and the rest. *)
Lemma rmatch_star_digit (k : cont) :
  forall (n : nat) prev s cap res,
    starLoop (rmatch digit) k n prev s cap = Some res ->
    exists ds rest p', s = ds ++ rest /\ forallb isDigit ds = true /\ k p' rest cap = Some res.
Proof.
  induction n as [|n IH]; intros prev s cap res H; simpl in H.
  - exists [], s, prev. auto.
  - match type of H with
    | match ?X with _ => _ end = _ => destruct X eqn:E
    end.
    + injection H as <-.
      destruct s as [|x s']; [discriminate|].
      destruct (isDigit x) eqn:Dx; [|discriminate].
      destruct (List.length s' <? List.length (x :: s'))%nat; [|discriminate].
      apply IH in E as (ds & rest & p' & -> & Hd & Hk).
      exists (x :: ds), rest, p'. simpl. rewrite Dx, Hd. auto.
    + exists [], s, prev. auto.
Qed.

Lemma rmatch_group_digits prev s cap (k : cont) res :
  rmatch (RGroup (plus digit)) prev s cap k = Some res ->
  exists ds p' s', forallb isDigit ds = true /\ k p' s' (Some ds) = Some res.
Proof.
  unfold plus, digit. simpl. intros H.
  destruct s as [|x s1]; [discriminate|].
  destruct (isDigit x) eqn:Dx; [|discriminate].
  apply (rmatch_star_digit
           (fun p' s' _ =>
              k p' s' (Some (firstn (List.length (x :: s1) - List.length s') (x :: s1))))) in H.
  destruct H as (ds & rest & p' & -> & Hd & Hk).
  exists (x :: ds), p', rest. split; [simpl; now rewrite Dx, Hd|].
  replace (firstn (List.length (x :: ds ++ rest) - List.length rest) (x :: ds ++ rest))
    with (x :: ds) in Hk; [exact Hk|].
  change (x :: ds ++ rest) with ((x :: ds) ++ rest).
  rewrite length_app, Nat.add_sub, firstn_app, Nat.sub_diag, firstn_all. simpl.
  now rewrite app_nil_r.
Qed.

Lemma search_from_inv (r : regex) :
  forall s prev c,
    search_from r prev s = Some c ->
    exists p' s', rmatch r p' s' None (fun _ _ c => Some c) = Some c.
Proof.
  induction s as [|x s IH]; intros prev c H; simpl in H.
  - destruct (rmatch r prev [] None _) eqn:E; [injection H as <-; eauto|discriminate].
  - destruct (rmatch r prev (x :: s) None _) eqn:E; [injection H as <-; eauto|].
    apply IH in H. exact H.
Qed.

Lemma parseInt_digits_nonneg (ds : jsstring) : forallb isDigit ds = true -> 0 <= parseInt ds.
Proof.
  assert (G : forall ds acc, 0 <= acc -> forallb isDigit ds = true ->
                             0 <= fold_left (fun a c => a * 10 + (c - 48)) ds acc).
  { clear. induction ds as [|c ds IH]; intros acc Ha Hd; simpl in *; [exact Ha|].
    apply andb_true_iff in Hd as [Hc Hd]. apply IH; [|exact Hd].
    unfold isDigit in Hc. apply andb_true_iff in Hc as [H1 H2].
    apply Z.leb_le in H1. lia. }
  intros H. apply G; [lia|exact H].
Qed.

End RegexFacts.

(** ** Calendar arithmetic *)

Section CivilRoundTrip.


Lemma all_from_spec (p : Z -> bool) (fuel : nat) (i : Z) :
  all_from fuel i p = true ->
  forall j, i <= j < i + Z.of_nat fuel -> p j = true.
Proof.
  revert i; induction fuel as [|f IH]; intros i H j Hj.
  - simpl in Hj. lia.
  - simpl in H. apply andb_true_iff in H as [Hi Hr].
    destruct (Z.eq_dec j i) as [->|Hne]; [exact Hi|].
    apply (IH (i + 1) Hr). lia.
Qed.


Lemma era_check_all : all_from (Z.to_nat 146097) 0 era_check = true.
Proof. vm_compute. reflexivity. Qed.

Lemma era_check_ok (doe : Z) : 0 <= doe < 146097 -> era_check doe = true.
Proof.
  intros H. apply (all_from_spec era_check (Z.to_nat 146097) 0 era_check_all).
  rewrite Z2Nat.id; lia.
Qed.


Lemma civil_roundtrip (n : Z) :
  let '(y, m, d) := civil_from_days n in days_from_civil y m d = n.
Proof.
  unfold civil_from_days.
  set (z := n + 719468).
  set (era := z / 146097).
  set (doe := z - era * 146097).
  assert (Hdoe : 0 <= doe < 146097).
  { unfold doe, era. pose proof (Z.mod_pos_bound z 146097 ltac:(lia)) as Hm.
    rewrite Z.mod_eq in Hm by lia. lia. }
  pose proof (era_check_ok doe Hdoe) as Hc. unfold era_check in Hc.
  set (yoe := (doe - doe / 1460 + doe / 36524 - doe / 146096) / 365) in *.
  set (doy := doe - (365 * yoe + yoe / 4 - yoe / 100)) in *.
  set (mp := (5 * doy + 2) / 153) in *.
  set (d := doy - (153 * mp + 2) / 5 + 1) in *.
  set (m := if mp <? 10 then mp + 3 else mp - 9) in *.
  repeat (apply andb_true_iff in Hc as [Hc ?]).
  unfold days_from_civil.
  assert (Hy : (if m <=? 2 then (if m <=? 2 then yoe + era * 400 + 1 else yoe + era * 400) - 1
                else (if m <=? 2 then yoe + era * 400 + 1 else yoe + era * 400))
               = yoe + era * 400) by (destruct (m <=? 2); lia).
  rewrite Hy.
  assert (He : (yoe + era * 400) / 400 = era).
  { rewrite Z.div_add by lia. rewrite Z.div_small by lia. lia. }
  rewrite He.
  replace (yoe + era * 400 - era * 400) with yoe by lia.
  apply Z.eqb_eq in H. rewrite H. unfold doe, z. lia.
Qed.

Lemma isLeapYear_era (y era : Z) : isLeapYear (y + era * 400) = isLeapYear y.
Proof.
  unfold isLeapYear.
  replace ((y + era * 400) mod 4) with (y mod 4)
    by (replace (y + era * 400) with (y + (era * 100) * 4) by lia; now rewrite Z.mod_add by lia).
  replace ((y + era * 400) mod 100) with (y mod 100)
    by (replace (y + era * 400) with (y + (era * 4) * 100) by lia; now rewrite Z.mod_add by lia).
  replace ((y + era * 400) mod 400) with (y mod 400) by (now rewrite Z.mod_add by lia).
  reflexivity.
Qed.

(** The civil date of a day number is a date of the calendar. *)
Lemma civil_valid (n : Z) :
  let '(y, m, d) := civil_from_days n in
  1 <= m <= 12 /\ 1 <= d <= daysInMonth y m.
Proof.
  unfold civil_from_days.
  set (z := n + 719468).
  set (era := z / 146097).
  set (doe := z - era * 146097).
  assert (Hdoe : 0 <= doe < 146097).
  { unfold doe, era. pose proof (Z.mod_pos_bound z 146097 ltac:(lia)) as Hm.
    rewrite Z.mod_eq in Hm by lia. lia. }
  pose proof (era_check_ok doe Hdoe) as Hc. unfold era_check in Hc.
  set (yoe := (doe - doe / 1460 + doe / 36524 - doe / 146096) / 365) in *.
  set (doy := doe - (365 * yoe + yoe / 4 - yoe / 100)) in *.
  set (mp := (5 * doy + 2) / 153) in *.
  set (d := doy - (153 * mp + 2) / 5 + 1) in *.
  set (m := if mp <? 10 then mp + 3 else mp - 9) in *.
  repeat (apply andb_true_iff in Hc as [Hc ?]).
  repeat match goal with
         | [ X : (_ <=? _) = true |- _ ] => apply Z.leb_le in X
         end.
  split; [lia|]. split; [lia|].
  replace (if m <=? 2 then yoe + era * 400 + 1 else yoe + era * 400)
    with ((if m <=? 2 then yoe + 1 else yoe) + era * 400) by (destruct (m <=? 2); lia).
  unfold daysInMonth in *. rewrite isLeapYear_era. exact Hc.
Qed.

Lemma days_from_civil_shift (y m d n : Z) :
  days_from_civil y m (d + n) = days_from_civil y m d + n.
Proof. unfold days_from_civil. lia. Qed.

Lemma days_of_tsToObj (l : Z) :
  days_from_civil (year (tsToObj l)) (month (tsToObj l)) (day (tsToObj l)) = l / msPerDay.
Proof.
  unfold tsToObj. pose proof (civil_roundtrip (l / msPerDay)) as H.
  destruct (civil_from_days (l / msPerDay)) as [[y m] d]. exact H.
Qed.

End CivilRoundTrip.

(** ** Time of day and day number of a local time stamp *)

Section LocalFields.


Lemma msOfDay_bound (l : Z) : 0 <= msOfDay l < msPerDay.
Proof. unfold msOfDay, msPerDay. apply Z.mod_pos_bound. lia. Qed.

Lemma local_split (l : Z) : l = dayNumber l * msPerDay + msOfDay l.
Proof. unfold dayNumber, msOfDay, msPerDay. rewrite Z.mod_eq by lia. lia. Qed.

Lemma hour_tsToObj (l : Z) : hour (tsToObj l) = msOfDay l / 3600000.
Proof. unfold tsToObj. destruct (civil_from_days (l / msPerDay)) as [[y m] d]. reflexivity. Qed.

Lemma minute_tsToObj (l : Z) : minute (tsToObj l) = (msOfDay l / 60000) mod 60.
Proof. unfold tsToObj. destruct (civil_from_days (l / msPerDay)) as [[y m] d]. reflexivity. Qed.

Lemma second_tsToObj (l : Z) : second (tsToObj l) = (msOfDay l / 1000) mod 60.
Proof. unfold tsToObj. destruct (civil_from_days (l / msPerDay)) as [[y m] d]. reflexivity. Qed.

Lemma millisecond_tsToObj (l : Z) : millisecond (tsToObj l) = msOfDay l mod 1000.
Proof. unfold tsToObj. destruct (civil_from_days (l / msPerDay)) as [[y m] d]. reflexivity. Qed.

Lemma hour_bound (l : Z) : 0 <= hour (tsToObj l) <= 23.
Proof.
  rewrite hour_tsToObj. pose proof (msOfDay_bound l) as H. unfold msPerDay in H.
  split; [apply Z.div_pos; lia|]. apply Z.lt_succ_r. apply Z.div_lt_upper_bound; lia.
Qed.

Lemma minute_bound (l : Z) : 0 <= minute (tsToObj l) <= 59.
Proof. rewrite minute_tsToObj. pose proof (Z.mod_pos_bound (msOfDay l / 60000) 60). lia. Qed.

(** The time of day is the sum of its four fields. *)
Lemma msOfDay_fields (l : Z) :
  msOfDay l = hour (tsToObj l) * 3600000 + minute (tsToObj l) * 60000
              + second (tsToObj l) * 1000 + millisecond (tsToObj l).
Proof.
  rewrite hour_tsToObj, minute_tsToObj, second_tsToObj, millisecond_tsToObj.
  set (r := msOfDay l).
  pose proof (Z.div_mod r 1000 ltac:(lia)) as H1.
  pose proof (Z.div_mod (r / 1000) 60 ltac:(lia)) as H2.
  pose proof (Z.div_mod (r / 60000) 60 ltac:(lia)) as H3.
  replace (r / 1000 / 60) with (r / 60000) in H2 by (rewrite Z.div_div by lia; reflexivity).
  replace (r / 60000 / 60) with (r / 3600000) in H3 by (rewrite Z.div_div by lia; reflexivity).
  lia.
Qed.

Lemma objToLocalTS_tsToObj (l : Z) : objToLocalTS (tsToObj l) = l.
Proof.
  unfold objToLocalTS, DateUTC. rewrite days_of_tsToObj.
  pose proof (msOfDay_fields l). pose proof (local_split l). unfold dayNumber in *. lia.
Qed.

(** Fields of a time stamp built from a day number and a time of day. *)
Lemma dayNumber_build (n r : Z) : 0 <= r < msPerDay -> dayNumber (n * msPerDay + r) = n.
Proof.
  intros H. unfold dayNumber, msPerDay in *.
  rewrite Z.add_comm, Z.div_add by lia. rewrite Z.div_small by lia. lia.
Qed.

Lemma msOfDay_build (n r : Z) : 0 <= r < msPerDay -> msOfDay (n * msPerDay + r) = r.
Proof.
  intros H. unfold msOfDay, msPerDay in *.
  rewrite Z.add_comm, Z.mod_add by lia. apply Z.mod_small; lia.
Qed.

End LocalFields.

(** ** Luxon's arithmetic on the time stamp *)

Section LuxonFacts.


Lemma wd_range (n : Z) : 1 <= wd n <= 7.
Proof.
  unfold wd. pose proof (Z.mod_pos_bound (n + 4) 7 ltac:(lia)).
  destruct ((n + 4) mod 7 =? 0) eqn:E; [lia|]. apply Z.eqb_neq in E. lia.
Qed.

Lemma wd_shift (n k : Z) : wd (n + k) = wd (n + k mod 7).
Proof.
  unfold wd.
  replace ((n + k + 4) mod 7) with ((n + k mod 7 + 4) mod 7); [reflexivity|].
  rewrite (Z.div_mod k 7) at 2 by lia.
  replace (n + (7 * (k / 7) + k mod 7) + 4) with (n + k mod 7 + 4 + (k / 7) * 7) by lia.
  now rewrite Z.mod_add by lia.
Qed.

(** Going on from a day of weekday [a] by [d] days reaches the weekday [b]
    when [d] is [b - a] modulo 7. *)
Lemma wd_reach (n d b : Z) :
  1 <= b <= 7 -> (d - (b - wd n)) mod 7 = 0 -> wd (n + d) = b.
Proof.
  intros Hb Hd.
  apply Z.mod_divide in Hd; [|lia]. destruct Hd as [q Hq].
  unfold wd in *.
  pose proof (Z.mod_pos_bound (n + 4) 7 ltac:(lia)) as B1.
  pose proof (Z.mod_pos_bound (n + d + 4) 7 ltac:(lia)) as B2.
  pose proof (Z.div_mod (n + 4) 7 ltac:(lia)) as E1.
  pose proof (Z.div_mod (n + d + 4) 7 ltac:(lia)) as E2.
  revert Hq.
  destruct (Z.eqb_spec ((n + 4) mod 7) 0); destruct (Z.eqb_spec ((n + d + 4) mod 7) 0);
    intros Hq; lia.
Qed.

Lemma weekday_DT (t : Z) (z : Zone) :
  weekday (DT t z) = Some (wd (dayNumber (localTS t z))).
Proof.
  unfold weekday, get, toObject, option_map, weekdayOf, dayOfWeek.
  rewrite days_of_tsToObj. reflexivity.
Qed.


Lemma mk_valid (t : Z) (z : Zone) : Z.abs t <= MAX_TS -> mk t z = DT t z.
Proof.
  intros H. unfold mk, timeClip. apply Z.leb_le in H. now rewrite H.
Qed.

Lemma mk_DT_inv (t t' : Z) (z z' : Zone) : mk t z = DT t' z' -> t' = t /\ z' = z /\ Z.abs t <= MAX_TS.
Proof.
  unfold mk, timeClip. destruct (Z.abs t <=? MAX_TS) eqn:E; [|discriminate].
  intros H; injection H as <- <-. apply Z.leb_le in E. auto.
Qed.

Lemma lt_DT (a b : Z) (z1 z2 : Zone) : lt (DT a z1) (DT b z2) = (a <? b).
Proof. reflexivity. Qed.

Lemma plusDays_DT (t : Z) (z : Zone) (n : Z) :
  plusDays (DT t z) n = mk (t + n * msPerDay) z.
Proof.
  unfold plusDays. f_equal. unfold DateUTC.
  rewrite days_from_civil_shift, days_of_tsToObj.
  pose proof (msOfDay_fields (localTS t z)) as F.
  pose proof (local_split (localTS t z)) as L.
  unfold dayNumber, localTS in *. lia.
Qed.


Lemma set_DT (t : Z) (z : Zone) (v : SetValues) :
  set (DT t z) v
  = mk (dayNumber (localTS t z) * msPerDay + setMsOfDay (localTS t z) v - zoffset z * 60000) z.
Proof.
  unfold set, setMsOfDay. f_equal. unfold DateUTC. rewrite days_of_tsToObj.
  unfold dayNumber. lia.
Qed.


Lemma localTS_inv (t : Z) (z : Zone) : localTS t z - zoffset z * 60000 = t.
Proof. unfold localTS. lia. Qed.

(** A date that went through [plus({days})] and [set] of a whole hour and
    minute, when it is valid. *)
Lemma set_plusDays_local (t : Z) (z : Zone) (n h mi : Z) (t' : Z) (z' : Zone) :
  set (plusDays (DT t z) n) (mkSet (Some h) (Some mi) (Some 0) (Some 0)) = DT t' z' ->
  z' = z /\
  localTS t' z = (dayNumber (localTS t z) + n) * msPerDay + h * 3600000 + mi * 60000.
Proof.
  rewrite plusDays_DT.
  destruct (mk (t + n * msPerDay) z) as [|t1 z1] eqn:E; [discriminate|].
  apply mk_DT_inv in E as (-> & -> & _).
  rewrite set_DT. intros H. apply mk_DT_inv in H as (-> & -> & _).
  split; [reflexivity|].
  unfold setMsOfDay. simpl. unfold localTS at 1.
  replace (localTS (t + n * msPerDay) z) with (localTS t z + n * msPerDay) by (unfold localTS; lia).
  unfold dayNumber, msPerDay. rewrite Z.div_add by lia. lia.
Qed.

Lemma dayNumber_hm (n h mi : Z) :
  0 <= h <= 23 -> 0 <= mi <= 59 -> dayNumber (n * msPerDay + h * 3600000 + mi * 60000) = n.
Proof.
  intros Hh Hm. rewrite <- Z.add_assoc. apply dayNumber_build. unfold msPerDay. lia.
Qed.

Lemma hour_hm (n h mi : Z) :
  0 <= h <= 23 -> 0 <= mi <= 59 -> hour (tsToObj (n * msPerDay + h * 3600000 + mi * 60000)) = h.
Proof.
  intros Hh Hm. rewrite hour_tsToObj, <- Z.add_assoc, msOfDay_build by (unfold msPerDay; lia).
  rewrite Z.add_comm, Z.div_add by lia. rewrite Z.div_small; lia.
Qed.

Lemma minute_hm (n h mi : Z) :
  0 <= h <= 23 -> 0 <= mi <= 59 -> minute (tsToObj (n * msPerDay + h * 3600000 + mi * 60000)) = mi.
Proof.
  intros Hh Hm. rewrite minute_tsToObj, <- Z.add_assoc, msOfDay_build by (unfold msPerDay; lia).
  replace (h * 3600000 + mi * 60000) with ((h * 60 + mi) * 60000) by lia.
  rewrite Z.div_mul by lia. rewrite Z.add_comm, Z.mod_add by lia. apply Z.mod_small; lia.
Qed.

Lemma second_bound (l : Z) : 0 <= second (tsToObj l) <= 59.
Proof. rewrite second_tsToObj. pose proof (Z.mod_pos_bound (msOfDay l / 1000) 60). lia. Qed.

Lemma millisecond_bound (l : Z) : 0 <= millisecond (tsToObj l) <= 999.
Proof. rewrite millisecond_tsToObj. pose proof (Z.mod_pos_bound (msOfDay l) 1000). lia. Qed.

Lemma hour_of_parts (n h rest : Z) :
  0 <= h <= 23 -> 0 <= rest < 3600000 ->
  hour (tsToObj (n * msPerDay + (h * 3600000 + rest))) = h.
Proof.
  intros Hh Hr. rewrite hour_tsToObj, msOfDay_build by (unfold msPerDay; lia).
  rewrite Z.add_comm, Z.div_add by lia. rewrite Z.div_small; lia.
Qed.

Lemma lt_false_noAntes (d : DateTime) (ref : Z) (z : Zone) :
  lt d (DT ref z) = false <-> noAntes d ref.
Proof.
  destruct d as [|t zt]; simpl; [tauto|]. unfold lt. simpl. rewrite Z.ltb_ge. tauto.
Qed.

Lemma lt_true_inv (d e : DateTime) :
  lt d e = true -> exists t z r zr, d = DT t z /\ e = DT r zr /\ t < r.
Proof.
  destruct d as [|t z], e as [|r zr]; unfold lt; simpl; try discriminate.
  intros H. apply Z.ltb_lt in H. eauto 8.
Qed.

(** [set] does not go back when the time of day it writes is not earlier. *)
Lemma set_ge (t : Z) (z : Zone) (v : SetValues) (t' : Z) (z' : Zone) :
  set (DT t z) v = DT t' z' ->
  msOfDay (localTS t z) <= setMsOfDay (localTS t z) v ->
  z' = z /\ t <= t'.
Proof.
  rewrite set_DT. intros H Hm. apply mk_DT_inv in H as (-> & -> & _).
  split; [reflexivity|].
  pose proof (local_split (localTS t z)) as Sp. unfold localTS in *. lia.
Qed.

Lemma set_noAntes (d : DateTime) (v : SetValues) (ref : Z) :
  noAntes d ref ->
  (forall t z, d = DT t z -> msOfDay (localTS t z) <= setMsOfDay (localTS t z) v) ->
  noAntes (set d v) ref.
Proof.
  intros Hn Hm. destruct d as [|t z]; [exact I|].
  destruct (set (DT t z) v) as [|t' z'] eqn:E; [exact I|].
  apply set_ge in E as [_ E]; [|apply Hm; reflexivity]. simpl in *. lia.
Qed.

(** A date some days after the reference, at any time of that day. *)
Lemma set_plusDays_noAntes (ref : Z) (z : Zone) (n h mi : Z) :
  1 <= n -> 0 <= h -> 0 <= mi ->
  forall t' z',
    set (plusDays (DT ref z) n) (mkSet (Some h) (Some mi) (Some 0) (Some 0)) = DT t' z' ->
    ref < t'.
Proof.
  intros Hn Hh Hm t' z' E. apply set_plusDays_local in E as [-> L].
  pose proof (msOfDay_bound (localTS ref z)) as Bm.
  pose proof (local_split (localTS ref z)) as Sp.
  unfold localTS, msPerDay in *. nia.
Qed.

End LuxonFacts.

(** ** The fields of a date built from a day number, an hour and a minute *)

Section BuiltDates.

Lemma tsToObj_hm (n h mi : Z) :
  0 <= h <= 23 -> 0 <= mi <= 59 ->
  tsToObj (n * msPerDay + h * 3600000 + mi * 60000)
  = let '(y, m, d) := civil_from_days n in mkObj y m d h mi 0 0.
Proof.
  intros Hh Hm.
  pose proof (hour_hm n h mi Hh Hm) as E1. pose proof (minute_hm n h mi Hh Hm) as E2.
  pose proof (dayNumber_hm n h mi Hh Hm) as E3.
  assert (E4 : msOfDay (n * msPerDay + h * 3600000 + mi * 60000) = h * 3600000 + mi * 60000).
  { rewrite <- Z.add_assoc. apply msOfDay_build. unfold msPerDay. lia. }
  unfold tsToObj in *. unfold dayNumber, msOfDay in *. rewrite E3, E4 in *.
  destruct (civil_from_days n) as [[y m] d]. simpl in *. f_equal; try assumption.
  - replace (h * 3600000 + mi * 60000) with (0 + (h * 60 + mi) * 60 * 1000) by lia.
    rewrite Z.div_add by lia. simpl. rewrite Z.mod_mul; lia.
  - replace (h * 3600000 + mi * 60000) with ((h * 3600 + mi * 60) * 1000) by lia.
    apply Z.mod_mul. lia.
Qed.

Lemma weekday_local (t : Z) (z : Zone) (n h mi : Z) :
  0 <= h <= 23 -> 0 <= mi <= 59 ->
  localTS t z = n * msPerDay + h * 3600000 + mi * 60000 ->
  weekday (DT t z) = Some (wd n).
Proof. intros Hh Hm E. rewrite weekday_DT, E, dayNumber_hm by assumption. reflexivity. Qed.

End BuiltDates.

(** ** The preprocessor *)

Section Preprocesador.

Variable systemZone : Zone.

Local Abbreviation preprocesarExpresion := (Server.preprocesarExpresion systemZone).

Lemma lookup_In (k : jsstring) (t : list (jsstring * Z)) (v : Z) :
  Server.lookup k t = Some v -> In v (map snd t).
Proof.
  induction t as [|[k' v'] t IH]; simpl; [discriminate|].
  destruct (str_eqb k k'); [intros H; injection H as <-; auto|auto].
Qed.

Lemma diaObjetivo_range (m : option jsstring) (X : Z) :
  Server.diaObjetivoDe m = Some X -> 1 <= X <= 7.
Proof.
  destruct m as [name|]; [|discriminate]. unfold Server.diaObjetivoDe.
  intros H. apply lookup_In in H. vm_compute in H.
  repeat (destruct H as [H|H]; [lia|]). contradiction.
Qed.

Lemma hastaLunesProximo_value (hoy : Z) :
  1 <= hoy <= 7 -> hastaLunesProximo hoy = if hoy =? 1 then 7 else 8 - hoy.
Proof.
  intros H. assert (C : hoy = 1 \/ hoy = 2 \/ hoy = 3 \/ hoy = 4 \/ hoy = 5 \/ hoy = 6 \/ hoy = 7) by lia.
  repeat (destruct C as [->|C]; [reflexivity|]). subst. reflexivity.
Qed.

(** The days the code adds are the days of the specification. *)
Lemma diasSemanaQueViene_spec (X hoy : Z) :
  1 <= X <= 7 -> 1 <= hoy <= 7 ->
  Server.diasSemanaQueViene X hoy = hastaLunesProximo hoy + (X - 1).
Proof.
  intros HX Hh. unfold Server.diasSemanaQueViene, hastaLunesProximo.
  rewrite !Z.rem_mod_nonneg by lia. rewrite (Z.mod_small (X - 1)) by lia. reflexivity.
Qed.

Lemma diasQueViene_spec (X hoy : Z) :
  1 <= X <= 7 -> 1 <= hoy <= 7 ->
  Server.diasQueViene X hoy
  = if (hoy =? 5) && (proximaOcurrencia X hoy <=? 2) then 3 else proximaOcurrencia X hoy.
Proof.
  intros HX Hh. unfold Server.diasQueViene, proximaOcurrencia.
  assert (E : (if X - hoy <=? 0 then X - hoy + 7 else X - hoy)
              = (if (X - hoy) mod 7 =? 0 then 7 else (X - hoy) mod 7)).
  { destruct (Z.leb_spec (X - hoy) 0).
    - destruct (Z.eq_dec X hoy) as [->|Hne].
      + rewrite Z.sub_diag. reflexivity.
      + replace ((X - hoy) mod 7) with (X - hoy + 7).
        * destruct (Z.eqb_spec (X - hoy + 7) 0); lia.
        * symmetry. rewrite <- (Z.mod_add _ 1) by lia. apply Z.mod_small. lia.
    - rewrite Z.mod_small by lia. destruct (Z.eqb_spec (X - hoy) 0); lia. }
  rewrite E. reflexivity.
Qed.

Lemma hastaLunesProximo_range (hoy : Z) : 1 <= hoy <= 7 -> 1 <= hastaLunesProximo hoy <= 7.
Proof. intros H. rewrite hastaLunesProximo_value by exact H. destruct (Z.eqb_spec hoy 1); lia. Qed.

Lemma proximaOcurrencia_range (X hoy : Z) : 1 <= proximaOcurrencia X hoy <= 7.
Proof.
  unfold proximaOcurrencia. pose proof (Z.mod_pos_bound (X - hoy) 7 ltac:(lia)).
  destruct (Z.eqb_spec ((X - hoy) mod 7) 0); lia.
Qed.

(** The rule "weekday of next week", when no rule before it applies. *)
Lemma preprocesar_semana (expresion : jsstring) (ref : Z) (m : option jsstring) (X : Z) :
  Z.abs ref <= MAX_TS ->
  match_ expresion Server.rePasadoMananaHora = None ->
  match_ expresion Server.reDemaPassatHora = None ->
  includes (trim (toLowerCase expresion)) (js "pasado mañana") = false ->
  includes (trim (toLowerCase expresion)) (js "demà passat") = false ->
  Server.matchSemanaQueViene (trim (toLowerCase expresion)) = Some m ->
  Server.diaObjetivoDe m = Some X ->
  preprocesarExpresion expresion ref
  = Some (set (plusDays (DT ref systemZone)
                        (hastaLunesProximo (wd (dayNumber (localTS ref systemZone))) + (X - 1)))
              (Server.horaEnPunto 14)).
Proof.
  intros Hr H1 H2 H3 H4 H5 H6. unfold Server.preprocesarExpresion.
  rewrite H1, H2, H3, H4. simpl orb. cbv iota. rewrite H5. unfold fromJSDate.
  rewrite (mk_valid ref systemZone Hr), H6, weekday_DT.
  rewrite diasSemanaQueViene_spec;
    [reflexivity | eapply diaObjetivo_range; eassumption | apply wd_range].
Qed.

(** The rule "weekday that is coming", when no rule before it applies. *)
Lemma preprocesar_que_viene (expresion : jsstring) (ref : Z) (m : option jsstring) (X : Z) :
  Z.abs ref <= MAX_TS ->
  match_ expresion Server.rePasadoMananaHora = None ->
  match_ expresion Server.reDemaPassatHora = None ->
  includes (trim (toLowerCase expresion)) (js "pasado mañana") = false ->
  includes (trim (toLowerCase expresion)) (js "demà passat") = false ->
  Server.matchSemanaQueViene (trim (toLowerCase expresion)) = None ->
  match_ (trim (toLowerCase expresion)) Server.reQueViene = Some m ->
  Server.diaObjetivoDe m = Some X ->
  preprocesarExpresion expresion ref
  = Some (set (plusDays (DT ref systemZone)
                        (Server.diasQueViene X (wd (dayNumber (localTS ref systemZone)))))
              (Server.horaEnPunto 14)).
Proof.
  intros Hr H1 H2 H3 H4 H5 H6 H7. unfold Server.preprocesarExpresion.
  rewrite H1, H2, H3, H4. simpl orb. cbv iota. rewrite H5, H6. unfold fromJSDate.
  rewrite (mk_valid ref systemZone Hr), H7, weekday_DT. reflexivity.
Qed.

(** A valid date that [plus({days})] and [set] of a whole hour made. *)
Lemma resultado_en_punto (ref : Z) (dias h : Z) (t' : Z) (z' : Zone) :
  0 <= h <= 23 ->
  set (plusDays (DT ref systemZone) dias) (Server.horaEnPunto h) = DT t' z' ->
  z' = systemZone
  /\ dayNumber (localTS t' z') = dayNumber (localTS ref systemZone) + dias
  /\ toObject (DT t' z')
     = Some (let '(y, m, d) := civil_from_days (dayNumber (localTS ref systemZone) + dias) in
             mkObj y m d h 0 0 0).
Proof.
  intros Hh H. unfold Server.horaEnPunto in H.
  apply set_plusDays_local in H as [-> E]. split; [reflexivity|].
  rewrite E. split.
  - apply dayNumber_hm; lia.
  - unfold toObject. rewrite E. rewrite tsToObj_hm by lia. reflexivity.
Qed.

Lemma Some_eq {A : Type} (a b : A) : Some a = Some b -> a = b.
Proof. intros H. injection H as ->. reflexivity. Qed.

(** The hour that the two rules with an hour read is a run of digits. *)
Lemma hora_capturada_es (expresion : jsstring) (m : option jsstring) :
  match_ expresion Server.rePasadoMananaHora = Some m ->
  exists ds, m = Some ds /\ forallb isDigit ds = true.
Proof.
  unfold match_. intros H. apply search_from_inv in H as (p' & s' & H).
  cbv [Server.rePasadoMananaHora seqs] in H.
  do 8 (apply rmatch_seq_tail in H; destruct H as (? & ? & ? & H)).
  apply rmatch_group_digits in H as (ds & ? & ? & Hd & Hk).
  cbv beta in Hk. injection Hk as <-. exists ds. split; [reflexivity|exact Hd].
Qed.

Lemma hora_capturada_ca (expresion : jsstring) (m : option jsstring) :
  match_ expresion Server.reDemaPassatHora = Some m ->
  exists ds, m = Some ds /\ forallb isDigit ds = true.
Proof.
  unfold match_. intros H. apply search_from_inv in H as (p' & s' & H).
  cbv [Server.reDemaPassatHora seqs] in H.
  do 8 (apply rmatch_seq_tail in H; destruct H as (? & ? & ? & H)).
  apply rmatch_group_digits in H as (ds & ? & ? & Hd & Hk).
  cbv beta in Hk. injection Hk as <-. exists ds. split; [reflexivity|exact Hd].
Qed.

Lemma plusDays_noAntes (ref : Z) (z : Zone) (n : Z) : 0 <= n -> noAntes (plusDays (DT ref z) n) ref.
Proof.
  intros Hn. rewrite plusDays_DT.
  destruct (mk (ref + n * msPerDay) z) as [|t' z'] eqn:E; [exact I|].
  apply mk_DT_inv in E as (-> & _ & _). simpl. unfold msPerDay. lia.
Qed.

Lemma en_punto_noAntes (ref : Z) (z : Zone) (n h : Z) :
  1 <= n -> 0 <= h -> noAntes (set (plusDays (DT ref z) n) (Server.horaEnPunto h)) ref.
Proof.
  intros Hn Hh.
  destruct (set (plusDays (DT ref z) n) (Server.horaEnPunto h)) as [|t' z'] eqn:E; [exact I|].
  unfold Server.horaEnPunto in E.
  apply (set_plusDays_noAntes ref z n h 0 Hn Hh ltac:(lia)) in E. simpl. lia.
Qed.

(** No rule of the preprocessor answers with a date before the reference. *)
Lemma preprocesar_noAntes (expresion : jsstring) (ref : Z) (fecha : DateTime) :
  Z.abs ref <= MAX_TS ->
  preprocesarExpresion expresion ref = Some fecha ->
  noAntes fecha ref.
Proof.
  intros Hr. unfold Server.preprocesarExpresion, fromJSDate. rewrite (mk_valid _ _ Hr).
  destruct (match_ expresion Server.rePasadoMananaHora) as [m|] eqn:E1.
  { apply hora_capturada_es in E1 as (ds & -> & Hd). intros H; apply Some_eq in H; subst fecha.
    apply en_punto_noAntes; [lia|now apply parseInt_digits_nonneg]. }
  destruct (match_ expresion Server.reDemaPassatHora) as [m|] eqn:E2.
  { apply hora_capturada_ca in E2 as (ds & -> & Hd). intros H; apply Some_eq in H; subst fecha.
    apply en_punto_noAntes; [lia|now apply parseInt_digits_nonneg]. }
  destruct (includes _ _ || includes _ _).
  { intros H; apply Some_eq in H; subst fecha. apply plusDays_noAntes. lia. }
  rewrite weekday_DT.
  destruct (Server.matchSemanaQueViene _) as [m|].
  - destruct (Server.diaObjetivoDe m) as [X|] eqn:EX.
    + intros H; apply Some_eq in H; subst fecha.
      pose proof (diaObjetivo_range m X EX) as RX.
      pose proof (wd_range (dayNumber (localTS ref systemZone))) as Rh.
      rewrite diasSemanaQueViene_spec by assumption.
      pose proof (hastaLunesProximo_range _ Rh).
      apply en_punto_noAntes; lia.
    + destruct (match_ _ Server.reQueViene) as [m'|]; [|discriminate].
      destruct (Server.diaObjetivoDe m') as [X|] eqn:EX'; [|discriminate].
      intros H; apply Some_eq in H; subst fecha.
      pose proof (diaObjetivo_range m' X EX') as RX.
      pose proof (wd_range (dayNumber (localTS ref systemZone))) as Rh.
      rewrite diasQueViene_spec by assumption.
      pose proof (proximaOcurrencia_range X (wd (dayNumber (localTS ref systemZone)))).
      apply en_punto_noAntes; [|lia].
      destruct (_ && _); lia.
  - destruct (match_ _ Server.reQueViene) as [m'|]; [|discriminate].
    destruct (Server.diaObjetivoDe m') as [X|] eqn:EX; [|discriminate].
    intros H; apply Some_eq in H; subst fecha.
    pose proof (diaObjetivo_range m' X EX) as RX.
    pose proof (wd_range (dayNumber (localTS ref systemZone))) as Rh.
    rewrite diasQueViene_spec by assumption.
    pose proof (proximaOcurrencia_range X (wd (dayNumber (localTS ref systemZone)))).
    apply en_punto_noAntes; [|lia].
    destruct (_ && _); lia.
Qed.

(** The preprocessor of [src/server.js] answers as the latest one wherever
    the rule "weekday of next week", which it has not, does not apply. *)
Lemma preprocesar_js_coincide (expresion : jsstring) (ref : Z) :
  Server.matchSemanaQueViene (trim (toLowerCase expresion)) = None ->
  ServerJs.preprocesarExpresion systemZone expresion ref = preprocesarExpresion expresion ref.
Proof.
  intros H. unfold ServerJs.preprocesarExpresion, Server.preprocesarExpresion.
  destruct (match_ expresion Server.rePasadoMananaHora); [reflexivity|].
  destruct (match_ expresion Server.reDemaPassatHora); [reflexivity|].
  destruct (includes _ _ || includes _ _); [reflexivity|].
  rewrite H. reflexivity.
Qed.

End Preprocesador.

(** ** The corrector *)

Section Corrector.

Lemma get_hour_range (d : DateTime) (h : Z) : get hour d = Some h -> 0 <= h <= 23.
Proof.
  destruct d as [|t z]; [discriminate|]. unfold get, toObject, option_map.
  intros H; injection H as <-. apply hour_bound.
Qed.

Lemma get_minute_range (d : DateTime) (m : Z) : get minute d = Some m -> 0 <= m <= 59.
Proof.
  destruct d as [|t z]; [discriminate|]. unfold get, toObject, option_map.
  intros H; injection H as <-. apply minute_bound.
Qed.

Lemma get_Invalid (f : DateObject -> Z) : get f Invalid = None.
Proof. reflexivity. Qed.

Lemma get_DT (f : DateObject -> Z) (t : Z) (z : Zone) :
  get f (DT t z) = Some (f (tsToObj (localTS t z))).
Proof. reflexivity. Qed.

(** The days to the next occurrence, as the code computes them and as the
    specification words them. *)
Lemma diasHastaProximo_spec (a b : Z) :
  1 <= a <= 7 -> 1 <= b <= 7 -> Server.diasHastaProximo a b = proximaOcurrencia a b.
Proof.
  intros Ha Hb. unfold Server.diasHastaProximo, proximaOcurrencia.
  destruct (Z.leb_spec (a - b) 0).
  - destruct (Z.eq_dec a b) as [->|Hne]; [rewrite Z.sub_diag; reflexivity|].
    replace ((a - b) mod 7) with (a - b + 7); [destruct (Z.eqb_spec (a - b + 7) 0); lia|].
    symmetry. rewrite <- (Z.mod_add _ 1) by lia. apply Z.mod_small. lia.
  - rewrite Z.mod_small by lia. destruct (Z.eqb_spec (a - b) 0); lia.
Qed.


(** The first rule leaves the date alone unless it is past, names a
    weekday after an article, and is no count of days. *)
Lemma corregirPasado_id (fecha refDate : DateTime) (n : jsstring) :
  lt fecha refDate = false \/ matches n Server.reDiaSemanaEspecifico = false
  \/ Server.esConteoDias n = true ->
  Server.corregirPasado fecha refDate n = fecha.
Proof.
  unfold Server.corregirPasado. intros [H|[H|H]]; rewrite H; try reflexivity.
  - destruct (lt fecha refDate); reflexivity.
  - destruct (lt fecha refDate); [|reflexivity]. now rewrite andb_false_r.
Qed.

Lemma corregirPasado_corrige (fecha refDate : DateTime) (n : jsstring) :
  lt fecha refDate = true ->
  matches n Server.reDiaSemanaEspecifico = true ->
  Server.esConteoDias n = false ->
  exists t z r zr diaSemana hoy h mi,
    fecha = DT t z /\ refDate = DT r zr /\ t < r
    /\ weekday fecha = Some diaSemana /\ weekday refDate = Some hoy
    /\ get hour fecha = Some h /\ get minute fecha = Some mi
    /\ Server.corregirPasado fecha refDate n
       = set (plusDays refDate (proximaOcurrencia diaSemana hoy))
             (mkSet (Some h) (Some mi) (Some 0) (Some 0)).
Proof.
  intros Hlt Hm Hc. unfold Server.corregirPasado. rewrite Hlt, Hm, Hc. cbn [andb negb].
  apply lt_true_inv in Hlt as (t & z & r & zr & -> & -> & Htr).
  exists t, z, r, zr, (wd (dayNumber (localTS t z))), (wd (dayNumber (localTS r zr))),
    (hour (tsToObj (localTS t z))), (minute (tsToObj (localTS t z))).
  rewrite !weekday_DT. unfold get, toObject, option_map.
  rewrite diasHastaProximo_spec by apply wd_range.
  repeat split; auto.
Qed.


(** The second and third rule do not go back. *)
Lemma horaPorDefecto_noAntes (fecha : DateTime) (n : jsstring) (ref : Z) :
  noAntes fecha ref -> noAntes (Server.horaPorDefecto fecha n) ref.
Proof.
  intros H. unfold Server.horaPorDefecto.
  destruct (get hour fecha) as [h|] eqn:Eh; [|exact H].
  destruct h as [|p|p]; try exact H.
  destruct (get minute fecha) as [m|] eqn:Em; [|exact H].
  destruct m as [|p|p]; try exact H.
  destruct (negb (matches n Server.reHoraExplicita)); [|exact H].
  apply set_noAntes; [exact H|].
  intros t z ->. rewrite get_DT in Eh, Em.
  assert (Eh' : hour (tsToObj (localTS t z)) = 0) by congruence.
  assert (Em' : minute (tsToObj (localTS t z)) = 0) by congruence.
  rewrite (msOfDay_fields (localTS t z)), Eh', Em'. unfold setMsOfDay.
  cbn [orKeep set_hour set_minute set_second set_millisecond]. lia.
Qed.

Lemma hora7_noAntes (fecha : DateTime) (n : jsstring) (ref : Z) :
  noAntes fecha ref -> noAntes (Server.hora7 fecha n) ref.
Proof.
  intros H. unfold Server.hora7.
  destruct (matches n Server.reHora7); [|exact H].
  destruct (get hour fecha) as [h|] eqn:Eh; [|exact H].
  destruct (Z.eq_dec h 7) as [->|Hne].
  - destruct (negb (matches n Server.reHora7AM)); [|exact H].
    apply set_noAntes; [exact H|].
    intros t z ->. rewrite get_DT in Eh.
    assert (Eh' : hour (tsToObj (localTS t z)) = 7) by congruence.
    rewrite (msOfDay_fields (localTS t z)), Eh'. unfold setMsOfDay.
    cbn [orKeep set_hour set_minute set_second set_millisecond]. lia.
  - destruct h as [|p|p]; try exact H.
    repeat (destruct p as [p|p|]; try exact H). contradiction.
Qed.

(** [set] stays on the day when the time of day it writes is one. *)
Lemma set_same_day (t : Z) (z : Zone) (v : SetValues) (t' : Z) (z' : Zone) :
  set (DT t z) v = DT t' z' ->
  0 <= setMsOfDay (localTS t z) v < msPerDay ->
  z' = z /\ dayNumber (localTS t' z') = dayNumber (localTS t z).
Proof.
  rewrite set_DT. intros H Hm. apply mk_DT_inv in H as (-> & -> & _).
  split; [reflexivity|]. unfold localTS at 1.
  replace (dayNumber (localTS t z) * msPerDay + setMsOfDay (localTS t z) v
           - zoffset z * 60000 + zoffset z * 60000)
    with (dayNumber (localTS t z) * msPerDay + setMsOfDay (localTS t z) v) by lia.
  apply dayNumber_build. exact Hm.
Qed.

Lemma horaPorDefecto_same_day (t : Z) (z : Zone) (n : jsstring) (t' : Z) (z' : Zone) :
  Server.horaPorDefecto (DT t z) n = DT t' z' ->
  z' = z /\ dayNumber (localTS t' z') = dayNumber (localTS t z).
Proof.
  unfold Server.horaPorDefecto.
  destruct (get hour (DT t z)) as [[|p|p]|]; try (intros H; injection H as <- <-; auto).
  destruct (get minute (DT t z)) as [[|p|p]|]; try (intros H; injection H as <- <-; auto).
  destruct (negb (matches n Server.reHoraExplicita)); [|intros H; injection H as <- <-; auto].
  intros H. apply set_same_day in H; [exact H|].
  unfold setMsOfDay. cbn [orKeep set_hour set_minute set_second set_millisecond].
  pose proof (second_bound (localTS t z)). pose proof (millisecond_bound (localTS t z)).
  unfold msPerDay. lia.
Qed.

Lemma hora7_same_day (t : Z) (z : Zone) (n : jsstring) (t' : Z) (z' : Zone) :
  Server.hora7 (DT t z) n = DT t' z' ->
  z' = z /\ dayNumber (localTS t' z') = dayNumber (localTS t z).
Proof.
  unfold Server.hora7.
  destruct (matches n Server.reHora7); [|intros H; injection H as <- <-; auto].
  destruct (get hour (DT t z)) as [h|]; [|intros H; injection H as <- <-; auto].
  destruct (Z.eq_dec h 7) as [->|Hne].
  - destruct (negb (matches n Server.reHora7AM)); [|intros H; injection H as <- <-; auto].
    intros H. apply set_same_day in H; [exact H|].
    unfold setMsOfDay. cbn [orKeep set_hour set_minute set_second set_millisecond].
    pose proof (minute_bound (localTS t z)).
    pose proof (second_bound (localTS t z)). pose proof (millisecond_bound (localTS t z)).
    unfold msPerDay. lia.
  - destruct h as [|p|p]; try (intros H; injection H as <- <-; auto).
    repeat (destruct p as [p|p|]; try (intros H; injection H as <- <-; auto)). contradiction.
Qed.

Lemma horaPorDefecto_Invalid (n : jsstring) : Server.horaPorDefecto Invalid n = Invalid.
Proof. reflexivity. Qed.

Lemma hora7_Invalid (n : jsstring) : Server.hora7 Invalid n = Invalid.
Proof. unfold Server.hora7. destruct (matches n Server.reHora7); reflexivity. Qed.

(** The three rules in a row, when the first one leaves the date alone. *)
Lemma validar_sin_correccion (systemZone : Zone) (fecha : DateTime) (ref : Z) (expresion : jsstring) :
  lt fecha (fromJSDate ref systemZone) = false
  \/ matches (toLowerCase expresion) Server.reDiaSemanaEspecifico = false
  \/ Server.esConteoDias (toLowerCase expresion) = true ->
  Server.validarYCorregirFecha systemZone fecha ref expresion
  = Server.hora7 (Server.horaPorDefecto fecha (toLowerCase expresion)) (toLowerCase expresion).
Proof.
  intros H. unfold Server.validarYCorregirFecha. now rewrite corregirPasado_id.
Qed.

(** The corrector on an expression that names a weekday after an article
    and counts no days: the result is not before the reference. *)
Lemma validar_noAntes (systemZone : Zone) (fecha : DateTime) (ref : Z) (expresion : jsstring) :
  Z.abs ref <= MAX_TS ->
  matches (toLowerCase expresion) Server.reDiaSemanaEspecifico = true ->
  Server.esConteoDias (toLowerCase expresion) = false ->
  noAntes (Server.validarYCorregirFecha systemZone fecha ref expresion) ref.
Proof.
  intros Hr Hm Hc. unfold Server.validarYCorregirFecha, fromJSDate. rewrite (mk_valid _ _ Hr).
  apply hora7_noAntes, horaPorDefecto_noAntes.
  destruct (lt fecha (DT ref systemZone)) eqn:Hlt.
  - destruct (corregirPasado_corrige fecha (DT ref systemZone) _ Hlt Hm Hc)
      as (t & z & r & zr & a & hoy & h & mi & -> & Er & Htr & Ha & Hh & Hho & Hmi & E).
    injection Er as <- <-. rewrite E.
    destruct (set _ _) as [|t' z'] eqn:Es; [exact I|].
    pose proof (proximaOcurrencia_range a hoy).
    apply (set_plusDays_noAntes ref systemZone _ h mi) in Es;
      [simpl; lia | lia | apply (get_hour_range _ _ Hho) | apply (get_minute_range _ _ Hmi)].
  - rewrite corregirPasado_id by auto. now apply (lt_false_noAntes fecha ref systemZone).
Qed.

(** The hour that [set] writes, in a valid result. *)
Lemma set_hora_campo (t : Z) (z : Zone) (h : Z) (t' : Z) (z' : Zone) :
  0 <= h <= 23 ->
  set (DT t z) (mkSet (Some h) None None None) = DT t' z' ->
  get hour (DT t' z') = Some h.
Proof.
  intros Hh Es. rewrite set_DT in Es. apply mk_DT_inv in Es as (-> & -> & _).
  rewrite get_DT. f_equal. unfold localTS at 1.
  match goal with
  | [ |- hour (tsToObj ?x) = _ ] =>
    replace x with (dayNumber (localTS t z) * msPerDay
                    + (h * 3600000 + (minute (tsToObj (localTS t z)) * 60000
                                      + second (tsToObj (localTS t z)) * 1000
                                      + millisecond (tsToObj (localTS t z)))))
      by (unfold setMsOfDay; cbn [orKeep set_hour set_minute set_second set_millisecond]; lia)
  end.
  apply hour_of_parts; [lia|].
  pose proof (minute_bound (localTS t z)). pose proof (second_bound (localTS t z)).
  pose proof (millisecond_bound (localTS t z)). lia.
Qed.

Lemma corregido_hora (r : Z) (zr : Zone) (n h mi : Z) (t' : Z) (z' : Zone) :
  0 <= h <= 23 -> 0 <= mi <= 59 ->
  set (plusDays (DT r zr) n) (mkSet (Some h) (Some mi) (Some 0) (Some 0)) = DT t' z' ->
  get hour (DT t' z') = Some h.
Proof.
  intros Hh Hm E. apply set_plusDays_local in E as [-> L].
  rewrite get_DT, L. f_equal. now apply hour_hm.
Qed.

Lemma corregirPasado_js_hora (fecha refDate : DateTime) (h : Z) :
  get hour fecha = Some h ->
  ServerJs.corregirPasado fecha refDate = Invalid
  \/ get hour (ServerJs.corregirPasado fecha refDate) = Some h.
Proof.
  intros Hh. unfold ServerJs.corregirPasado.
  destruct (lt fecha refDate) eqn:Hlt; [|right; exact Hh].
  apply lt_true_inv in Hlt as (t & z & r & zr & -> & -> & Htr).
  rewrite !weekday_DT, (get_DT minute). rewrite Hh.
  match goal with
  | [ |- ?d = Invalid \/ _ ] => destruct d as [|t' z'] eqn:E; [left; reflexivity|right]
  end.
  apply corregido_hora in E; [exact E|apply (get_hour_range _ _ Hh)|apply minute_bound].
Qed.

Lemma horaPorDefecto_js_id (fecha : DateTime) (n : jsstring) (h : Z) :
  get hour fecha = Some h -> h <> 0 -> ServerJs.horaPorDefecto fecha n = fecha.
Proof.
  intros Hh Hn. unfold ServerJs.horaPorDefecto. rewrite Hh.
  destruct h; [contradiction|reflexivity|reflexivity].
Qed.

Lemma hora7_js_set (fecha : DateTime) (n : jsstring) :
  matches n Server.reHora7 = true -> get hour fecha = Some 7 ->
  ServerJs.hora7 fecha n = set fecha (mkSet (Some 19) None None None).
Proof. intros Hm Hh. unfold ServerJs.hora7. rewrite Hm, Hh. reflexivity. Qed.

Lemma soloViernesManana_id (fecha : DateTime) (h : Z) :
  get hour fecha = Some h -> 14 <= h -> ServerJs.soloViernesManana fecha = fecha.
Proof.
  intros Hh Hge. unfold ServerJs.soloViernesManana. rewrite Hh.
  destruct (weekday fecha) as [w|]; [|reflexivity].
  replace (h <? 14) with false by (symmetry; apply Z.ltb_ge; exact Hge).
  rewrite andb_false_r. reflexivity.
Qed.

(** The revision of [src/server.js]: a candidate of hour 7 with "a las 7"
    in the expression comes out at hour 19. *)
Lemma hora_siete_js (systemZone : Zone) (fecha : DateTime) (ref : Z) (expresion : jsstring) :
  get hour fecha = Some 7 ->
  matches (toLowerCase expresion) Server.reHora7 = true ->
  isValid (ServerJs.validarYCorregirFecha systemZone fecha ref expresion) = true ->
  get hour (ServerJs.validarYCorregirFecha systemZone fecha ref expresion) = Some 19.
Proof.
  intros H7 Hm. unfold ServerJs.validarYCorregirFecha.
  destruct (corregirPasado_js_hora fecha (fromJSDate ref systemZone) 7 H7) as [E1|E1].
  - rewrite E1. unfold ServerJs.horaPorDefecto, ServerJs.hora7. cbn [get toObject option_map].
    destruct (matches (toLowerCase expresion) Server.reHora7); discriminate.
  - rewrite (horaPorDefecto_js_id _ _ 7 E1) by lia.
    rewrite (hora7_js_set _ _ Hm E1).
    destruct (ServerJs.corregirPasado fecha (fromJSDate ref systemZone)) as [|t z];
      [discriminate|].
    destruct (set (DT t z) (mkSet (Some 19) None None None)) as [|t' z'] eqn:Es;
      [discriminate|].
    pose proof (set_hora_campo t z 19 t' z' ltac:(lia) Es) as Hh.
    rewrite (soloViernesManana_id _ 19 Hh) by lia. intros _. exact Hh.
Qed.

End Corrector.

(** ** The fallback *)

Section Respaldo.

Lemma lower_unit_inv (c k : Z) : lower_unit c = k -> c = k \/ c = k - 32.
Proof.
  unfold lower_unit.
  destruct ((65 <=? c) && (c <=? 90)); [lia|].
  destruct ((192 <=? c) && (c <=? 222) && negb (c =? 215)); lia.
Qed.

Lemma trimStart_id (s : jsstring) : forallb sinEspacioNiComilla s = true -> trimStart s = s.
Proof.
  destruct s as [|c s]; [reflexivity|]. simpl. intros H.
  apply andb_true_iff in H as [H _]. unfold sinEspacioNiComilla in H.
  apply andb_true_iff in H as [H _]. apply negb_true_iff in H. now rewrite H.
Qed.

Lemma forallb_rev {A : Type} (p : A -> bool) (l : list A) :
  forallb p l = true -> forallb p (rev l) = true.
Proof.
  intros H. apply forallb_forall. intros x Hx. apply in_rev in Hx.
  rewrite forallb_forall in H. now apply H.
Qed.

Lemma trim_id (s : jsstring) : forallb sinEspacioNiComilla s = true -> trim s = s.
Proof.
  intros H. unfold trim. rewrite (trimStart_id s H).
  rewrite (trimStart_id (rev s) (forallb_rev _ _ H)). apply rev_involutive.
Qed.

Lemma stripQuotes_id (s : jsstring) : forallb sinEspacioNiComilla s = true -> stripQuotes s = s.
Proof.
  unfold stripQuotes. induction s as [|c s IH]; [reflexivity|]. simpl. intros H.
  apply andb_true_iff in H as [Hc H]. unfold sinEspacioNiComilla in Hc.
  apply andb_true_iff in Hc as [_ Hc]. rewrite Hc. now rewrite IH.
Qed.

(** A response that is the token up to case holds no space and no quote:
    the cleaning leaves it as it is. *)
Lemma token_limpio (x : jsstring) :
  toLowerCase x = Server.sin_definir -> trim (stripQuotes x) = x.
Proof.
  intros H.
  assert (F : forallb sinEspacioNiComilla x = true).
  { unfold toLowerCase in H. vm_compute in H.
    repeat (destruct x as [|? x]; [discriminate|]; simpl in H;
            let E := fresh "E" in
            injection H as E H; apply lower_unit_inv in E).
    destruct x; [|discriminate]. cbn [forallb].
    rewrite !andb_true_iff. repeat (split; [|try reflexivity]);
      match goal with
      | [ E : ?c = _ \/ ?c = _ |- sinEspacioNiComilla ?c = true ] =>
        destruct E as [E|E]; rewrite E; reflexivity
      end. }
  rewrite (stripQuotes_id x F). apply trim_id. exact F.
Qed.

End Respaldo.

(** ** The handler *)

Section Manejador.

Variable systemZone : Zone.
Variable normalizeZone : jsstring -> option Zone.
Variable parseDate : jsstring -> Z -> option Z.
Variable openai : option OpenAI.

Local Abbreviation preprocesarExpresion := (Server.preprocesarExpresion systemZone).
Local Abbreviation resolver := (Server.resolver systemZone normalizeZone parseDate openai).
Local Abbreviation parse_fecha := (Server.parse_fecha systemZone normalizeZone parseDate openai).

Lemma matches_false (s : jsstring) (r : regex) : matches s r = false -> match_ s r = None.
Proof. unfold matches. destruct (match_ s r); [discriminate|reflexivity]. Qed.

Lemma sinPasadoManana_inv (expresion : jsstring) :
  sinPasadoManana expresion = true ->
  match_ expresion Server.rePasadoMananaHora = None
  /\ match_ expresion Server.reDemaPassatHora = None
  /\ includes (trim (toLowerCase expresion)) (js "pasado mañana") = false
  /\ includes (trim (toLowerCase expresion)) (js "demà passat") = false.
Proof.
  unfold sinPasadoManana. intros H.
  repeat (apply andb_true_iff in H as [H ?]).
  repeat match goal with
         | [ X : negb _ = true |- _ ] => apply negb_true_iff in X
         end.
  auto using matches_false.
Qed.

(** The handler past its guards: both parameters present, the expression
    temporally clear and the reference valid. *)
Lemma parse_fecha_resuelve (r e : Z) (rs ex : jsstring) (zona : option jsstring) :
  let zonaHoraria := match zona with Some z => z | None => js "Europe/Madrid" end in
  let refDate := fromISO (r :: rs) (normalizeZone zonaHoraria) in
  Server.esExpresionTemporalClara (e :: ex) = true ->
  isValid refDate = true ->
  parse_fecha (mkRequest (Some (r :: rs)) (Some (e :: ex)) zona)
  = match resolver (e :: ex) refDate zonaHoraria with
    | Server.Responde resp => resp
    | Server.Resuelta fecha => Server.ensamblar fecha refDate (e :: ex)
    end.
Proof.
  intros zonaHoraria refDate Hc Hv. unfold Server.parse_fecha. cbn [referencia expresion_usuario zona_horaria].
  rewrite Hc. cbn [negb]. fold zonaHoraria. fold refDate. rewrite Hv. reflexivity.
Qed.

Lemma resolver_preprocesado (expresion : jsstring) (refDate fecha : DateTime) (zonaHoraria : jsstring) :
  preprocesarExpresion expresion (toJSDate refDate) = Some fecha ->
  resolver expresion refDate zonaHoraria = Server.Resuelta fecha.
Proof. intros H. unfold Server.resolver. rewrite H. reflexivity. Qed.

Lemma ensamblar_campos (t r : Z) (z zr : Zone) (expresion : jsstring) (o : DateObject) (w : Z) :
  toObject (DT t z) = Some o ->
  weekday (DT t z) = Some w ->
  Server.ensamblar (DT t z) (DT r zr) expresion
  = mkResponse 200
      (FechaBody
         (padStart (year o) 4 ++ js "-" ++ padStart (month o) 2 ++ js "-" ++ padStart (day o) 2)
         (weekdayName (Server.detectarIdioma expresion) w)
         (padStart (hour o) 2 ++ js ":" ++ padStart (minute o) 2)
         (toISO (DT t z))
         (some (fun dia => includes (toLowerCase (weekdayName (Server.detectarIdioma expresion) w))
                                    (toLowerCase dia))
               (Server.diasFinde (Server.detectarIdioma expresion)))
         (t <? r)).
Proof.
  intros Ho Hw. unfold Server.ensamblar, toFormat_cccc, toFormat_date, toFormat_time.
  rewrite Ho, Hw, lt_DT. reflexivity.
Qed.

Lemma preprocesar_ninguna (expresion : jsstring) (ref : Z) :
  sinPasadoManana expresion = true ->
  Server.matchSemanaQueViene (trim (toLowerCase expresion)) = None ->
  match_ (trim (toLowerCase expresion)) Server.reQueViene = None ->
  preprocesarExpresion expresion ref = None.
Proof.
  intros Hs H5 H6. apply sinPasadoManana_inv in Hs as (H1 & H2 & H3 & H4).
  unfold Server.preprocesarExpresion. rewrite H1, H2, H3, H4. simpl orb. cbv iota.
  rewrite H5, H6. reflexivity.
Qed.

Lemma parsearBase_es (expresion : jsstring) (refDateJS : Z) :
  Server.detectarIdioma expresion = es ->
  Server.parsearBase parseDate openai expresion refDateJS = parseDate expresion refDateJS.
Proof. intros H. unfold Server.parsearBase. now rewrite H. Qed.

(** The handler on the path of the base parser, when the corrected date is
    not before the reference: the model is not asked. *)
Lemma resolver_base (expresion : jsstring) (refDate : DateTime) (zonaHoraria : jsstring)
      (p : Z) (z : Zone) :
  preprocesarExpresion expresion (toJSDate refDate) = None ->
  Server.parsearBase parseDate openai expresion (toJSDate refDate) = Some p ->
  normalizeZone zonaHoraria = Some z ->
  lt (Server.validarYCorregirFecha systemZone (fromJSDate p z) (toJSDate refDate) expresion) refDate
  = false ->
  resolver expresion refDate zonaHoraria
  = Server.Resuelta
      (Server.validarYCorregirFecha systemZone (fromJSDate p z) (toJSDate refDate) expresion).
Proof.
  intros Hp Hb Hz Hl. unfold Server.resolver. rewrite Hp, Hb, Hz, Hl. reflexivity.
Qed.

End Manejador.

(** ** Reading back what [toISO] writes *)

Section IdaYVuelta.

Lemma padStart_2 (n : Z) : 0 <= n <= 99 -> padStart n 2 = digitos2 n.
Proof.
  intros H.
  assert (A : all_from 100 0 (fun k => str_eqb (padStart k 2) (digitos2 k)) = true)
    by (vm_compute; reflexivity).
  apply str_eqb_eq. apply (all_from_spec _ _ _ A). simpl. lia.
Qed.

Lemma padStart_3 (n : Z) : 0 <= n <= 999 -> padStart n 3 = digitos3 n.
Proof.
  intros H.
  assert (A : all_from 1000 0 (fun k => str_eqb (padStart k 3) (digitos3 k)) = true)
    by (vm_compute; reflexivity).
  apply str_eqb_eq. apply (all_from_spec _ _ _ A). simpl. lia.
Qed.

Lemma padStart_4 (n : Z) : 0 <= n <= 9999 -> padStart n 4 = digitos4 n.
Proof.
  intros H.
  assert (A : all_from (Z.to_nat 10000) 0 (fun k => str_eqb (padStart k 4) (digitos4 k)) = true)
    by (vm_compute; reflexivity).
  apply str_eqb_eq. apply (all_from_spec _ _ _ A). simpl. lia.
Qed.

Lemma isDigit_48 (k : Z) : 0 <= k <= 9 -> isDigit (48 + k) = true.
Proof. intros H. unfold isDigit. apply andb_true_intro. split; apply Z.leb_le; lia. Qed.

Lemma digit_lo (n : Z) : 0 <= n mod 10 <= 9.
Proof. pose proof (Z.mod_pos_bound n 10 ltac:(lia)). lia. Qed.

Lemma digit_hi (n b : Z) : 0 < b -> 0 <= n < 10 * b -> 0 <= n / b <= 9.
Proof.
  intros Hb H. split; [apply Z.div_pos; lia|].
  apply Z.lt_succ_r. apply Z.div_lt_upper_bound; lia.
Qed.

Lemma twoDigits_digitos2 (n : Z) (rest : jsstring) :
  0 <= n <= 99 -> twoDigits (digitos2 n ++ rest) = Some (n, rest).
Proof.
  intros H. unfold digitos2, twoDigits. cbn [app].
  rewrite (isDigit_48 (n / 10)) by (apply digit_hi; lia).
  rewrite (isDigit_48 (n mod 10)) by apply digit_lo. cbn [andb].
  do 2 f_equal. pose proof (Z.div_mod n 10 ltac:(lia)). lia.
Qed.

Lemma parseYear_digitos4 (y : Z) (rest : jsstring) :
  0 <= y <= 9999 -> parseYear (digitos4 y ++ rest) = Some (y, rest).
Proof.
  intros H. unfold digitos4, parseYear. cbn [app].
  pose proof (digit_hi y 1000 ltac:(lia) ltac:(lia)) as B.
  replace (48 + y / 1000 =? 43) with false by (symmetry; apply Z.eqb_neq; lia).
  replace (48 + y / 1000 =? 45) with false by (symmetry; apply Z.eqb_neq; lia).
  unfold nDigits.
  rewrite (isDigit_48 (y / 1000)) by exact B.
  rewrite (isDigit_48 ((y / 100) mod 10)) by apply digit_lo.
  rewrite (isDigit_48 ((y / 10) mod 10)) by apply digit_lo.
  rewrite (isDigit_48 (y mod 10)) by apply digit_lo.
  do 2 f_equal.
  pose proof (Z.div_mod y 10 ltac:(lia)) as E1.
  pose proof (Z.div_mod (y / 10) 10 ltac:(lia)) as E2.
  pose proof (Z.div_mod (y / 100) 10 ltac:(lia)) as E3.
  replace (y / 10 / 10) with (y / 100) in E2 by (rewrite Z.div_div by lia; reflexivity).
  replace (y / 100 / 10) with (y / 1000) in E3 by (rewrite Z.div_div by lia; reflexivity).
  lia.
Qed.

Lemma spanDigits_digitos3 (n : Z) (rest : jsstring) :
  0 <= n <= 999 ->
  match rest with c :: _ => isDigit c = false | [] => True end ->
  spanDigits (digitos3 n ++ rest) = (digitos3 n, rest).
Proof.
  intros H Hr. unfold digitos3. cbn [app spanDigits].
  rewrite (isDigit_48 (n / 100)) by (apply digit_hi; lia).
  rewrite (isDigit_48 ((n / 10) mod 10)) by apply digit_lo.
  rewrite (isDigit_48 (n mod 10)) by apply digit_lo.
  assert (E : spanDigits rest = ([], rest)).
  { destruct rest as [|c r]; [reflexivity|]. cbn [spanDigits]. now rewrite Hr. }
  rewrite E. reflexivity.
Qed.

Lemma parseMillis_digitos3 (n : Z) : 0 <= n <= 999 -> parseMillis (digitos3 n) = n.
Proof.
  intros H. unfold parseMillis, digitos3, parseInt. cbn [app firstn fold_left].
  pose proof (Z.div_mod n 10 ltac:(lia)) as E1.
  pose proof (Z.div_mod (n / 10) 10 ltac:(lia)) as E2.
  replace (n / 10 / 10) with (n / 100) in E2 by (rewrite Z.div_div by lia; reflexivity).
  lia.
Qed.

Lemma tsToObj_valid (l : Z) :
  hasInvalidGregorianData (tsToObj l) || hasInvalidTimeData (tsToObj l) = false.
Proof.
  assert (G : 1 <= month (tsToObj l) <= 12
              /\ 1 <= day (tsToObj l) <= daysInMonth (year (tsToObj l)) (month (tsToObj l))).
  { unfold tsToObj. pose proof (civil_valid (l / msPerDay)) as V.
    destruct (civil_from_days (l / msPerDay)) as [[y m] d]. exact V. }
  pose proof (hour_bound l). pose proof (minute_bound l).
  pose proof (second_bound l). pose proof (millisecond_bound l).
  unfold hasInvalidGregorianData, hasInvalidTimeData.
  apply orb_false_intro; apply negb_false_iff.
  - rewrite !andb_true_iff, !Z.leb_le. lia.
  - rewrite !andb_true_iff, orb_true_iff, !andb_true_iff, !Z.leb_le. intuition lia.
Qed.

Lemma parseOffset_textoOffset (z : Zone) :
  Z.abs (zoffset z) <= 5999 ->
  parseOffset (textoOffset z) = Some (Some (zoffset z), []).
Proof.
  intros H. unfold textoOffset.
  assert (N : forall a b : Z, 0 <= a <= 5999 ->
            parseOffset (b :: padStart (Z.quot a 60) 2 ++ js ":" ++ padStart (Z.rem a 60) 2)
            = if b =? 90 then Some (Some 0, padStart (Z.quot a 60) 2 ++ js ":" ++ padStart (Z.rem a 60) 2)
              else if (b =? 43) || (b =? 45)
                   then Some (Some (if b =? 45 then - a else a), [])
                   else Some (None, b :: padStart (Z.quot a 60) 2 ++ js ":" ++ padStart (Z.rem a 60) 2)).
  { intros a b Ha. rewrite Z.quot_div_nonneg, Z.rem_mod_nonneg by lia.
    pose proof (Z.mod_pos_bound a 60 ltac:(lia)) as Hm.
    assert (Hq : 0 <= a / 60 <= 99).
    { split; [apply Z.div_pos; lia|]. apply Z.lt_succ_r. apply Z.div_lt_upper_bound; lia. }
    rewrite !padStart_2 by lia. unfold parseOffset.
    destruct (b =? 90); [reflexivity|]. destruct ((b =? 43) || (b =? 45)); [|reflexivity].
    rewrite twoDigits_digitos2 by lia.
    change (skipChar 58 (js ":" ++ digitos2 (a mod 60))) with (digitos2 (a mod 60) ++ []).
    rewrite twoDigits_digitos2 by lia.
    pose proof (Z.div_mod a 60 ltac:(lia)) as E.
    replace (a / 60 * 60 + a mod 60) with a by lia. reflexivity. }
  assert (R : parseOffset
                (if zoffset z <? 0
                 then js "-" ++ padStart (Z.quot (- zoffset z) 60) 2 ++ js ":" ++ padStart (Z.rem (- zoffset z) 60) 2
                 else js "+" ++ padStart (Z.quot (zoffset z) 60) 2 ++ js ":" ++ padStart (Z.rem (zoffset z) 60) 2)
              = Some (Some (zoffset z), [])).
  { destruct (Z.ltb_spec (zoffset z) 0).
    - change (js "-" ++ ?x) with (45 :: x). rewrite N by lia.
      cbn [Z.eqb Pos.eqb orb]. do 3 f_equal. lia.
    - change (js "+" ++ ?x) with (43 :: x). rewrite N by lia. reflexivity. }
  destruct (zkind z); try exact R.
  destruct (Z.eqb_spec (zoffset z) 0) as [E|_]; [|exact R].
  rewrite E. reflexivity.
Qed.

Lemma textoOffset_cabeza (z : Zone) :
  match textoOffset z with c :: _ => isDigit c = false | [] => True end.
Proof.
  unfold textoOffset.
  destruct (zkind z), (zoffset z =? 0), (zoffset z <? 0); reflexivity.
Qed.

Lemma parseISODate_campos (y m d h mi s ms : Z) (z : Zone) :
  0 <= y <= 9999 -> 0 <= m <= 99 -> 0 <= d <= 99 -> 0 <= h <= 99 ->
  0 <= mi <= 99 -> 0 <= s <= 99 -> 0 <= ms <= 999 -> Z.abs (zoffset z) <= 5999 ->
  parseISODate (digitos4 y ++ 45 :: digitos2 m ++ 45 :: digitos2 d ++ 84 :: digitos2 h
                ++ 58 :: digitos2 mi ++ 58 :: digitos2 s ++ 46 :: digitos3 ms ++ textoOffset z)
  = Some (mkIso (mkObj y m d h mi s ms) (Some (zoffset z))).
Proof.
  intros Hy Hm Hd Hh Hmi Hs Hms Hz. unfold parseISODate.
  rewrite parseYear_digitos4 by exact Hy.
  change (skipChar 45 (45 :: ?x)) with x. rewrite twoDigits_digitos2 by exact Hm.
  change (skipChar 45 (45 :: ?x)) with x. rewrite twoDigits_digitos2 by exact Hd.
  cbv beta iota. change (84 =? 84) with true. cbv iota.
  unfold parseISOTime.
  rewrite twoDigits_digitos2 by exact Hh.
  change (skipChar 58 (58 :: ?x)) with x. rewrite twoDigits_digitos2 by exact Hmi.
  change (skipChar 58 (58 :: ?x)) with x. rewrite twoDigits_digitos2 by exact Hs.
  change ((46 =? 46) || (46 =? 44)) with true. cbv iota.
  rewrite spanDigits_digitos3 by (exact Hms || apply textoOffset_cabeza).
  change (List.length (digitos3 ms)) with 3%nat.
  change ((1 <=? 3)%nat && (3 <=? 30)%nat) with true. cbv iota beta.
  rewrite parseMillis_digitos3 by exact Hms.
  rewrite parseOffset_textoOffset by exact Hz. reflexivity.
Qed.

(** A valid DateTime whose year has four digits is read back from its ISO
    string, in its own zone, as the same instant. *)
Lemma ida_y_vuelta (t : Z) (z : Zone) :
  Z.abs t <= MAX_TS -> Z.abs (zoffset z) <= 5999 ->
  0 <= year (tsToObj (localTS t z)) <= 9999 ->
  exists s, toISO (DT t z) = Some s /\ fromISO s (Some z) = DT t z.
Proof.
  intros Ht Hz Hy. eexists. split; [reflexivity|].
  remember (tsToObj (localTS t z)) as o eqn:Eo.
  assert (V : hasInvalidGregorianData o || hasInvalidTimeData o = false)
    by (subst o; apply tsToObj_valid).
  assert (L : objToLocalTS o = localTS t z) by (subst o; apply objToLocalTS_tsToObj).
  assert (B : (0 <= hour o <= 23 /\ 0 <= minute o <= 59)
              /\ (0 <= second o <= 59 /\ 0 <= millisecond o <= 999)).
  { subst o. repeat split;
      first [apply hour_bound | apply minute_bound | apply second_bound | apply millisecond_bound]. }
  assert (G : 1 <= month o <= 12 /\ 1 <= day o <= 31).
  { apply orb_false_elim in V as [V _]. unfold hasInvalidGregorianData in V.
    apply negb_false_iff in V. rewrite !andb_true_iff, !Z.leb_le in V.
    assert (D : daysInMonth (year o) (month o) <= 31).
    { unfold daysInMonth. destruct (month o =? 2); [destruct (isLeapYear _); lia|].
      assert (M : month o = 1 \/ month o = 2 \/ month o = 3 \/ month o = 4 \/ month o = 5
                  \/ month o = 6 \/ month o = 7 \/ month o = 8 \/ month o = 9 \/ month o = 10
                  \/ month o = 11 \/ month o = 12) by lia.
      destruct M as [M|[M|[M|[M|[M|[M|[M|[M|[M|[M|[M|M]]]]]]]]]]]; rewrite M;
        apply Z.leb_le; reflexivity. }
    lia. }
  clear Eo. destruct o as [y m d h mi s ms]. cbn [year month day hour minute second millisecond] in *.
  unfold fromISO.
  assert (S : toISODate (mkObj y m d h mi s ms) ++ js "T" ++ toISOTime (mkObj y m d h mi s ms) z
              = digitos4 y ++ 45 :: digitos2 m ++ 45 :: digitos2 d ++ 84 :: digitos2 h
                ++ 58 :: digitos2 mi ++ 58 :: digitos2 s ++ 46 :: digitos3 ms ++ textoOffset z).
  { unfold toISODate, toISOTime. fold (textoOffset z).
    cbn [year month day hour minute second millisecond].
    replace (9999 <? y) with false by (symmetry; apply Z.ltb_ge; lia).
    replace (y <? 0) with false by (symmetry; apply Z.ltb_ge; lia).
    cbn [orb andb]. rewrite padStart_4, !padStart_2, padStart_3 by lia.
    rewrite <- !app_assoc. reflexivity. }
  rewrite S, parseISODate_campos by lia.
  cbn [iso_obj iso_offset]. rewrite V, L. unfold localTS.
  replace (t + zoffset z * 60000 - zoffset z * 60000) with t by lia.
  apply mk_valid. exact Ht.
Qed.

(** The response to a resolved date: [iso_datetime], read in the zone of
    the date, gives back [fecha_resuelta] and [hora]. *)
Lemma ensamblar_ida_y_vuelta (t : Z) (z : Zone) (refDate : DateTime) (e : jsstring) :
  Z.abs t <= MAX_TS -> Z.abs (zoffset z) <= 5999 ->
  0 <= year (tsToObj (localTS t z)) <= 9999 ->
  exists iso dia finde pasado,
    Server.ensamblar (DT t z) refDate e
    = mkResponse 200
        (FechaBody (toFormat_date (fromISO iso (Some z))) dia
                   (toFormat_time (fromISO iso (Some z))) (Some iso) finde pasado).
Proof.
  intros Ht Hz Hy. destruct (ida_y_vuelta t z Ht Hz Hy) as (iso & E1 & E2).
  exists iso. do 3 eexists. unfold Server.ensamblar. rewrite E1, E2. reflexivity.
Qed.

End IdaYVuelta.

(** ** The claims *)

Section Afirmaciones.

Variable systemZone : Zone.
Variable normalizeZone : jsstring -> option Zone.
Variable parseDate : jsstring -> Z -> option Z.
Variable openai : option OpenAI.

Local Abbreviation preprocesarExpresion := (Server.preprocesarExpresion systemZone).
Local Abbreviation validarYCorregirFecha := (Server.validarYCorregirFecha systemZone).
Local Abbreviation parsearConOpenAI := (Server.parsearConOpenAI normalizeZone openai).
Local Abbreviation resolver := (Server.resolver systemZone normalizeZone parseDate openai).
Local Abbreviation parse_fecha := (Server.parse_fecha systemZone normalizeZone parseDate openai).

(** The reference of the scenarios, 2025-11-04T09:00:00+01:00, as a time
    stamp, and the day number of a system zone at that instant. *)
Lemma referencia_martes :
  fromISO (js "2025-11-04T09:00:00+01:00") (Some Madrid) = DT 1762243200000 Madrid.
Proof. vm_compute. reflexivity. Qed.

(** The rule "weekday of next week" of the preprocessor, for every
    expression it takes; [hoy] is the weekday of the reference in the zone
    of the process. *)
Lemma semana_que_viene_regla :
  forall (expresion : jsstring) (ref : Z) (m : option jsstring) (X : Z),
  Z.abs ref <= MAX_TS ->
  sinPasadoManana expresion = true ->
  Server.matchSemanaQueViene (trim (toLowerCase expresion)) = Some m ->
  Server.diaObjetivoDe m = Some X ->
  let hoy := wd (dayNumber (localTS ref systemZone)) in
  let dias := hastaLunesProximo hoy + (X - 1) in
  let fecha := set (plusDays (DT ref systemZone) dias) (Server.horaEnPunto 14) in
  preprocesarExpresion expresion ref = Some fecha
  /\ weekday (DT ref systemZone) = Some hoy
  /\ 1 <= dias <= 13
  /\ (Z.abs ref + 14 * msPerDay <= MAX_TS -> isValid fecha = true)
  /\ (forall t' z', fecha = DT t' z' ->
        z' = systemZone
        /\ dayNumber (localTS t' z') = dayNumber (localTS ref systemZone) + dias
        /\ weekday fecha = Some X
        /\ lunesDe (dayNumber (localTS t' z')) = lunesDe (dayNumber (localTS ref systemZone)) + 7
        /\ ref < t'
        /\ toObject fecha
           = Some (let '(y, mo, d) := civil_from_days (dayNumber (localTS t' z')) in
                   mkObj y mo d 14 0 0 0)).
Proof.
  intros expresion ref m X Hr Hs Hm HX hoy dias fecha.
  apply sinPasadoManana_inv in Hs as (H1 & H2 & H3 & H4).
  pose proof (diaObjetivo_range m X HX) as RX.
  pose proof (wd_range (dayNumber (localTS ref systemZone))) as Rh. fold hoy in Rh.
  pose proof (hastaLunesProximo_range hoy Rh) as Rl.
  assert (Hw : (dias - (X - hoy)) mod 7 = 0).
  { unfold dias. rewrite hastaLunesProximo_value by exact Rh.
    destruct (Z.eqb_spec hoy 1) as [->|Hn].
    - replace (7 + (X - 1) - (X - 1)) with (1 * 7) by lia. apply Z.mod_mul. lia.
    - replace (8 - hoy + (X - 1) - (X - hoy)) with (1 * 7) by lia. apply Z.mod_mul. lia. }
  split; [apply (preprocesar_semana systemZone expresion ref m X); assumption|].
  split; [apply weekday_DT|].
  split; [unfold dias; lia|].
  split.
  - intros Hb. unfold fecha. rewrite plusDays_DT.
    pose proof (msOfDay_bound (localTS ref systemZone)) as Bm.
    pose proof (local_split (localTS ref systemZone)) as Sp.
    assert (V1 : Z.abs (ref + dias * msPerDay) <= MAX_TS) by (unfold msPerDay in *; lia).
    rewrite (mk_valid _ _ V1), set_DT.
    unfold setMsOfDay, Server.horaEnPunto. cbn [orKeep set_hour set_minute set_second set_millisecond].
    replace (localTS (ref + dias * msPerDay) systemZone)
      with (localTS ref systemZone + dias * msPerDay) by (unfold localTS; lia).
    unfold dayNumber at 1. unfold msPerDay at 2. rewrite Z.div_add by lia.
    fold msPerDay. fold (dayNumber (localTS ref systemZone)).
    rewrite mk_valid; [reflexivity|].
    unfold localTS in *. unfold msPerDay in *. lia.
  - intros t' z' E. unfold fecha in E.
    pose proof (resultado_en_punto systemZone ref dias 14 t' z' ltac:(lia) E) as (-> & D & O).
    split; [reflexivity|]. split; [exact D|].
    assert (W : wd (dayNumber (localTS ref systemZone) + dias) = X)
      by (apply wd_reach; [exact RX|exact Hw]).
    split.
    { unfold fecha. rewrite E, weekday_DT, D. now rewrite W. }
    split.
    { rewrite D. unfold lunesDe. rewrite W. fold hoy. unfold dias.
      rewrite hastaLunesProximo_value by exact Rh.
      destruct (Z.eqb_spec hoy 1); lia. }
    split.
    { pose proof (set_plusDays_local _ _ _ _ _ _ _ E) as [_ L].
      pose proof (msOfDay_bound (localTS ref systemZone)) as Bm.
      pose proof (local_split (localTS ref systemZone)) as Sp.
      unfold localTS, msPerDay in *. lia. }
    unfold fecha. rewrite E, D. exact O.
Qed.

(** The scenario of the spec: for the reference 2025-11-04T09:00:00+01:00,
    a Tuesday, "el martes de la semana que viene" is answered with
    2025-11-11, seven days on, whatever the zone of the process is: the
    instant falls on that Tuesday in every zone. *)
Lemma semana_que_viene_escenario :
  normalizeZone_ok normalizeZone ->
  -720 <= zoffset systemZone <= 840 ->
  exists iso,
    parse_fecha (mkRequest (Some (js "2025-11-04T09:00:00+01:00"))
                           (Some (js "el martes de la semana que viene"))
                           (Some (js "Europe/Madrid")))
    = mkResponse 200 (FechaBody (js "2025-11-11") (js "martes") (js "14:00") iso false false).
Proof.
  pose proof semana_que_viene_regla as General.
  intros Hz Hoff. unfold normalizeZone_ok in Hz.
  pose proof referencia_martes as Rm.
  repeat match goal with
         | [ |- context [js ?l] ] =>
           let v := eval vm_compute in (js l) in change (js l) with v in *
         end.
  rewrite parse_fecha_resuelve; [|vm_compute; reflexivity|rewrite Hz, Rm; reflexivity].
  rewrite Hz, Rm.
  match goal with
  | [ |- context [Server.resolver _ _ _ _ ?e _ _] ] =>
    destruct (General e 1762243200000 (Some (js "martes")) 2
                      ltac:(vm_compute; discriminate) ltac:(vm_compute; reflexivity)
                      ltac:(vm_compute; reflexivity) ltac:(vm_compute; reflexivity))
      as (Hp & _ & _ & Hv & Hf)
  end.
  rewrite (resolver_preprocesado systemZone normalizeZone parseDate openai _
             (DT 1762243200000 Madrid) _ _ Hp).
  specialize (Hv ltac:(vm_compute; discriminate)).
  match type of Hp with _ = Some ?f => remember f as fecha eqn:Ef end.
  destruct fecha as [|t' z']; [discriminate|].
  destruct (Hf t' z' eq_refl) as (-> & D & W & _ & Hlt & O).
  assert (Dn : dayNumber (localTS t' systemZone) = 20403).
  { rewrite D. unfold dayNumber, localTS, msPerDay.
    pose proof (Z.div_mod (1762243200000 + zoffset systemZone * 60000) 86400000 ltac:(lia)) as Q.
    pose proof (Z.mod_pos_bound (1762243200000 + zoffset systemZone * 60000) 86400000 ltac:(lia)) as B.
    assert (C : (1762243200000 + zoffset systemZone * 60000) / 86400000 = 20395
                \/ (1762243200000 + zoffset systemZone * 60000) / 86400000 = 20396) by lia.
    destruct C as [C|C]; rewrite C; reflexivity. }
  rewrite Dn in O. replace (civil_from_days 20403) with (2025, 11, 11) in O by reflexivity.
  cbv beta iota in O.
  exists (toISO (DT t' systemZone)).
  unfold Server.ensamblar. set (iso := toISO (DT t' systemZone)). clearbody iso.
  unfold toFormat_cccc, toFormat_date, toFormat_time.
  rewrite W, O, lt_DT.
  replace (t' <? 1762243200000) with false by (symmetry; apply Z.ltb_ge; lia).
  reflexivity.
Qed.

(** The reference of the third scenario, Friday 2025-11-07T10:00:00+01:00. *)
Lemma referencia_viernes :
  fromISO (js "2025-11-07T10:00:00+01:00") (Some Madrid) = DT 1762506000000 Madrid.
Proof. vm_compute. reflexivity. Qed.

(** The rule "weekday that is coming" of the preprocessor, for every
    expression it takes; [hoy] is the weekday of the reference in the zone
    of the process. *)
Lemma que_viene_regla :
  forall (expresion : jsstring) (ref : Z) (m : option jsstring) (X : Z),
  Z.abs ref <= MAX_TS ->
  sinPasadoManana expresion = true ->
  Server.matchSemanaQueViene (trim (toLowerCase expresion)) = None ->
  match_ (trim (toLowerCase expresion)) Server.reQueViene = Some m ->
  Server.diaObjetivoDe m = Some X ->
  let hoy := wd (dayNumber (localTS ref systemZone)) in
  let diff := proximaOcurrencia X hoy in
  let salta := (hoy =? 5) && ((X =? 6) || (X =? 7)) in
  let dias := if salta then 3 else diff in
  let fecha := set (plusDays (DT ref systemZone) dias) (Server.horaEnPunto 14) in
  preprocesarExpresion expresion ref = Some fecha
  /\ weekday (DT ref systemZone) = Some hoy
  /\ 1 <= dias <= 7
  /\ (Z.abs ref + 8 * msPerDay <= MAX_TS -> isValid fecha = true)
  /\ (forall t' z', fecha = DT t' z' ->
        z' = systemZone
        /\ dayNumber (localTS t' z') = dayNumber (localTS ref systemZone) + dias
        /\ weekday fecha = Some (if salta then 1 else X)
        /\ ref < t'
        /\ toObject fecha
           = Some (let '(y, mo, d) := civil_from_days (dayNumber (localTS t' z')) in
                   mkObj y mo d 14 0 0 0)).
Proof.
  intros expresion ref m X Hr Hs Hsem Hm HX hoy diff salta dias fecha.
  apply sinPasadoManana_inv in Hs as (H1 & H2 & H3 & H4).
  pose proof (diaObjetivo_range m X HX) as RX.
  pose proof (wd_range (dayNumber (localTS ref systemZone))) as Rh. fold hoy in Rh.
  pose proof (proximaOcurrencia_range X hoy) as Rd. fold diff in Rd.
  assert (Ed : Server.diasQueViene X hoy = dias).
  { unfold dias, salta. rewrite diasQueViene_spec by assumption. fold diff.
    destruct (Z.eqb_spec hoy 5) as [E5|N5]; [|reflexivity]. cbn [andb].
    assert (Dv : diff = if X - hoy <=? 0 then X - hoy + 7 else X - hoy).
    { unfold diff, proximaOcurrencia.
      destruct (Z.leb_spec (X - hoy) 0).
      - destruct (Z.eq_dec X hoy) as [->|Hne]; [rewrite Z.sub_diag; reflexivity|].
        replace ((X - hoy) mod 7) with (X - hoy + 7);
          [destruct (Z.eqb_spec (X - hoy + 7) 0); lia|].
        symmetry. rewrite <- (Z.mod_add _ 1) by lia. apply Z.mod_small. lia.
      - rewrite Z.mod_small by lia. destruct (Z.eqb_spec (X - hoy) 0); lia. }
    rewrite Dv, E5.
    destruct (Z.leb_spec (X - 5) 0); destruct (Z.eqb_spec X 6); destruct (Z.eqb_spec X 7);
      cbn [orb]; try lia;
      match goal with
      | [ |- (if ?c then _ else _) = _ ] => destruct c eqn:Ec; try reflexivity
      end;
      try (apply Z.leb_le in Ec); try (apply Z.leb_gt in Ec); lia. }
  assert (Rdias : 1 <= dias <= 7) by (unfold dias; destruct salta; lia).
  assert (Hw : wd (dayNumber (localTS ref systemZone) + dias) = if salta then 1 else X).
  { unfold dias. destruct salta eqn:Es.
    - apply andb_true_iff in Es as [E5 _]. apply Z.eqb_eq in E5.
      apply wd_reach; [lia|]. fold hoy. rewrite E5. reflexivity.
    - apply wd_reach; [exact RX|]. fold hoy. unfold diff, proximaOcurrencia.
      destruct (Z.eqb_spec ((X - hoy) mod 7) 0) as [E0|N0].
      + replace (7 - (X - hoy)) with (- (X - hoy) + 1 * 7) by lia.
        rewrite Z.mod_add by lia.
        apply Z.mod_divide in E0; [|lia]. apply Z.mod_divide; [lia|].
        now apply Z.divide_opp_r.
      + rewrite Zminus_mod_idemp_l. rewrite Z.sub_diag. reflexivity. }
  split.
  { unfold fecha. rewrite <- Ed. apply (preprocesar_que_viene systemZone expresion ref m X); assumption. }
  split; [apply weekday_DT|].
  split; [exact Rdias|].
  split.
  - intros Hb. unfold fecha. rewrite plusDays_DT.
    pose proof (msOfDay_bound (localTS ref systemZone)) as Bm.
    pose proof (local_split (localTS ref systemZone)) as Sp.
    assert (V1 : Z.abs (ref + dias * msPerDay) <= MAX_TS) by (unfold msPerDay in *; lia).
    rewrite (mk_valid _ _ V1), set_DT.
    unfold setMsOfDay, Server.horaEnPunto. cbn [orKeep set_hour set_minute set_second set_millisecond].
    replace (localTS (ref + dias * msPerDay) systemZone)
      with (localTS ref systemZone + dias * msPerDay) by (unfold localTS; lia).
    unfold dayNumber at 1. unfold msPerDay at 2. rewrite Z.div_add by lia.
    fold msPerDay. fold (dayNumber (localTS ref systemZone)).
    rewrite mk_valid; [reflexivity|].
    unfold localTS in *. unfold msPerDay in *. lia.
  - intros t' z' E. unfold fecha in E.
    pose proof (resultado_en_punto systemZone ref dias 14 t' z' ltac:(lia) E) as (-> & D & O).
    split; [reflexivity|]. split; [exact D|].
    split.
    { unfold fecha. rewrite E, weekday_DT, D. now rewrite Hw. }
    split.
    { pose proof (set_plusDays_local _ _ _ _ _ _ _ E) as [_ L].
      pose proof (msOfDay_bound (localTS ref systemZone)) as Bm.
      pose proof (local_split (localTS ref systemZone)) as Sp.
      unfold localTS, msPerDay in *. lia. }
    unfold fecha. rewrite E, D. exact O.
Qed.

(** The scenario of the spec: for the reference Friday
    2025-11-07T10:00:00+01:00, "el sábado que viene" is answered with Monday
    2025-11-10, the Monday after the coming weekend, in a process whose zone
    is at UTC-9 or east of it, where the instant falls on that Friday. *)
Lemma que_viene_escenario :
  normalizeZone_ok normalizeZone ->
  -540 <= zoffset systemZone <= 840 ->
  exists iso,
    parse_fecha (mkRequest (Some (js "2025-11-07T10:00:00+01:00"))
                           (Some (js "el sábado que viene"))
                           (Some (js "Europe/Madrid")))
    = mkResponse 200 (FechaBody (js "2025-11-10") (js "lunes") (js "14:00") iso false false).
Proof.
  pose proof que_viene_regla as General.
  intros Hz Hoff. unfold normalizeZone_ok in Hz.
  pose proof referencia_viernes as Rm.
  repeat match goal with
         | [ |- context [js ?l] ] =>
           let v := eval vm_compute in (js l) in change (js l) with v in *
         end.
  rewrite parse_fecha_resuelve; [|vm_compute; reflexivity|rewrite Hz, Rm; reflexivity].
  rewrite Hz, Rm.
  assert (Dr : dayNumber (localTS 1762506000000 systemZone) = 20399).
  { unfold dayNumber, localTS, msPerDay.
    pose proof (Z.div_mod (1762506000000 + zoffset systemZone * 60000) 86400000 ltac:(lia)) as Q.
    pose proof (Z.mod_pos_bound (1762506000000 + zoffset systemZone * 60000) 86400000 ltac:(lia)) as B.
    lia. }
  match goal with
  | [ |- context [Server.resolver _ _ _ _ ?e _ _] ] =>
    destruct (General e 1762506000000 (Some (js "sábado")) 6
                      ltac:(vm_compute; discriminate) ltac:(vm_compute; reflexivity)
                      ltac:(vm_compute; reflexivity) ltac:(vm_compute; reflexivity)
                      ltac:(vm_compute; reflexivity))
      as (Hp & _ & _ & Hv & Hf)
  end.
  rewrite (resolver_preprocesado systemZone normalizeZone parseDate openai _
             (DT 1762506000000 Madrid) _ _ Hp).
  specialize (Hv ltac:(vm_compute; discriminate)).
  match type of Hp with _ = Some ?f => remember f as fecha eqn:Ef end.
  destruct fecha as [|t' z']; [discriminate|].
  destruct (Hf t' z' eq_refl) as (-> & D & W & Hlt & O).
  rewrite Dr in D, W.
  assert (D' : dayNumber (localTS t' systemZone) = 20402) by (rewrite D; reflexivity).
  assert (W' : weekday (DT t' systemZone) = Some 1) by (rewrite W; reflexivity).
  rewrite D' in O. replace (civil_from_days 20402) with (2025, 11, 10) in O by reflexivity.
  cbv beta iota in O.
  exists (toISO (DT t' systemZone)).
  rewrite (ensamblar_campos t' 1762506000000 systemZone Madrid _ _ _ O W').
  replace (t' <? 1762506000000) with false by (symmetry; apply Z.ltb_ge; lia).
  reflexivity.
Qed.


(** C5. When the hour of the candidate is 7 and the expression says "a las
    7" or "a les 7" with no "am", "a.m." or "de la mañana" after the 7, the
    corrector answers with the hour 19, for every result within the range
    of dates. For the reference 2025-11-04T09:00:00+01:00 and "el viernes a
    las 7", read by the parser as Friday 07:00, the handler answers
    2025-11-07, 19:00, no weekend, not past. The corrector of
    [src/server.js], which has no test for a morning qualifier, gives
    19 as well. *)
Theorem hora_siete_es_diecinueve :
  (forall fecha ref expresion,
      get hour fecha = Some 7 ->
      matches (toLowerCase expresion) Server.reHora7 = true ->
      matches (toLowerCase expresion) Server.reHora7AM = false ->
      isValid (validarYCorregirFecha fecha ref expresion) = true ->
      get hour (validarYCorregirFecha fecha ref expresion) = Some 19)
  /\ (normalizeZone_ok normalizeZone ->
      parseDate (js "el viernes a las 7") 1762243200000 = Some 1762495200000 ->
      parse_fecha (mkRequest (Some (js "2025-11-04T09:00:00+01:00")) (Some (js "el viernes a las 7"))
                             (Some (js "Europe/Madrid")))
      = mkResponse 200
          (FechaBody (js "2025-11-07") (js "viernes") (js "19:00")
                     (Some (js "2025-11-07T19:00:00.000+01:00")) false false))
  /\ (forall fecha ref expresion,
         get hour fecha = Some 7 ->
         matches (toLowerCase expresion) Server.reHora7 = true ->
         isValid (ServerJs.validarYCorregirFecha systemZone fecha ref expresion) = true ->
         get hour (ServerJs.validarYCorregirFecha systemZone fecha ref expresion) = Some 19).
Proof.
  split.
  { intros fecha ref expresion H7 Hm Ham Hv.
    unfold Server.validarYCorregirFecha in *.
    set (n := toLowerCase expresion) in *.
    set (refDate := fromJSDate ref systemZone) in *.
    assert (H1 : forall f1, f1 = Server.corregirPasado fecha refDate n ->
                            f1 = Invalid \/ get hour f1 = Some 7).
    { intros f1 ->. unfold Server.corregirPasado.
      destruct (lt fecha refDate) eqn:Hlt; [|right; exact H7].
      destruct (matches n Server.reDiaSemanaEspecifico && negb (Server.esConteoDias n)) eqn:Hc;
        [|right; exact H7].
      apply lt_true_inv in Hlt as (t & z & r & zr & -> & Er & Htr). rewrite Er.
      rewrite !weekday_DT. rewrite get_DT in H7 |- *. rewrite (get_DT minute).
      assert (Eh : hour (tsToObj (localTS t z)) = 7) by congruence. rewrite Eh.
      match goal with
      | [ |- ?d = Invalid \/ _ ] => destruct d as [|t' z'] eqn:E; [left; reflexivity|right]
      end.
      apply set_plusDays_local in E as [-> L].
      rewrite get_DT, L. f_equal. apply hour_hm; [lia|apply minute_bound]. }
    destruct (H1 _ eq_refl) as [E1|E1].
    - rewrite E1, horaPorDefecto_Invalid, hora7_Invalid in Hv. discriminate.
    - set (f1 := Server.corregirPasado fecha refDate n) in *.
      assert (E2 : Server.horaPorDefecto f1 n = f1)
        by (unfold Server.horaPorDefecto; rewrite E1; reflexivity).
      rewrite E2 in *. unfold Server.hora7 in *. rewrite Hm, E1, Ham in *. cbn [negb] in *.
      destruct f1 as [|t z]; [discriminate|].
      destruct (set (DT t z) (mkSet (Some 19) None None None)) as [|t' z'] eqn:Es; [discriminate|].
      rewrite set_DT in Es. apply mk_DT_inv in Es as (-> & -> & _).
      rewrite get_DT. f_equal. unfold localTS at 1.
      match goal with
      | [ |- hour (tsToObj ?x) = _ ] =>
        replace x with (dayNumber (localTS t z) * msPerDay
                        + (19 * 3600000 + (minute (tsToObj (localTS t z)) * 60000
                                           + second (tsToObj (localTS t z)) * 1000
                                           + millisecond (tsToObj (localTS t z)))))
          by (unfold setMsOfDay; cbn [orKeep set_hour set_minute set_second set_millisecond]; lia)
      end.
      apply hour_of_parts; [lia|].
      pose proof (minute_bound (localTS t z)). pose proof (second_bound (localTS t z)).
      pose proof (millisecond_bound (localTS t z)). lia. }
  split; [|exact (hora_siete_js systemZone)].
  intros Hz Hp. unfold normalizeZone_ok in Hz.
  pose proof referencia_martes as Rm.
  repeat match goal with
         | [ |- context [js ?l] ] =>
           let v := eval vm_compute in (js l) in change (js l) with v in *
         end.
  rewrite parse_fecha_resuelve; [|vm_compute; reflexivity|rewrite Hz, Rm; reflexivity].
  rewrite Hz, Rm.
  match goal with
  | [ |- context [Server.resolver _ _ _ _ ?e _ _] ] =>
    assert (Hv : Server.validarYCorregirFecha systemZone (fromJSDate 1762495200000 Madrid)
                   1762243200000 e = DT 1762538400000 Madrid)
  end.
  { rewrite validar_sin_correccion by (left; unfold fromJSDate; rewrite mk_valid by (vm_compute; discriminate); reflexivity).
    vm_compute. reflexivity. }
  erewrite resolver_base;
    [ | apply preprocesar_ninguna; vm_compute; reflexivity
      | rewrite parsearBase_es by (vm_compute; reflexivity); exact Hp
      | exact Hz
      | cbn [toJSDate]; rewrite Hv; reflexivity ].
  cbn [toJSDate]. rewrite Hv. vm_compute. reflexivity.
Qed.

Lemma fromISO_bound (text : jsstring) (zone : option Zone) (t : Z) (z : Zone) :
  fromISO text zone = DT t z -> Z.abs t <= MAX_TS.
Proof.
  unfold fromISO. destruct zone as [z0|]; [|discriminate].
  destruct (parseISODate text) as [p|]; [|discriminate].
  destruct (_ || _); [discriminate|].
  intros H. apply mk_DT_inv in H as (-> & _ & H). exact H.
Qed.

(** C1, as amended. For a request whose expression matches the pattern of
    an article and a weekday name and is no count of days, and for which
    the preprocessor or the base parser yields the candidate, the resolved
    instant is not before the reference and [es_pasado] is false. *)
Theorem nunca_pasada (r e : jsstring) (zona : option jsstring) :
  let zonaHoraria := match zona with Some z => z | None => js "Europe/Madrid" end in
  let refDate := fromISO r (normalizeZone zonaHoraria) in
  matches (toLowerCase e) Server.reDiaSemanaEspecifico = true ->
  Server.esConteoDias (toLowerCase e) = false ->
  preprocesarExpresion e (toJSDate refDate) <> None
  \/ Server.parsearBase parseDate openai e (toJSDate refDate) <> None ->
  esPasado (body (parse_fecha (mkRequest (Some r) (Some e) zona))) <> Some true
  /\ (isValid refDate = true ->
      exists fecha,
        resolver e refDate zonaHoraria = Server.Resuelta fecha
        /\ lt fecha refDate = false
        /\ noAntes fecha (toJSDate refDate)).
Proof.
  intros zonaHoraria refDate Hm Hc Hcand.
  assert (Second : isValid refDate = true ->
                   exists fecha,
                     resolver e refDate zonaHoraria = Server.Resuelta fecha
                     /\ lt fecha refDate = false
                     /\ noAntes fecha (toJSDate refDate)).
  { intros Hv. destruct refDate as [|rt zr] eqn:Er; [discriminate|].
    pose proof (fromISO_bound _ _ _ _ Er) as Hb. cbn [toJSDate] in *.
    unfold Server.resolver. cbn [toJSDate].
    destruct (Server.preprocesarExpresion systemZone e rt) as [pre|] eqn:Ep.
    - exists pre. pose proof (preprocesar_noAntes systemZone e rt pre Hb Ep) as Hn.
      split; [reflexivity|]. split; [apply lt_false_noAntes|]; exact Hn.
    - destruct Hcand as [Hcand|Hcand]; [congruence|].
      destruct (Server.parsearBase parseDate openai e rt) as [p|]; [|congruence].
      match goal with
      | [ |- context [Server.validarYCorregirFecha systemZone ?f0 rt e] ] =>
        pose proof (validar_noAntes systemZone f0 rt e Hb Hm Hc) as Hn;
          set (f := Server.validarYCorregirFecha systemZone f0 rt e) in *
      end.
      assert (Hl : lt f (DT rt zr) = false) by (apply lt_false_noAntes; exact Hn).
      exists f. rewrite Hl. cbn [andb]. auto. }
  split; [|exact Second].
  unfold Server.parse_fecha. cbn [referencia expresion_usuario zona_horaria].
  destruct r as [|r0 rs]; [cbn; discriminate|].
  destruct e as [|e0 ex]; [cbn; discriminate|].
  destruct (negb (Server.esExpresionTemporalClara (e0 :: ex))); [cbn; discriminate|].
  fold zonaHoraria. fold refDate.
  destruct (isValid refDate) eqn:Hv; cbn [negb]; [|cbn; discriminate].
  destruct (Second eq_refl) as (fecha & -> & Hl & _).
  unfold Server.ensamblar. cbn [body esPasado]. rewrite Hl. discriminate.
Qed.

(** The classifier on the greetings without a keyword, with or without
    one closing mark: not temporally clear, and the handler answers
    "sin_definir" with status 200 whatever the reference and the
    collaborators. *)
Lemma saludo_puro_sin_definir (r e : jsstring) (zona : option jsstring) (saludo sufijo : jsstring) :
  In saludo saludosPuros -> In sufijo sufijos ->
  trim (toLowerCase e) = saludo ++ sufijo ->
  r <> [] ->
  Server.esExpresionTemporalClara e = false
  /\ parse_fecha (mkRequest (Some r) (Some e) zona) = Server.respuestaSinDefinir.
Proof.
  intros Hs Hf He Hr.
  assert (Hc : Server.esExpresionTemporalClara e = false).
  { unfold Server.esExpresionTemporalClara. rewrite He. clear He.
    vm_compute in Hs. vm_compute in Hf.
    repeat (destruct Hs as [<-|Hs];
            [repeat (destruct Hf as [<-|Hf]; [vm_compute; reflexivity|]); contradiction|]).
    contradiction. }
  split; [exact Hc|].
  unfold Server.parse_fecha. cbn [referencia expresion_usuario].
  destruct r as [|r0 rs]; [congruence|].
  destruct e as [|e0 ex]; [vm_compute in Hc; discriminate|].
  rewrite Hc. reflexivity.
Qed.

(** An expression that holds a temporal keyword is temporally clear. *)
Lemma palabra_temporal_clara (e palabra : jsstring) :
  In palabra Server.palabrasTemporales ->
  includes (trim (toLowerCase e)) palabra = true ->
  Server.esExpresionTemporalClara e = true.
Proof.
  intros Hin Hinc. unfold Server.esExpresionTemporalClara.
  assert (E : some (fun p => includes (trim (toLowerCase e)) p) Server.palabrasTemporales = true).
  { unfold some. apply existsb_exists. exists palabra. auto. }
  rewrite E. reflexivity.
Qed.

(** C8, as amended. A request without [referencia] or without
    [expresion_usuario] is answered 400 before any stage runs. With both,
    the classifier runs first: an expression that is not temporally clear
    is answered 200 "sin_definir" whatever the reference; a temporally
    clear one with an invalid reference is answered 400. A temporally clear
    expression that no stage reads is answered 200 with [error: true]. *)
Theorem validacion_y_errores :
  (forall req,
      truthy (referencia req) = false \/ truthy (expresion_usuario req) = false ->
      parse_fecha req
      = mkResponse 400
          (ErrorBody (js "Faltan parámetros requeridos: referencia y expresion_usuario.")))
  /\ (forall r e zona,
         r <> [] -> e <> [] ->
         Server.esExpresionTemporalClara e = false ->
         parse_fecha (mkRequest (Some r) (Some e) zona) = Server.respuestaSinDefinir)
  /\ (forall r e zona,
         r <> [] -> e <> [] ->
         Server.esExpresionTemporalClara e = true ->
         isValid (fromISO r (normalizeZone
                               (match zona with Some z => z | None => js "Europe/Madrid" end)))
         = false ->
         parse_fecha (mkRequest (Some r) (Some e) zona)
         = mkResponse 400 (ErrorBody (js "Referencia inválida.")))
  /\ (forall r e zona,
         let zonaHoraria := match zona with Some z => z | None => js "Europe/Madrid" end in
         let refDate := fromISO r (normalizeZone zonaHoraria) in
         r <> [] -> e <> [] ->
         Server.esExpresionTemporalClara e = true ->
         isValid refDate = true ->
         preprocesarExpresion e (toJSDate refDate) = None ->
         Server.parsearBase parseDate openai e (toJSDate refDate) = None ->
         parsearConOpenAI e (toJSDate refDate) zonaHoraria = Returns Null ->
         parse_fecha (mkRequest (Some r) (Some e) zona)
         = mkResponse 200 (ErrorBody (js "No se pudo interpretar la fecha."))).
Proof.
  split.
  { intros [r e z] H. unfold Server.parse_fecha. cbn [referencia expresion_usuario] in *.
    destruct r as [[|r0 rs]|]; destruct e as [[|e0 ex]|]; try reflexivity.
    destruct H as [H|H]; discriminate. }
  split.
  { intros r e zona Hr He Hc. unfold Server.parse_fecha. cbn [referencia expresion_usuario].
    destruct r as [|r0 rs]; [congruence|]. destruct e as [|e0 ex]; [congruence|].
    rewrite Hc. reflexivity. }
  split.
  { intros r e zona Hr He Hc Hv. unfold Server.parse_fecha.
    cbn [referencia expresion_usuario zona_horaria].
    destruct r as [|r0 rs]; [congruence|]. destruct e as [|e0 ex]; [congruence|].
    rewrite Hc. cbn [negb]. rewrite Hv. reflexivity. }
  intros r e zona zonaHoraria refDate Hr He Hc Hv Hp Hb Ho.
  destruct r as [|r0 rs]; [congruence|]. destruct e as [|e0 ex]; [congruence|].
  rewrite parse_fecha_resuelve by assumption.
  fold zonaHoraria. fold refDate. unfold Server.resolver. rewrite Hp, Hb, Ho. reflexivity.
Qed.

(** C7, as amended. [parsearConOpenAI] never raises. Without a client, or
    when the call fails, it returns none. A response that is absent or
    empty after [trim], or that is the token "sin_definir" up to case,
    gives the sentinel. Any other response whose cleaned form is not the
    token up to case is read as an ISO date in the zone: the date when
    it is valid, none otherwise. *)
Theorem respuesta_del_modelo (e : jsstring) (ref : Z) (zona : jsstring) :
  (exists v, parsearConOpenAI e ref zona = Returns v)
  /\ (openai = None -> parsearConOpenAI e ref zona = Returns Null)
  /\ (forall client,
         openai = Some client ->
         let refDate := match normalizeZone zona with
                        | Some z => fromJSDate ref z
                        | None => Invalid
                        end in
         match completion client e (toISO refDate) zona with
         | Throws _ => parsearConOpenAI e ref zona = Returns Null
         | Content c =>
           (truthy (option_map trim c) = false ->
            parsearConOpenAI e ref zona = Returns SinDefinir)
           /\ (forall respuesta,
                  c = Some respuesta ->
                  toLowerCase (trim respuesta) = Server.sin_definir ->
                  parsearConOpenAI e ref zona = Returns SinDefinir)
           /\ (forall respuesta,
                  c = Some respuesta ->
                  trim respuesta <> [] ->
                  toLowerCase (limpiar respuesta) <> Server.sin_definir ->
                  parsearConOpenAI e ref zona
                  = if isValid (fromISO (limpiar respuesta) (normalizeZone zona))
                    then Returns (Fecha (fromISO (limpiar respuesta) (normalizeZone zona)))
                    else Returns Null)
         end).
Proof.
  split.
  { unfold Server.parsearConOpenAI. destruct openai as [client|]; [|eauto].
    destruct (Server.parsearConOpenAI_try normalizeZone client e ref zona); eauto. }
  split.
  { intros H. unfold Server.parsearConOpenAI. now rewrite H. }
  intros client Hc refDate. unfold Server.parsearConOpenAI, Server.parsearConOpenAI_try.
  rewrite Hc. fold refDate.
  destruct (completion client e (toISO refDate) zona) as [|c]; [reflexivity|].
  split.
  { intros Ht. destruct c as [resp|]; [|reflexivity]. cbn [option_map truthy] in *.
    destruct (trim resp) as [|x t]; [reflexivity|discriminate]. }
  split.
  { intros resp -> Ht. cbn [option_map].
    destruct (trim resp) as [|x t] eqn:Et; [reflexivity|].
    assert (E : str_eqb (toLowerCase (x :: t)) Server.sin_definir = true)
      by (apply str_eqb_eq; exact Ht).
    rewrite E. reflexivity. }
  intros resp -> Hne Hnt. cbn [option_map]. unfold limpiar in *.
  destruct (trim resp) as [|x t] eqn:Et; [congruence|].
  destruct (str_eqb (toLowerCase (x :: t)) Server.sin_definir) eqn:E.
  - apply str_eqb_eq in E. exfalso. apply Hnt.
    rewrite (token_limpio _ E). exact E.
  - destruct (isValid _); reflexivity.
Qed.

Lemma ensamblar_Invalid (refDate : DateTime) (e : jsstring) :
  Server.ensamblar Invalid refDate e
  = mkResponse 200 (FechaBody invalidText invalidText invalidText None false false).
Proof.
  unfold Server.ensamblar. destruct (Server.detectarIdioma e); reflexivity.
Qed.

(** C10, as amended. The hour that the rules "pasado mañana a las H" and
    "demà passat a les H" read is written as it is, without a check of its
    range. An H so large that the time stamp leaves the range of Date, as
    in "pasado mañana a las 9999999999", gives an invalid date, which the
    handler answers with status 200, "Invalid DateTime" in the three text
    fields and a null [iso_datetime], no error flag. *)
Theorem hora_sin_validar :
  (forall expresion ref m,
      Z.abs ref <= MAX_TS ->
      match_ expresion Server.rePasadoMananaHora = Some m
      \/ (match_ expresion Server.rePasadoMananaHora = None
          /\ match_ expresion Server.reDemaPassatHora = Some m) ->
      exists ds,
        m = Some ds /\ forallb isDigit ds = true
        /\ preprocesarExpresion expresion ref
           = Some (set (plusDays (DT ref systemZone) 2) (Server.horaEnPunto (parseInt ds))))
  /\ (forall ref H,
         MAX_TS < (dayNumber (localTS ref systemZone) + 2) * msPerDay + H * 3600000
                  - zoffset systemZone * 60000 ->
         set (plusDays (DT ref systemZone) 2) (Server.horaEnPunto H) = Invalid)
  /\ (forall r e zona,
         let zonaHoraria := match zona with Some z => z | None => js "Europe/Madrid" end in
         let refDate := fromISO r (normalizeZone zonaHoraria) in
         r <> [] -> e <> [] ->
         Server.esExpresionTemporalClara e = true ->
         isValid refDate = true ->
         preprocesarExpresion e (toJSDate refDate) = Some Invalid ->
         parse_fecha (mkRequest (Some r) (Some e) zona)
         = mkResponse 200 (FechaBody invalidText invalidText invalidText None false false))
  /\ (normalizeZone_ok normalizeZone ->
      -720 <= zoffset systemZone <= 840 ->
      parse_fecha (mkRequest (Some (js "2025-11-04T09:00:00+01:00"))
                             (Some (js "pasado mañana a las 9999999999"))
                             (Some (js "Europe/Madrid")))
      = mkResponse 200 (FechaBody invalidText invalidText invalidText None false false)).
Proof.
  assert (P1 : forall expresion ref m,
      Z.abs ref <= MAX_TS ->
      match_ expresion Server.rePasadoMananaHora = Some m
      \/ (match_ expresion Server.rePasadoMananaHora = None
          /\ match_ expresion Server.reDemaPassatHora = Some m) ->
      exists ds,
        m = Some ds /\ forallb isDigit ds = true
        /\ preprocesarExpresion expresion ref
           = Some (set (plusDays (DT ref systemZone) 2) (Server.horaEnPunto (parseInt ds)))).
  { intros expresion ref m Hr [H1|[H1 H2]].
    - destruct (hora_capturada_es _ _ H1) as (ds & -> & Hd). exists ds.
      repeat (split; [auto|]).
      unfold Server.preprocesarExpresion, fromJSDate. rewrite H1, (mk_valid _ _ Hr). reflexivity.
    - destruct (hora_capturada_ca _ _ H2) as (ds & -> & Hd). exists ds.
      repeat (split; [auto|]).
      unfold Server.preprocesarExpresion, fromJSDate. rewrite H1, H2, (mk_valid _ _ Hr).
      reflexivity. }
  assert (P2 : forall ref H,
         MAX_TS < (dayNumber (localTS ref systemZone) + 2) * msPerDay + H * 3600000
                  - zoffset systemZone * 60000 ->
         set (plusDays (DT ref systemZone) 2) (Server.horaEnPunto H) = Invalid).
  { intros ref H Hb. rewrite plusDays_DT.
    destruct (mk (ref + 2 * msPerDay) systemZone) as [|t1 z1] eqn:E; [reflexivity|].
    apply mk_DT_inv in E as (-> & -> & _). rewrite set_DT.
    unfold setMsOfDay, Server.horaEnPunto.
    cbn [orKeep set_hour set_minute set_second set_millisecond].
    replace (localTS (ref + 2 * msPerDay) systemZone)
      with (localTS ref systemZone + 2 * msPerDay) by (unfold localTS; lia).
    unfold dayNumber at 1. unfold msPerDay at 2. rewrite Z.div_add by lia.
    fold msPerDay. fold (dayNumber (localTS ref systemZone)).
    unfold mk, timeClip.
    match goal with
    | [ |- context [Z.abs ?x <=? MAX_TS] ] =>
      replace (Z.abs x <=? MAX_TS) with false; [reflexivity|]
    end.
    symmetry. apply Z.leb_gt. lia. }
  assert (P3 : forall r e zona,
         let zonaHoraria := match zona with Some z => z | None => js "Europe/Madrid" end in
         let refDate := fromISO r (normalizeZone zonaHoraria) in
         r <> [] -> e <> [] ->
         Server.esExpresionTemporalClara e = true ->
         isValid refDate = true ->
         preprocesarExpresion e (toJSDate refDate) = Some Invalid ->
         parse_fecha (mkRequest (Some r) (Some e) zona)
         = mkResponse 200 (FechaBody invalidText invalidText invalidText None false false)).
  { intros r e zona zonaHoraria refDate Hr He Hc Hv Hp.
    destruct r as [|r0 rs]; [congruence|]. destruct e as [|e0 ex]; [congruence|].
    rewrite parse_fecha_resuelve by assumption.
    fold zonaHoraria. fold refDate.
    rewrite (resolver_preprocesado systemZone normalizeZone parseDate openai _ _ _ _ Hp).
    apply ensamblar_Invalid. }
  repeat (split; [assumption|]).
  intros Hz Hoff. unfold normalizeZone_ok in Hz.
  pose proof referencia_martes as Rm.
  assert (Hm : match_ (js "pasado mañana a las 9999999999") Server.rePasadoMananaHora
               = Some (Some (js "9999999999"))) by (vm_compute; reflexivity).
  assert (Hc : Server.esExpresionTemporalClara (js "pasado mañana a las 9999999999") = true)
    by (vm_compute; reflexivity).
  assert (Hn : parseInt (js "9999999999") = 9999999999) by (vm_compute; reflexivity).
  apply P3; [vm_compute; discriminate | vm_compute; discriminate | exact Hc | | ].
  - rewrite Hz, Rm. reflexivity.
  - rewrite Hz, Rm. cbn [toJSDate].
    destruct (P1 _ 1762243200000 _ ltac:(vm_compute; discriminate) (or_introl Hm))
      as (ds & E & _ & Hp).
    injection E as <-. rewrite Hp, Hn. f_equal. apply P2.
    assert (D : 0 <= dayNumber (localTS 1762243200000 systemZone)).
    { unfold dayNumber, localTS, msPerDay. apply Z.div_pos; lia. }
    unfold MAX_TS, msPerDay. lia.
Qed.

End Afirmaciones.

(** ** Scenarios

    The server runs in the zone of Madrid, unless the scenario names the
    zone of the process; chrono reads nothing, or gives one fixed answer;
    there is no model unless a client is named. *)

(** C3, at a reference that is a Monday in the zone of the request and
    still a Sunday in the zone of the process. The preprocessor builds its
    reference date without the zone of the request, so that the weekday of
    the rule is the weekday in the zone of the process: in a process in UTC
    "el martes de la semana que viene", asked on Monday
    2025-11-10T00:30:00+01:00, is answered with 2025-11-11, the Tuesday of
    the week of the reference, two days on; a process in the zone of the
    request answers 2025-11-18. The hour is 14:00 in both, where the
    corrector of the same revision gives 12:00 to a date without an hour. *)
Theorem semana_que_viene_en_zona_del_proceso :
  weekday (fromISO (js "2025-11-10T00:30:00+01:00") (zonas (js "Europe/Madrid"))) = Some 1
  /\ weekday (fromJSDate (toJSDate (fromISO (js "2025-11-10T00:30:00+01:00")
                                            (zonas (js "Europe/Madrid")))) UTC) = Some 7
  /\ (exists iso,
        Server.parse_fecha UTC zonas sinChrono None
          (peticion "2025-11-10T00:30:00+01:00" "el martes de la semana que viene" "Europe/Madrid")
        = mkResponse 200 (FechaBody (js "2025-11-11") (js "martes") (js "14:00") iso false false))
  /\ Server.parse_fecha Madrid zonas sinChrono None
       (peticion "2025-11-10T00:30:00+01:00" "el martes de la semana que viene" "Europe/Madrid")
     = mkResponse 200
         (FechaBody (js "2025-11-18") (js "martes") (js "14:00")
                    (Some (js "2025-11-18T14:00:00.000+01:00")) false false)
  /\ toObject (DT 1762819200000 UTC) = Some (mkObj 2025 11 11 0 0 0 0)
  /\ get hour (Server.validarYCorregirFecha UTC (DT 1762819200000 UTC) 1762731000000
                 (js "el martes")) = Some 12.
Proof.
  split; [vm_compute; reflexivity|].
  split; [vm_compute; reflexivity|].
  split; [eexists; vm_compute; reflexivity|].
  repeat split; vm_compute; reflexivity.
Qed.

(** C4, at references whose weekday in the zone of the process is not the
    weekday in the zone of the request. The preprocessor reads the weekday
    of the reference in the zone of the process. In a process in UTC, "el
    domingo que viene" asked on Saturday 2025-11-08T00:30:00+01:00, still
    Friday in UTC, skips the weekend and is answered with Monday
    2025-11-10; a process in the zone of the request answers Sunday
    2025-11-09. In a process at UTC-10 the scenario of the spec, "el sábado
    que viene" asked on Friday 2025-11-07T10:00:00+01:00, there still
    Thursday, is answered with the immediate Saturday 2025-11-08; a process
    in the zone of the request answers Monday 2025-11-10. The handler of
    [src/server.js] answers the same. *)
Theorem que_viene_en_zona_del_proceso :
  (weekday (fromISO (js "2025-11-08T00:30:00+01:00") (zonas (js "Europe/Madrid"))) = Some 6
   /\ weekday (fromJSDate (toJSDate (fromISO (js "2025-11-08T00:30:00+01:00")
                                             (zonas (js "Europe/Madrid")))) UTC) = Some 5
   /\ (exists iso,
         Server.parse_fecha UTC zonas sinChrono None
           (peticion "2025-11-08T00:30:00+01:00" "el domingo que viene" "Europe/Madrid")
         = mkResponse 200 (FechaBody (js "2025-11-10") (js "lunes") (js "14:00") iso false false))
   /\ (exists iso,
         ServerJs.parse_fecha UTC zonas sinChrono None
           (peticion "2025-11-08T00:30:00+01:00" "el domingo que viene" "Europe/Madrid")
         = mkResponse 200 (FechaBody (js "2025-11-10") (js "lunes") (js "14:00") iso false false))
   /\ Server.parse_fecha Madrid zonas sinChrono None
        (peticion "2025-11-08T00:30:00+01:00" "el domingo que viene" "Europe/Madrid")
      = mkResponse 200
          (FechaBody (js "2025-11-09") (js "domingo") (js "14:00")
                     (Some (js "2025-11-09T14:00:00.000+01:00")) true false))
  /\ (weekday (fromISO (js "2025-11-07T10:00:00+01:00") (zonas (js "Europe/Madrid"))) = Some 5
      /\ weekday (fromJSDate (toJSDate (fromISO (js "2025-11-07T10:00:00+01:00")
                                                (zonas (js "Europe/Madrid")))) Honolulu) = Some 4
      /\ Server.parse_fecha Honolulu zonas sinChrono None
           (peticion "2025-11-07T10:00:00+01:00" "el sábado que viene" "Europe/Madrid")
         = mkResponse 200
             (FechaBody (js "2025-11-08") (js "sábado") (js "14:00")
                        (Some (js "2025-11-08T14:00:00.000-10:00")) true false)
      /\ ServerJs.parse_fecha Honolulu zonas sinChrono None
           (peticion "2025-11-07T10:00:00+01:00" "el sábado que viene" "Europe/Madrid")
         = mkResponse 200
             (FechaBody (js "2025-11-08") (js "sábado") (js "14:00")
                        (Some (js "2025-11-08T14:00:00.000-10:00")) true false)
      /\ Server.parse_fecha Madrid zonas sinChrono None
           (peticion "2025-11-07T10:00:00+01:00" "el sábado que viene" "Europe/Madrid")
         = mkResponse 200
             (FechaBody (js "2025-11-10") (js "lunes") (js "14:00")
                        (Some (js "2025-11-10T14:00:00.000+01:00")) false false)).
Proof.
  split.
  - split; [vm_compute; reflexivity|].
    split; [vm_compute; reflexivity|].
    split; [eexists; vm_compute; reflexivity|].
    split; [eexists; vm_compute; reflexivity|].
    vm_compute; reflexivity.
  - repeat split; vm_compute; reflexivity.
Qed.

(** Saturday 2025-11-08T10:00:00+01:00 as a time stamp, and a chrono that
    reads "el viernes" as the nearest Friday, the day before at noon. *)
Lemma nunca_pasada_witness :
  matches (toLowerCase (js "el viernes")) Server.reDiaSemanaEspecifico = true
  /\ Server.esConteoDias (toLowerCase (js "el viernes")) = false
  /\ Server.parsearBase (chronoFijo 1762513200000) None (js "el viernes")
       (toJSDate (fromISO (js "2025-11-08T10:00:00+01:00") (zonas (js "Europe/Madrid")))) <> None
  /\ esPasado (body (Server.parse_fecha Madrid zonas (chronoFijo 1762513200000) None
                       (peticion "2025-11-08T10:00:00+01:00" "el viernes" "Europe/Madrid")))
     <> Some true.
Proof.
  assert (H1 : matches (toLowerCase (js "el viernes")) Server.reDiaSemanaEspecifico = true)
    by (vm_compute; reflexivity).
  assert (H2 : Server.esConteoDias (toLowerCase (js "el viernes")) = false)
    by (vm_compute; reflexivity).
  assert (H3 : Server.parsearBase (chronoFijo 1762513200000) None (js "el viernes")
                 (toJSDate (fromISO (js "2025-11-08T10:00:00+01:00") (zonas (js "Europe/Madrid"))))
               <> None) by (vm_compute; discriminate).
  repeat (split; [assumption|]).
  exact (proj1 (nunca_pasada Madrid zonas (chronoFijo 1762513200000) None
                  (js "2025-11-08T10:00:00+01:00") (js "el viernes") (Some (js "Europe/Madrid"))
                  H1 H2 (or_intror H3))).
Defined.

(** C1, as stated: on Saturday 2025-11-08 "el viernes en 2 días" names a
    weekday after an article and counts days; the Friday of the day before
    that the parser reads is answered as it is, with [es_pasado] true. *)
Lemma dia_con_conteo_pasado :
  matches (toLowerCase (js "el viernes en 2 días")) Server.reDiaSemanaEspecifico = true
  /\ Server.parse_fecha Madrid zonas (chronoFijo 1762513200000) None
       (peticion "2025-11-08T10:00:00+01:00" "el viernes en 2 días" "Europe/Madrid")
     = mkResponse 200
         (FechaBody (js "2025-11-07") (js "viernes") (js "12:00")
                    (Some (js "2025-11-07T12:00:00.000+01:00")) false true).
Proof. split; vm_compute; reflexivity. Qed.

(** C6, at "buenas tardes": the phrase is in the list of greetings of the
    code, the keyword "en" is found inside "buenas", the classifier answers
    true, and the handler goes on to the parser: with a chrono that reads
    the phrase as this afternoon, the answer is a date. *)
Theorem saludo_con_palabra_temporal :
  In (js "buenas tardes") Server.soloSaludos
  /\ In (js "en") Server.palabrasTemporales
  /\ includes (js "buenas tardes") (js "en") = true
  /\ Server.esExpresionTemporalClara (js "buenas tardes") = true
  /\ map Server.esExpresionTemporalClara
         (map js ["buenos días"; "buenos dias"; "buenas tardes"; "buenas noches"; "bon dia"]%string)
     = [true; true; true; true; true]
  /\ Server.parse_fecha Madrid zonas (chronoFijo 1762264800000) None
       (peticion "2025-11-04T09:00:00+01:00" "buenas tardes" "Europe/Madrid")
     = mkResponse 200
         (FechaBody (js "2025-11-04") (js "martes") (js "15:00")
                    (Some (js "2025-11-04T15:00:00.000+01:00")) false false).
Proof.
  split; [vm_compute; tauto|].
  split; [vm_compute; tauto|].
  repeat split; vm_compute; reflexivity.
Qed.

Lemma validacion_y_errores_witness :
  (truthy (referencia (mkRequest None (Some (js "mañana")) None)) = false
   /\ status (Server.parse_fecha Madrid zonas sinChrono None
                (mkRequest None (Some (js "mañana")) None)) = 400)
  /\ (Server.esExpresionTemporalClara (js "hola") = false
      /\ Server.parse_fecha Madrid zonas sinChrono None (peticion "ayer" "hola" "Europe/Madrid")
         = Server.respuestaSinDefinir)
  /\ (Server.esExpresionTemporalClara (js "mañana") = true
      /\ isValid (fromISO (js "ayer") (zonas (js "Europe/Madrid"))) = false
      /\ status (Server.parse_fecha Madrid zonas sinChrono None
                   (peticion "ayer" "mañana" "Europe/Madrid")) = 400)
  /\ (Server.preprocesarExpresion Madrid (js "42") 1762243200000 = None
      /\ Server.parse_fecha Madrid zonas sinChrono None
           (peticion "2025-11-04T09:00:00+01:00" "42" "Europe/Madrid")
         = mkResponse 200 (ErrorBody (js "No se pudo interpretar la fecha."))).
Proof.
  pose proof (validacion_y_errores Madrid zonas sinChrono None) as (T1 & T2 & T3 & T4).
  split.
  { assert (H : truthy (referencia (mkRequest None (Some (js "mañana")) None)) = false)
      by reflexivity.
    split; [exact H|]. rewrite (T1 _ (or_introl H)). reflexivity. }
  split.
  { assert (H : Server.esExpresionTemporalClara (js "hola") = false) by (vm_compute; reflexivity).
    split; [exact H|].
    apply (T2 (js "ayer") (js "hola") (Some (js "Europe/Madrid")));
      [vm_compute; discriminate | vm_compute; discriminate | exact H]. }
  split.
  { assert (H1 : Server.esExpresionTemporalClara (js "mañana") = true) by (vm_compute; reflexivity).
    assert (H2 : isValid (fromISO (js "ayer") (zonas (js "Europe/Madrid"))) = false)
      by (vm_compute; reflexivity).
    repeat (split; [assumption|]).
    exact (f_equal status
             (T3 (js "ayer") (js "mañana") (Some (js "Europe/Madrid"))
                 ltac:(vm_compute; discriminate) ltac:(vm_compute; discriminate) H1 H2)). }
  assert (H : Server.preprocesarExpresion Madrid (js "42") 1762243200000 = None)
    by (vm_compute; reflexivity).
  split; [exact H|].
  apply (T4 (js "2025-11-04T09:00:00+01:00") (js "42") (Some (js "Europe/Madrid")));
    try (vm_compute; reflexivity); vm_compute; discriminate.
Defined.

(** C8, as stated: an invalid reference with the expression "hola" is
    answered 200 "sin_definir", since the classifier runs before the
    reference is read. *)
Lemma referencia_invalida_con_saludo :
  isValid (fromISO (js "ayer") (zonas (js "Europe/Madrid"))) = false
  /\ Server.parse_fecha Madrid zonas sinChrono None (peticion "ayer" "hola" "Europe/Madrid")
     = Server.respuestaSinDefinir
  /\ status (Server.parse_fecha Madrid zonas sinChrono None (peticion "ayer" "hola" "Europe/Madrid"))
     <> 400.
Proof. repeat split; vm_compute; try reflexivity; discriminate. Qed.

Lemma respuesta_del_modelo_witness :
  (Server.parsearConOpenAI zonas None (js "el lunes") 1762243200000 (js "Europe/Madrid")
   = Returns Null)
  /\ (Server.parsearConOpenAI zonas (Some clienteCaido) (js "el lunes") 1762243200000
        (js "Europe/Madrid") = Returns Null)
  /\ (truthy (option_map trim (Some (js "  "))) = false
      /\ Server.parsearConOpenAI zonas (Some (clienteFijo (Some (js "  "))))
           (js "el lunes") 1762243200000 (js "Europe/Madrid") = Returns SinDefinir)
  /\ (toLowerCase (trim (js " Sin_Definir ")) = Server.sin_definir
      /\ Server.parsearConOpenAI zonas (Some (clienteFijo (Some (js " Sin_Definir "))))
           (js "el lunes") 1762243200000 (js "Europe/Madrid") = Returns SinDefinir)
  /\ (trim (js " '2025-11-10T12:00:00+01:00' ") <> []
      /\ toLowerCase (limpiar (js " '2025-11-10T12:00:00+01:00' ")) <> Server.sin_definir
      /\ Server.parsearConOpenAI zonas (Some (clienteFijo (Some (js " '2025-11-10T12:00:00+01:00' "))))
           (js "el lunes") 1762243200000 (js "Europe/Madrid")
         = Returns (Fecha (DT 1762772400000 Madrid)))
  /\ (trim (js "el lunes que viene") <> []
      /\ toLowerCase (limpiar (js "el lunes que viene")) <> Server.sin_definir
      /\ Server.parsearConOpenAI zonas (Some (clienteFijo (Some (js "el lunes que viene"))))
           (js "el lunes") 1762243200000 (js "Europe/Madrid") = Returns Null).
Proof.
  split.
  { exact (proj1 (proj2 (respuesta_del_modelo zonas None (js "el lunes") 1762243200000
                           (js "Europe/Madrid"))) eq_refl). }
  split.
  { exact (proj2 (proj2 (respuesta_del_modelo zonas (Some clienteCaido) (js "el lunes")
                           1762243200000 (js "Europe/Madrid"))) clienteCaido eq_refl). }
  split.
  { assert (H : truthy (option_map trim (Some (js "  "))) = false) by (vm_compute; reflexivity).
    split; [exact H|].
    exact (proj1 (proj2 (proj2 (respuesta_del_modelo zonas (Some (clienteFijo (Some (js "  "))))
                                  (js "el lunes") 1762243200000 (js "Europe/Madrid")))
                        _ eq_refl) H). }
  split.
  { assert (H : toLowerCase (trim (js " Sin_Definir ")) = Server.sin_definir)
      by (vm_compute; reflexivity).
    split; [exact H|].
    exact (proj1 (proj2 (proj2 (proj2 (respuesta_del_modelo zonas
                                         (Some (clienteFijo (Some (js " Sin_Definir "))))
                                         (js "el lunes") 1762243200000 (js "Europe/Madrid")))
                               _ eq_refl)) _ eq_refl H). }
  split.
  { assert (H1 : trim (js " '2025-11-10T12:00:00+01:00' ") <> []) by (vm_compute; discriminate).
    assert (H2 : toLowerCase (limpiar (js " '2025-11-10T12:00:00+01:00' ")) <> Server.sin_definir)
      by (vm_compute; discriminate).
    repeat (split; [assumption|]).
    rewrite (proj2 (proj2 (proj2 (proj2 (respuesta_del_modelo zonas
                                           (Some (clienteFijo (Some (js " '2025-11-10T12:00:00+01:00' "))))
                                           (js "el lunes") 1762243200000 (js "Europe/Madrid")))
                                 _ eq_refl)) _ eq_refl H1 H2).
    vm_compute. reflexivity. }
  assert (H1 : trim (js "el lunes que viene") <> []) by (vm_compute; discriminate).
  assert (H2 : toLowerCase (limpiar (js "el lunes que viene")) <> Server.sin_definir)
    by (vm_compute; discriminate).
  repeat (split; [assumption|]).
  rewrite (proj2 (proj2 (proj2 (proj2 (respuesta_del_modelo zonas
                                         (Some (clienteFijo (Some (js "el lunes que viene"))))
                                         (js "el lunes") 1762243200000 (js "Europe/Madrid")))
                               _ eq_refl)) _ eq_refl H1 H2).
  vm_compute. reflexivity.
Defined.

(** C7, as stated: an empty response gives the sentinel, although it is
    not the token after cleaning. *)
Lemma respuesta_vacia_es_centinela :
  limpiar [] <> Server.sin_definir
  /\ Server.parsearConOpenAI zonas (Some (clienteFijo (Some [])))
       (js "el lunes") 1762243200000 (js "Europe/Madrid") = Returns SinDefinir.
Proof. split; [vm_compute; discriminate | vm_compute; reflexivity]. Qed.

Lemma hora_sin_validar_witness :
  (Z.abs 1762243200000 <= MAX_TS
   /\ match_ (js "pasado mañana a las 99") Server.rePasadoMananaHora = Some (Some (js "99"))
   /\ Server.preprocesarExpresion Madrid (js "pasado mañana a las 99") 1762243200000
      = Some (set (plusDays (DT 1762243200000 Madrid) 2) (Server.horaEnPunto 99)))
  /\ (MAX_TS < (dayNumber (localTS 1762243200000 Madrid) + 2) * msPerDay + 9999999999 * 3600000
               - zoffset Madrid * 60000
      /\ set (plusDays (DT 1762243200000 Madrid) 2) (Server.horaEnPunto 9999999999) = Invalid)
  /\ (Server.esExpresionTemporalClara (js "demà passat a les 9999999999") = true
      /\ Server.preprocesarExpresion Madrid (js "demà passat a les 9999999999") 1762243200000
         = Some Invalid
      /\ Server.parse_fecha Madrid zonas sinChrono None
           (peticion "2025-11-04T09:00:00+01:00" "demà passat a les 9999999999" "Europe/Madrid")
         = mkResponse 200 (FechaBody invalidText invalidText invalidText None false false))
  /\ (normalizeZone_ok zonas
      /\ -720 <= zoffset Madrid <= 840
      /\ Server.parse_fecha Madrid zonas sinChrono None
           (peticion "2025-11-04T09:00:00+01:00" "pasado mañana a las 9999999999" "Europe/Madrid")
         = mkResponse 200 (FechaBody invalidText invalidText invalidText None false false)).
Proof.
  pose proof (hora_sin_validar Madrid zonas sinChrono None) as (T1 & T2 & T3 & T4).
  split.
  { assert (H1 : Z.abs 1762243200000 <= MAX_TS) by (vm_compute; discriminate).
    assert (H2 : match_ (js "pasado mañana a las 99") Server.rePasadoMananaHora
                 = Some (Some (js "99"))) by (vm_compute; reflexivity).
    repeat (split; [assumption|]).
    destruct (T1 _ _ _ H1 (or_introl H2)) as (ds & E & _ & Hp).
    injection E as <-. exact Hp. }
  split.
  { assert (H : MAX_TS < (dayNumber (localTS 1762243200000 Madrid) + 2) * msPerDay
                         + 9999999999 * 3600000 - zoffset Madrid * 60000)
      by (vm_compute; reflexivity).
    split; [exact H|]. exact (T2 _ _ H). }
  split.
  { assert (H1 : Server.esExpresionTemporalClara (js "demà passat a les 9999999999") = true)
      by (vm_compute; reflexivity).
    assert (H2 : Server.preprocesarExpresion Madrid (js "demà passat a les 9999999999")
                   1762243200000 = Some Invalid) by (vm_compute; reflexivity).
    repeat (split; [assumption|]).
    apply (T3 (js "2025-11-04T09:00:00+01:00") (js "demà passat a les 9999999999")
              (Some (js "Europe/Madrid")));
      [vm_compute; discriminate | vm_compute; discriminate | exact H1
       | vm_compute; reflexivity | exact H2]. }
  assert (H1 : normalizeZone_ok zonas) by (vm_compute; reflexivity).
  assert (H2 : -720 <= zoffset Madrid <= 840) by (simpl; lia).
  repeat (split; [assumption|]). exact (T4 H1 H2).
Defined.

(** C10, as stated: "pasado mañana a las 99" gives no invalid date. The
    hour runs over: the answer is 2025-11-10 at 03:00, four days and three
    hours after the midnight of the day after tomorrow. *)
Lemma hora_99_se_desborda :
  Server.parse_fecha Madrid zonas sinChrono None
    (peticion "2025-11-04T09:00:00+01:00" "pasado mañana a las 99" "Europe/Madrid")
  = mkResponse 200
      (FechaBody (js "2025-11-10") (js "lunes") (js "03:00")
                 (Some (js "2025-11-10T03:00:00.000+01:00")) false false)
  /\ Server.parse_fecha Madrid zonas sinChrono None
       (peticion "2025-11-04T09:00:00+01:00" "pasado mañana a las 99" "Europe/Madrid")
     <> mkResponse 200 (FechaBody invalidText invalidText invalidText None false false).
Proof. split; [vm_compute; reflexivity | vm_compute; discriminate]. Qed.

(** C9, at a request for the zone of New York on a server in the zone of
    Madrid: "pasado mañana" is answered in the zone of the server, 15:00
    at +01:00; read back in the zone of the request the instant is 09:00
    of the same day. On the path of the base parser the answer is in the
    zone of the request, where [ensamblar_ida_y_vuelta] reads it back. *)
Theorem respuesta_en_zona_del_servidor :
  Server.parse_fecha Madrid zonas sinChrono None
    (peticion "2025-11-04T09:00:00-05:00" "pasado mañana" "America/New_York")
  = mkResponse 200
      (FechaBody (js "2025-11-06") (js "jueves") (js "15:00")
                 (Some (js "2025-11-06T15:00:00.000+01:00")) false false)
  /\ toFormat_date (fromISO (js "2025-11-06T15:00:00.000+01:00") (zonas (js "America/New_York")))
     = js "2025-11-06"
  /\ toFormat_time (fromISO (js "2025-11-06T15:00:00.000+01:00") (zonas (js "America/New_York")))
     = js "09:00"
  /\ Server.parse_fecha Madrid zonas (chronoFijo 1762437600000) None
       (peticion "2025-11-04T09:00:00-05:00" "en 2 días" "America/New_York")
     = mkResponse 200
         (FechaBody (js "2025-11-06") (js "jueves") (js "09:00")
                    (Some (js "2025-11-06T09:00:00.000-05:00")) false false).
Proof. repeat split; vm_compute; reflexivity. Qed.

(** In the zone of the request the answer of the base parser is read back
    as it was written. *)
Lemma lectura_en_zona_de_la_peticion :
  exists iso dia finde pasado,
    Server.ensamblar (DT 1762437600000 NuevaYork) (DT 1762264800000 NuevaYork) (js "en 2 días")
    = mkResponse 200
        (FechaBody (toFormat_date (fromISO iso (Some NuevaYork))) dia
                   (toFormat_time (fromISO iso (Some NuevaYork))) (Some iso) finde pasado).
Proof.
  apply ensamblar_ida_y_vuelta;
    [vm_compute; discriminate | vm_compute; discriminate | split; vm_compute; discriminate].
Qed.


Lemma hora_siete_es_diecinueve_witness :
  (get hour (DT 1762495200000 Madrid) = Some 7
   /\ matches (toLowerCase (js "el viernes a las 7")) Server.reHora7 = true
   /\ matches (toLowerCase (js "el viernes a las 7")) Server.reHora7AM = false
   /\ isValid (Server.validarYCorregirFecha Madrid (DT 1762495200000 Madrid) 1762243200000
                 (js "el viernes a las 7")) = true
   /\ get hour (Server.validarYCorregirFecha Madrid (DT 1762495200000 Madrid) 1762243200000
                  (js "el viernes a las 7")) = Some 19)
  /\ (normalizeZone_ok zonas
      /\ chronoFijo 1762495200000 (js "el viernes a las 7") 1762243200000 = Some 1762495200000
      /\ Server.parse_fecha Madrid zonas (chronoFijo 1762495200000) None
           (peticion "2025-11-04T09:00:00+01:00" "el viernes a las 7" "Europe/Madrid")
         = mkResponse 200
             (FechaBody (js "2025-11-07") (js "viernes") (js "19:00")
                        (Some (js "2025-11-07T19:00:00.000+01:00")) false false))
  /\ get hour (ServerJs.validarYCorregirFecha Madrid (DT 1762495200000 Madrid) 1762243200000
                 (js "el viernes a las 7")) = Some 19.
Proof.
  pose proof (hora_siete_es_diecinueve Madrid zonas (chronoFijo 1762495200000) None)
    as (T1 & T2 & T3).
  split.
  { assert (H1 : get hour (DT 1762495200000 Madrid) = Some 7) by (vm_compute; reflexivity).
    assert (H2 : matches (toLowerCase (js "el viernes a las 7")) Server.reHora7 = true)
      by (vm_compute; reflexivity).
    assert (H3 : matches (toLowerCase (js "el viernes a las 7")) Server.reHora7AM = false)
      by (vm_compute; reflexivity).
    assert (H4 : isValid (Server.validarYCorregirFecha Madrid (DT 1762495200000 Madrid)
                            1762243200000 (js "el viernes a las 7")) = true)
      by (vm_compute; reflexivity).
    repeat (split; [assumption|]). exact (T1 _ _ _ H1 H2 H3 H4). }
  assert (H1 : normalizeZone_ok zonas) by (vm_compute; reflexivity).
  assert (H2 : chronoFijo 1762495200000 (js "el viernes a las 7") 1762243200000
               = Some 1762495200000) by reflexivity.
  split; [repeat (split; [assumption|]); exact (T2 H1 H2)|].
  assert (H3 : get hour (DT 1762495200000 Madrid) = Some 7) by (vm_compute; reflexivity).
  assert (H4 : matches (toLowerCase (js "el viernes a las 7")) Server.reHora7 = true)
    by (vm_compute; reflexivity).
  assert (H5 : isValid (ServerJs.validarYCorregirFecha Madrid (DT 1762495200000 Madrid)
                          1762243200000 (js "el viernes a las 7")) = true)
    by (vm_compute; reflexivity).
  exact (T3 _ _ _ H3 H4 H5).
Defined.

(** * Further properties of the code *)

(** ** The corrector of the latest revision *)

Section CorrectorReglas.

Lemma minute_of_parts (n h mi rest : Z) :
  0 <= h <= 23 -> 0 <= mi <= 59 -> 0 <= rest < 60000 ->
  minute (tsToObj (n * msPerDay + (h * 3600000 + (mi * 60000 + rest)))) = mi.
Proof.
  intros Hh Hm Hr. rewrite minute_tsToObj, msOfDay_build by (unfold msPerDay; lia).
  replace (h * 3600000 + (mi * 60000 + rest)) with (rest + (h * 60 + mi) * 60000) by lia.
  rewrite Z.div_add by lia. rewrite (Z.div_small rest) by lia.
  replace (0 + (h * 60 + mi)) with (mi + h * 60) by lia.
  rewrite Z.mod_add by lia. apply Z.mod_small. lia.
Qed.

Lemma localTS_of_set (t : Z) (z : Zone) (v : SetValues) :
  localTS (dayNumber (localTS t z) * msPerDay + setMsOfDay (localTS t z) v - zoffset z * 60000) z
  = dayNumber (localTS t z) * msPerDay + setMsOfDay (localTS t z) v.
Proof. generalize (localTS t z). intros l. unfold localTS. lia. Qed.

(** The hour and the minute that [set] writes, in a valid result. *)
Lemma set_campos_hm (t : Z) (z : Zone) (h mi : Z) (t' : Z) (z' : Zone) :
  0 <= h <= 23 -> 0 <= mi <= 59 ->
  set (DT t z) (mkSet (Some h) (Some mi) None None) = DT t' z' ->
  get hour (DT t' z') = Some h /\ get minute (DT t' z') = Some mi.
Proof.
  intros Hh Hm Es. rewrite set_DT in Es. apply mk_DT_inv in Es as (-> & -> & _).
  rewrite !get_DT, localTS_of_set. set (l := localTS t z).
  pose proof (second_bound l). pose proof (millisecond_bound l).
  unfold setMsOfDay. cbn [orKeep set_hour set_minute set_second set_millisecond].
  replace (dayNumber l * msPerDay
           + (h * 3600000 + mi * 60000 + second (tsToObj l) * 1000 + millisecond (tsToObj l)))
    with (dayNumber l * msPerDay
          + (h * 3600000 + (mi * 60000
                            + (second (tsToObj l) * 1000 + millisecond (tsToObj l))))) by lia.
  split; f_equal.
  - apply hour_of_parts; lia.
  - apply minute_of_parts; lia.
Qed.

(** The minute is kept when [set] writes the hour alone. *)
Lemma set_hora_minuto (t : Z) (z : Zone) (h : Z) (t' : Z) (z' : Zone) :
  0 <= h <= 23 ->
  set (DT t z) (mkSet (Some h) None None None) = DT t' z' ->
  get minute (DT t' z') = get minute (DT t z).
Proof.
  intros Hh Es. rewrite set_DT in Es. apply mk_DT_inv in Es as (-> & -> & _).
  rewrite !get_DT, localTS_of_set. set (l := localTS t z). f_equal.
  pose proof (minute_bound l). pose proof (second_bound l). pose proof (millisecond_bound l).
  unfold setMsOfDay. cbn [orKeep set_hour set_minute set_second set_millisecond].
  replace (dayNumber l * msPerDay
           + (h * 3600000 + minute (tsToObj l) * 60000 + second (tsToObj l) * 1000
              + millisecond (tsToObj l)))
    with (dayNumber l * msPerDay
          + (h * 3600000 + (minute (tsToObj l) * 60000
                            + (second (tsToObj l) * 1000 + millisecond (tsToObj l))))) by lia.
  apply minute_of_parts; lia.
Qed.

Lemma horaPorDefecto_fija (g : DateTime) (n : jsstring) (h : Z) :
  get hour g = Some h -> h <> 0 -> Server.horaPorDefecto g n = g.
Proof.
  intros Hh Hn. unfold Server.horaPorDefecto. rewrite Hh.
  destruct h; [contradiction|reflexivity|reflexivity].
Qed.

Lemma hora7_fija (g : DateTime) (n : jsstring) (h : Z) :
  get hour g = Some h -> h <> 7 -> Server.hora7 g n = g.
Proof.
  intros Hh Hn. unfold Server.hora7. destruct (matches n Server.reHora7); [|reflexivity].
  rewrite Hh. destruct h as [|p|p]; try reflexivity.
  repeat (destruct p as [p|p|]; try reflexivity). contradiction.
Qed.

Lemma horaPorDefecto_casos (g : DateTime) (n : jsstring) :
  Server.horaPorDefecto g n = g
  \/ (get hour g = Some 0 /\ get minute g = Some 0
      /\ matches n Server.reHoraExplicita = false
      /\ Server.horaPorDefecto g n = set g (mkSet (Some 12) (Some 0) None None)).
Proof.
  unfold Server.horaPorDefecto.
  destruct (get hour g) as [[|p|p]|]; auto.
  destruct (get minute g) as [[|p|p]|]; auto.
  destruct (matches n Server.reHoraExplicita); cbn [negb];
    [left; reflexivity | right; repeat split; reflexivity].
Qed.

Lemma hora7_casos (g : DateTime) (n : jsstring) :
  Server.hora7 g n = g
  \/ (get hour g = Some 7 /\ Server.hora7 g n = set g (mkSet (Some 19) None None None)).
Proof.
  unfold Server.hora7. destruct (matches n Server.reHora7); auto.
  destruct (get hour g) as [h|]; auto.
  destruct (Z.eq_dec h 7) as [->|Hne].
  - destruct (negb (matches n Server.reHora7AM)); auto.
  - left. destruct h as [|p|p]; try reflexivity.
    repeat (destruct p as [p|p|]; try reflexivity). contradiction.
Qed.

(** The two hour rules, applied to their own result, change nothing. *)
Lemma horas_estables (g : DateTime) (n : jsstring) :
  Server.hora7 (Server.horaPorDefecto (Server.hora7 (Server.horaPorDefecto g n) n) n) n
  = Server.hora7 (Server.horaPorDefecto g n) n.
Proof.
  assert (I0 : Server.hora7 (Server.horaPorDefecto Invalid n) n = Invalid)
    by (rewrite horaPorDefecto_Invalid; apply hora7_Invalid).
  destruct g as [|t z]; [now rewrite !I0|].
  destruct (horaPorDefecto_casos (DT t z) n) as [A|(_ & _ & _ & A)].
  - rewrite A. destruct (hora7_casos (DT t z) n) as [B|(_ & B)].
    + rewrite B, A, B. reflexivity.
    + rewrite B. destruct (set (DT t z) _) as [|t2 z2] eqn:E; [exact I0|].
      apply set_hora_campo in E; [|lia].
      rewrite (horaPorDefecto_fija _ n 19 E) by lia. apply (hora7_fija _ n 19 E). lia.
  - rewrite A. destruct (set (DT t z) _) as [|t2 z2] eqn:E;
      [now rewrite hora7_Invalid, I0|].
    apply set_campos_hm in E as [E _]; [|lia|lia].
    rewrite (hora7_fija _ n 12 E) by lia.
    rewrite (horaPorDefecto_fija _ n 12 E) by lia. apply (hora7_fija _ n 12 E). lia.
Qed.

Lemma lt_Invalid_r (d : DateTime) : lt d Invalid = false.
Proof. unfold lt. destruct (valueOf d); reflexivity. Qed.

(** The first rule does not go back either. *)
Lemma corregirPasado_no_retrocede (t : Z) (z : Zone) (refDate : DateTime) (n : jsstring) :
  noAntes (Server.corregirPasado (DT t z) refDate n) t.
Proof.
  destruct (lt (DT t z) refDate) eqn:Hlt;
    [|rewrite corregirPasado_id by auto; simpl; lia].
  destruct (matches n Server.reDiaSemanaEspecifico) eqn:M;
    [|rewrite corregirPasado_id by auto; simpl; lia].
  destruct (Server.esConteoDias n) eqn:K;
    [rewrite corregirPasado_id by auto; simpl; lia|].
  destruct (corregirPasado_corrige _ _ _ Hlt M K)
    as (t0 & z0 & r & zr & a & hoy & h & mi & E0 & -> & Htr & Ha & Hh & Hho & Hmi & E).
  injection E0 as <- <-. rewrite E.
  destruct (set _ _) as [|t' z'] eqn:Es; [exact I|].
  pose proof (proximaOcurrencia_range a hoy).
  apply (set_plusDays_noAntes r zr _ h mi) in Es;
    [simpl; lia | lia | apply (get_hour_range _ _ Hho) | apply (get_minute_range _ _ Hmi)].
Qed.

Lemma validar_eq (systemZone : Zone) (fecha : DateTime) (ref : Z) (expresion : jsstring) :
  Server.validarYCorregirFecha systemZone fecha ref expresion
  = Server.hora7
      (Server.horaPorDefecto
         (Server.corregirPasado fecha (fromJSDate ref systemZone) (toLowerCase expresion))
         (toLowerCase expresion))
      (toLowerCase expresion).
Proof. reflexivity. Qed.

Lemma DT_inj (a b : Z) (z1 z2 : Zone) : DT a z1 = DT b z2 -> a = b /\ z1 = z2.
Proof. intros H. inversion H. split; reflexivity. Qed.

(** The first rule keeps a time of 00:00. *)
Lemma corregirPasado_medianoche (t : Z) (z : Zone) (refDate : DateTime) (n : jsstring)
      (t1 : Z) (z1 : Zone) :
  get hour (DT t z) = Some 0 -> get minute (DT t z) = Some 0 ->
  Server.corregirPasado (DT t z) refDate n = DT t1 z1 ->
  get hour (DT t1 z1) = Some 0 /\ get minute (DT t1 z1) = Some 0
  /\ (lt (DT t z) refDate = false -> t1 = t /\ z1 = z).
Proof.
  intros Hh Hm E1.
  assert (Id : Server.corregirPasado (DT t z) refDate n = DT t z ->
               get hour (DT t1 z1) = Some 0 /\ get minute (DT t1 z1) = Some 0
               /\ (lt (DT t z) refDate = false -> t1 = t /\ z1 = z)).
  { intros Ei. rewrite Ei in E1. apply DT_inj in E1 as [<- <-]. auto. }
  destruct (lt (DT t z) refDate) eqn:Hlt; [|apply Id, corregirPasado_id; auto].
  destruct (matches n Server.reDiaSemanaEspecifico) eqn:M; [|apply Id, corregirPasado_id; auto].
  destruct (Server.esConteoDias n) eqn:K; [apply Id, corregirPasado_id; auto|].
  destruct (corregirPasado_corrige _ _ _ Hlt M K)
    as (t0 & z0 & r & zr & a & hoy & h & mi & E0 & Er & Htr & Ha & Hho & Hh' & Hm' & E).
  apply DT_inj in E0 as [<- <-].
  assert (h = 0) as -> by congruence. assert (mi = 0) as -> by congruence.
  rewrite E, Er in E1.
  apply set_plusDays_local in E1 as [-> L].
  split; [|split; [|discriminate]].
  - rewrite get_DT, L. f_equal. apply hour_hm; lia.
  - rewrite get_DT, L. f_equal. apply minute_hm; lia.
Qed.

Lemma horaPorDefecto_medianoche (g : DateTime) (n : jsstring) :
  get hour g = Some 0 -> get minute g = Some 0 ->
  matches n Server.reHoraExplicita = false ->
  Server.horaPorDefecto g n = set g (mkSet (Some 12) (Some 0) None None).
Proof.
  intros Hh Hm Hx. unfold Server.horaPorDefecto. rewrite Hh, Hm, Hx. reflexivity.
Qed.

Lemma set_mediodia_dia (t : Z) (z : Zone) (t' : Z) (z' : Zone) :
  set (DT t z) (mkSet (Some 12) (Some 0) None None) = DT t' z' ->
  z' = z /\ dayNumber (localTS t' z') = dayNumber (localTS t z).
Proof.
  intros E. apply set_same_day in E; [exact E|].
  unfold setMsOfDay. cbn [orKeep set_hour set_minute set_second set_millisecond].
  pose proof (second_bound (localTS t z)). pose proof (millisecond_bound (localTS t z)).
  unfold msPerDay. lia.
Qed.

Lemma validar_no_retrocede_aux (systemZone : Zone) (t : Z) (z : Zone) (ref : Z)
      (expresion : jsstring) (t' : Z) (z' : Zone) :
  Server.validarYCorregirFecha systemZone (DT t z) ref expresion = DT t' z' -> t <= t'.
Proof.
  intros H.
  assert (N : noAntes (Server.validarYCorregirFecha systemZone (DT t z) ref expresion) t).
  { rewrite validar_eq.
    apply hora7_noAntes, horaPorDefecto_noAntes, corregirPasado_no_retrocede. }
  rewrite H in N. exact N.
Qed.

End CorrectorReglas.

Section CorrectorPropiedades.

Variable systemZone : Zone.

Local Abbreviation validarYCorregirFecha := (Server.validarYCorregirFecha systemZone).

(** X1. [validarYCorregirFecha] is idempotent: a date that went through the
    corrector is left as it is by a second pass with the same reference and
    expression. *)
Theorem validar_idempotente (fecha : DateTime) (ref : Z) (expresion : jsstring) :
  validarYCorregirFecha (validarYCorregirFecha fecha ref expresion) ref expresion
  = validarYCorregirFecha fecha ref expresion.
Proof.
  pose proof (fun Hr M K => validar_noAntes systemZone fecha ref expresion Hr M K) as V.
  unfold Server.validarYCorregirFecha in *. cbv zeta in *.
  set (n := toLowerCase expresion) in *.
  set (refDate := fromJSDate ref systemZone) in *.
  set (f1 := Server.corregirPasado fecha refDate n) in *.
  assert (C : Server.corregirPasado (Server.hora7 (Server.horaPorDefecto f1 n) n) refDate n
              = Server.hora7 (Server.horaPorDefecto f1 n) n).
  { apply corregirPasado_id.
    destruct (matches n Server.reDiaSemanaEspecifico) eqn:M; [|auto].
    destruct (Server.esConteoDias n) eqn:K; [auto|]. left.
    destruct (Z_le_gt_dec (Z.abs ref) MAX_TS) as [Hr|Hr].
    - unfold refDate, fromJSDate. rewrite (mk_valid _ _ Hr).
      apply lt_false_noAntes. exact (V Hr eq_refl eq_refl).
    - assert (E : refDate = Invalid).
      { unfold refDate, fromJSDate, mk, timeClip.
        destruct (Z.leb_spec (Z.abs ref) MAX_TS); [lia|reflexivity]. }
      rewrite E. apply lt_Invalid_r. }
  rewrite C. apply horas_estables.
Qed.

(** X2. The corrector never moves a date back: a valid result is at or after
    the candidate it was given. *)
Theorem validar_no_retrocede (t : Z) (z : Zone) (ref : Z) (expresion : jsstring)
        (t' : Z) (z' : Zone) :
  validarYCorregirFecha (DT t z) ref expresion = DT t' z' -> t <= t'.
Proof. apply validar_no_retrocede_aux. Qed.

(** X3. The default hour: a candidate at 00:00 whose expression names no
    amount of hours or minutes comes out at 12:00; when the candidate is
    not before the reference, on the same day and in the same zone. *)
Theorem hora_por_defecto_mediodia (t : Z) (z : Zone) (ref : Z) (expresion : jsstring)
        (t' : Z) (z' : Zone) :
  get hour (DT t z) = Some 0 ->
  get minute (DT t z) = Some 0 ->
  matches (toLowerCase expresion) Server.reHoraExplicita = false ->
  validarYCorregirFecha (DT t z) ref expresion = DT t' z' ->
  get hour (DT t' z') = Some 12
  /\ get minute (DT t' z') = Some 0
  /\ (lt (DT t z) (fromJSDate ref systemZone) = false ->
      z' = z /\ dayNumber (localTS t' z') = dayNumber (localTS t z)).
Proof.
  intros Hh Hm Hx H. rewrite validar_eq in H.
  destruct (Server.corregirPasado (DT t z) (fromJSDate ref systemZone) (toLowerCase expresion))
    as [|t1 z1] eqn:E1.
  { rewrite horaPorDefecto_Invalid, hora7_Invalid in H. discriminate. }
  apply (corregirPasado_medianoche _ _ _ _ _ _ Hh Hm) in E1 as (Hh1 & Hm1 & Hsame).
  rewrite (horaPorDefecto_medianoche _ _ Hh1 Hm1 Hx) in H.
  destruct (set (DT t1 z1) (mkSet (Some 12) (Some 0) None None)) as [|t2 z2] eqn:E2.
  { rewrite hora7_Invalid in H. discriminate. }
  pose proof E2 as E2'. apply set_campos_hm in E2' as [H12 M0]; [|lia|lia].
  rewrite (hora7_fija _ _ 12 H12) in H by lia. apply DT_inj in H as [<- <-].
  split; [exact H12|]. split; [exact M0|].
  intros Hlt. destruct (Hsame Hlt) as [-> ->]. exact (set_mediodia_dia _ _ _ _ E2).
Qed.

End CorrectorPropiedades.

(** ** The corrector of [src/server.js] *)

Section CorrectorJs.

Lemma diasQueViene_range (a hoy : Z) :
  1 <= a <= 7 -> 1 <= hoy <= 7 ->
  1 <= Server.diasQueViene a hoy <= 7 /\ (hoy = 5 -> 3 <= Server.diasQueViene a hoy).
Proof.
  intros Ha Hh. unfold Server.diasQueViene.
  destruct (Z.leb_spec (a - hoy) 0); destruct (Z.eqb_spec hoy 5); cbn [andb];
    try match goal with
        | [ |- context [?x <=? 2] ] => destruct (Z.leb_spec x 2)
        end; lia.
Qed.

(** On a Friday the day that is reached is a working day. *)
Lemma wd_tras_viernes (n k : Z) : wd n = 5 -> 3 <= k <= 7 -> wd (n + k) = k - 2.
Proof.
  intros Hn Hk. apply wd_reach; [lia|]. rewrite Hn.
  replace (k - (k - 2 - 5)) with (0 + 1 * 7) by lia. apply Z.mod_add. lia.
Qed.

(** The first rule, when the date is before the reference. *)
Lemma corregirPasado_js_corrige (fecha refDate : DateTime) :
  lt fecha refDate = true ->
  exists t z r zr,
    fecha = DT t z /\ refDate = DT r zr /\ t < r
    /\ ServerJs.corregirPasado fecha refDate
       = set (plusDays (DT r zr)
                       (Server.diasQueViene (wd (dayNumber (localTS t z)))
                                            (wd (dayNumber (localTS r zr)))))
             (mkSet (Some (hour (tsToObj (localTS t z)))) (Some (minute (tsToObj (localTS t z))))
                    (Some 0) (Some 0)).
Proof.
  intros Hlt. pose proof Hlt as Hlt'.
  apply lt_true_inv in Hlt' as (t & z & r & zr & -> & -> & Htr).
  exists t, z, r, zr. repeat split; auto.
  unfold ServerJs.corregirPasado. rewrite Hlt, !weekday_DT, !get_DT. reflexivity.
Qed.

Lemma corregirPasado_js_id (fecha refDate : DateTime) :
  lt fecha refDate = false -> ServerJs.corregirPasado fecha refDate = fecha.
Proof. intros H. unfold ServerJs.corregirPasado. now rewrite H. Qed.

(** A corrected date: its zone, its day and its time. *)
Lemma corregido_js_campos (r : Z) (zr : Zone) (a h mi : Z) (t' : Z) (z' : Zone) :
  1 <= a <= 7 -> 0 <= h <= 23 -> 0 <= mi <= 59 ->
  set (plusDays (DT r zr) (Server.diasQueViene a (wd (dayNumber (localTS r zr)))))
      (mkSet (Some h) (Some mi) (Some 0) (Some 0)) = DT t' z' ->
  z' = zr
  /\ dayNumber (localTS t' z')
     = dayNumber (localTS r zr) + Server.diasQueViene a (wd (dayNumber (localTS r zr)))
  /\ r < t'.
Proof.
  intros Ha Hh Hm E.
  pose proof (diasQueViene_range a _ Ha (wd_range (dayNumber (localTS r zr)))) as [K _].
  pose proof E as E'. apply set_plusDays_noAntes in E'; [|lia|lia|lia].
  apply set_plusDays_local in E as [-> L].
  split; [reflexivity|]. split; [|exact E'].
  rewrite L. apply dayNumber_hm; assumption.
Qed.

Lemma corregirPasado_js_noAntes (fecha : DateTime) (ref : Z) (z : Zone) :
  noAntes (ServerJs.corregirPasado fecha (DT ref z)) ref.
Proof.
  destruct (lt fecha (DT ref z)) eqn:Hlt.
  - destruct (corregirPasado_js_corrige _ _ Hlt) as (t & zf & r & zr & -> & Er & Htr & E).
    apply DT_inj in Er as [<- <-]. rewrite E.
    destruct (set _ _) as [|t' z'] eqn:Es; [exact I|].
    apply corregido_js_campos in Es as (_ & _ & Hr);
      [simpl; lia | apply wd_range | apply hour_bound | apply minute_bound].
  - rewrite corregirPasado_js_id by exact Hlt. now apply (lt_false_noAntes fecha ref z).
Qed.

(** The three hour rules: what they do, case by case. *)
Lemma horaPorDefecto_js_casos (g : DateTime) (n : jsstring) :
  ServerJs.horaPorDefecto g n = g
  \/ (get hour g = Some 0 /\ get minute g = Some 0
      /\ ServerJs.horaPorDefecto g n = set g (mkSet (Some 14) (Some 0) None None)).
Proof.
  unfold ServerJs.horaPorDefecto.
  destruct (get hour g) as [[|p|p]|]; auto.
  destruct (get minute g) as [[|p|p]|]; auto.
  destruct (matches n Server.reHoraExplicita); cbn [negb];
    [left; reflexivity | right; repeat split; reflexivity].
Qed.

Lemma hora7_js_casos (g : DateTime) (n : jsstring) :
  ServerJs.hora7 g n = g
  \/ (get hour g = Some 7 /\ ServerJs.hora7 g n = set g (mkSet (Some 19) None None None)).
Proof.
  unfold ServerJs.hora7. destruct (matches n Server.reHora7); auto.
  destruct (get hour g) as [h|]; auto.
  destruct (Z.eq_dec h 7) as [->|Hne]; [right; split; reflexivity|].
  left. destruct h as [|p|p]; try reflexivity.
  repeat (destruct p as [p|p|]; try reflexivity). contradiction.
Qed.

Lemma soloViernesManana_casos (g : DateTime) :
  (ServerJs.soloViernesManana g = g
   /\ forall w h, weekday g = Some w -> get hour g = Some h -> w = 5 \/ h < 10 \/ 14 <= h)
  \/ (exists h, get hour g = Some h /\ 10 <= h < 14
                /\ ServerJs.soloViernesManana g = set g (mkSet (Some 14) None None None)).
Proof.
  unfold ServerJs.soloViernesManana.
  destruct (weekday g) as [w|]; [|left; split; [reflexivity|discriminate]].
  destruct (get hour g) as [h|]; [|left; split; [reflexivity|discriminate]].
  destruct (negb (w =? 5) && (10 <=? h) && (h <? 14)) eqn:C.
  - right. exists h. apply andb_true_iff in C as [C C3]. apply andb_true_iff in C as [_ C2].
    apply Z.leb_le in C2. apply Z.ltb_lt in C3. repeat split; auto.
  - left. split; [reflexivity|]. intros w' h' Ew Eh.
    apply Some_eq in Ew. apply Some_eq in Eh. subst w' h'.
    destruct (Z.eqb_spec w 5); [auto|]. cbn [negb andb] in C.
    destruct (Z.leb_spec 10 h); [|lia]. cbn [andb] in C. apply Z.ltb_ge in C. lia.
Qed.

(** A rule that writes a later time of the day keeps the zone and the day
    and does not go back. *)
Lemma set_hora_adelante (t : Z) (z : Zone) (h0 h : Z) (mi : option Z) (t' : Z) (z' : Zone) :
  get hour (DT t z) = Some h0 -> h0 <= h <= 23 ->
  (mi = None \/ (mi = Some 0 /\ get minute (DT t z) = Some 0)) ->
  set (DT t z) (mkSet (Some h) mi None None) = DT t' z' ->
  z' = z /\ dayNumber (localTS t' z') = dayNumber (localTS t z) /\ t <= t'.
Proof.
  intros Hh Hle Hmi E. rewrite get_DT in Hh. apply Some_eq in Hh.
  pose proof (hour_bound (localTS t z)). pose proof (minute_bound (localTS t z)).
  pose proof (second_bound (localTS t z)). pose proof (millisecond_bound (localTS t z)).
  assert (M : orKeep mi (minute (tsToObj (localTS t z))) = minute (tsToObj (localTS t z))).
  { destruct Hmi as [->|[-> Hm0]]; [reflexivity|]. rewrite get_DT in Hm0.
    apply Some_eq in Hm0. cbn [orKeep]. lia. }
  pose proof E as E1. apply set_same_day in E1.
  - destruct E1 as [Ez Ed]. split; [exact Ez|]. split; [exact Ed|].
    apply set_ge in E; [tauto|].
    rewrite (msOfDay_fields (localTS t z)). unfold setMsOfDay.
    cbn [orKeep set_hour set_minute set_second set_millisecond]. rewrite M. lia.
  - unfold setMsOfDay. cbn [orKeep set_hour set_minute set_second set_millisecond].
    rewrite M. unfold msPerDay. lia.
Qed.

Lemma horaPorDefecto_js_Invalid (n : jsstring) : ServerJs.horaPorDefecto Invalid n = Invalid.
Proof. reflexivity. Qed.

Lemma hora7_js_Invalid (n : jsstring) : ServerJs.hora7 Invalid n = Invalid.
Proof. unfold ServerJs.hora7. destruct (matches n Server.reHora7); reflexivity. Qed.

Lemma soloViernesManana_Invalid : ServerJs.soloViernesManana Invalid = Invalid.
Proof. reflexivity. Qed.

Lemma horaPorDefecto_js_paso (t : Z) (z : Zone) (n : jsstring) (t' : Z) (z' : Zone) :
  ServerJs.horaPorDefecto (DT t z) n = DT t' z' ->
  z' = z /\ dayNumber (localTS t' z') = dayNumber (localTS t z) /\ t <= t'.
Proof.
  destruct (horaPorDefecto_js_casos (DT t z) n) as [A|(Hh & Hm & A)]; rewrite A; intros E.
  - apply DT_inj in E as [<- <-]. repeat split; lia.
  - apply (set_hora_adelante _ _ 0 14 (Some 0)) in E; auto. lia.
Qed.

Lemma hora7_js_paso (t : Z) (z : Zone) (n : jsstring) (t' : Z) (z' : Zone) :
  ServerJs.hora7 (DT t z) n = DT t' z' ->
  z' = z /\ dayNumber (localTS t' z') = dayNumber (localTS t z) /\ t <= t'.
Proof.
  destruct (hora7_js_casos (DT t z) n) as [A|(Hh & A)]; rewrite A; intros E.
  - apply DT_inj in E as [<- <-]. repeat split; lia.
  - apply (set_hora_adelante _ _ 7 19 None) in E; auto. lia.
Qed.

Lemma soloViernesManana_paso (t : Z) (z : Zone) (t' : Z) (z' : Zone) :
  ServerJs.soloViernesManana (DT t z) = DT t' z' ->
  z' = z /\ dayNumber (localTS t' z') = dayNumber (localTS t z) /\ t <= t'.
Proof.
  destruct (soloViernesManana_casos (DT t z)) as [[A _]|(h & Hh & Hr & A)]; rewrite A; intros E.
  - apply DT_inj in E as [<- <-]. repeat split; lia.
  - apply (set_hora_adelante _ _ h 14 None) in E; auto. lia.
Qed.

(** The three hour rules together: zone and day are kept, the time does
    not go back. *)
Lemma horas_js_paso (g : DateTime) (n : jsstring) (t' : Z) (z' : Zone) :
  ServerJs.soloViernesManana (ServerJs.hora7 (ServerJs.horaPorDefecto g n) n) = DT t' z' ->
  exists t, g = DT t z' /\ dayNumber (localTS t' z') = dayNumber (localTS t z') /\ t <= t'.
Proof.
  destruct g as [|t z].
  { rewrite horaPorDefecto_js_Invalid, hora7_js_Invalid. discriminate. }
  destruct (ServerJs.horaPorDefecto (DT t z) n) as [|t1 z1] eqn:E1.
  { rewrite hora7_js_Invalid. discriminate. }
  destruct (ServerJs.hora7 (DT t1 z1) n) as [|t2 z2] eqn:E2; [discriminate|].
  intros E3.
  apply horaPorDefecto_js_paso in E1 as (-> & D1 & L1).
  apply hora7_js_paso in E2 as (-> & D2 & L2).
  apply soloViernesManana_paso in E3 as (-> & D3 & L3).
  exists t. split; [reflexivity|]. split; [congruence|lia].
Qed.

Lemma validar_js_eq (systemZone : Zone) (fecha : DateTime) (ref : Z) (expresion : jsstring) :
  ServerJs.validarYCorregirFecha systemZone fecha ref expresion
  = ServerJs.soloViernesManana
      (ServerJs.hora7
         (ServerJs.horaPorDefecto
            (ServerJs.corregirPasado fecha (fromJSDate ref systemZone))
            (toLowerCase expresion))
         (toLowerCase expresion)).
Proof. reflexivity. Qed.

(** The corrector of this revision answers no date before the reference. *)
Lemma validar_js_noAntes (systemZone : Zone) (fecha : DateTime) (ref : Z) (expresion : jsstring) :
  Z.abs ref <= MAX_TS ->
  noAntes (ServerJs.validarYCorregirFecha systemZone fecha ref expresion) ref.
Proof.
  intros Hr. rewrite validar_js_eq. unfold fromJSDate. rewrite (mk_valid _ _ Hr).
  pose proof (corregirPasado_js_noAntes fecha ref systemZone) as N.
  destruct (ServerJs.soloViernesManana _) as [|t' z'] eqn:E; [exact I|].
  apply horas_js_paso in E as (t & Eg & _ & Ht). rewrite Eg in N. simpl in *. lia.
Qed.

End CorrectorJs.

Section CorrectorJsPropiedades.

Variable systemZone : Zone.

Local Abbreviation validarYCorregirFecha := (ServerJs.validarYCorregirFecha systemZone).

(** X4. In [src/server.js] the corrector never answers a date before the
    reference, whatever the expression says. *)
Theorem validar_js_nunca_pasada (fecha : DateTime) (ref : Z) (expresion : jsstring)
        (t' : Z) (z' : Zone) :
  Z.abs ref <= MAX_TS ->
  validarYCorregirFecha fecha ref expresion = DT t' z' ->
  ref <= t' /\ lt (DT t' z') (fromJSDate ref systemZone) = false.
Proof.
  intros Hr E. pose proof (validar_js_noAntes systemZone fecha ref expresion Hr) as N.
  rewrite E in N. split; [exact N|].
  unfold fromJSDate. rewrite (mk_valid _ _ Hr). rewrite lt_DT. apply Z.ltb_ge. exact N.
Qed.

(** X5. In [src/server.js] the morning is kept for Fridays: a date that leaves
    the corrector on another day has no hour from 10 to 13. *)
Theorem manana_solo_viernes (fecha : DateTime) (ref : Z) (expresion : jsstring)
        (t' : Z) (z' : Zone) (w h : Z) :
  validarYCorregirFecha fecha ref expresion = DT t' z' ->
  weekday (DT t' z') = Some w ->
  get hour (DT t' z') = Some h ->
  w = 5 \/ h < 10 \/ 14 <= h.
Proof.
  rewrite validar_js_eq. intros E Hw Hh.
  destruct (soloViernesManana_casos
              (ServerJs.hora7
                 (ServerJs.horaPorDefecto
                    (ServerJs.corregirPasado fecha (fromJSDate ref systemZone))
                    (toLowerCase expresion))
                 (toLowerCase expresion))) as [[A C]|(h0 & Hh0 & Hr & A)].
  - rewrite A in E. rewrite E in C. exact (C w h Hw Hh).
  - rewrite A in E.
    destruct (ServerJs.hora7 _ _) as [|t2 z2]; [discriminate|].
    apply set_hora_campo in E; [|lia]. rewrite E in Hh. apply Some_eq in Hh. lia.
Qed.

(** X6. In [src/server.js], on a Friday, a date before the reference is moved
    past the weekend: it comes out on a day from Monday to Friday, three to
    seven days after the reference, in the zone of the process. *)
Theorem viernes_salta_fin_de_semana (t : Z) (z : Zone) (ref : Z) (expresion : jsstring)
        (t' : Z) (z' : Zone) :
  Z.abs ref <= MAX_TS ->
  weekday (DT ref systemZone) = Some 5 ->
  t < ref ->
  validarYCorregirFecha (DT t z) ref expresion = DT t' z' ->
  z' = systemZone
  /\ (exists w, weekday (DT t' z') = Some w /\ 1 <= w <= 5)
  /\ dayNumber (localTS ref systemZone) + 3 <= dayNumber (localTS t' z')
     <= dayNumber (localTS ref systemZone) + 7.
Proof.
  intros Hr Hv Htr E. rewrite validar_js_eq in E. unfold fromJSDate in E.
  rewrite (mk_valid _ _ Hr) in E.
  apply horas_js_paso in E as (t1 & E1 & D & _).
  assert (Hlt : lt (DT t z) (DT ref systemZone) = true) by (rewrite lt_DT; now apply Z.ltb_lt).
  destruct (corregirPasado_js_corrige _ _ Hlt) as (t0 & z0 & r & zr & E0 & Er & _ & Ec).
  apply DT_inj in E0 as [<- <-]. apply DT_inj in Er as [<- <-].
  rewrite Ec in E1.
  apply corregido_js_campos in E1 as (Ez & Ed & _);
    [|apply wd_range|apply hour_bound|apply minute_bound].
  rewrite weekday_DT in Hv. apply Some_eq in Hv.
  pose proof (diasQueViene_range (wd (dayNumber (localTS t z))) _
                (wd_range _) (wd_range (dayNumber (localTS ref systemZone)))) as [K1 K2].
  specialize (K2 Hv).
  split; [exact Ez|]. rewrite D, Ez in *. rewrite Ed. split; [|lia].
  exists (Server.diasQueViene (wd (dayNumber (localTS t z)))
                              (wd (dayNumber (localTS ref systemZone))) - 2).
  split; [|lia]. rewrite weekday_DT, D, Ed. f_equal. apply wd_tras_viernes; [exact Hv|lia].
Qed.

End CorrectorJsPropiedades.

(** ** The assembly of the response *)

Section Respuesta.

Lemma finde_tabla_ok : finde_tabla = true.
Proof. vm_compute; reflexivity. Qed.

Lemma finde_de_nombre (l : Locale) (w : Z) :
  1 <= w <= 7 ->
  some (fun dia => includes (toLowerCase (weekdayName l w)) (toLowerCase dia)) (Server.diasFinde l)
  = (6 <=? w).
Proof.
  intros Hw. pose proof finde_tabla_ok as T. unfold finde_tabla in T.
  rewrite forallb_forall in T.
  assert (Il : In l [es; ca]) by (destruct l; simpl; auto).
  specialize (T l Il). rewrite forallb_forall in T.
  assert (Iw : In w [1; 2; 3; 4; 5; 6; 7]) by (simpl; lia).
  specialize (T w Iw). apply Bool.eqb_prop in T. exact T.
Qed.

(** The fields of a local time stamp are in their ranges. *)
Lemma campos_en_rango (l : Z) :
  1 <= month (tsToObj l) <= 12 /\ 1 <= day (tsToObj l) <= 31
  /\ 0 <= hour (tsToObj l) <= 23 /\ 0 <= minute (tsToObj l) <= 59.
Proof.
  pose proof (tsToObj_valid l) as V. apply orb_false_elim in V as [V _].
  unfold hasInvalidGregorianData in V. apply negb_false_iff in V.
  rewrite !andb_true_iff, !Z.leb_le in V.
  assert (D : daysInMonth (year (tsToObj l)) (month (tsToObj l)) <= 31).
  { unfold daysInMonth. destruct (month (tsToObj l) =? 2); [destruct (isLeapYear _); lia|].
    set (m := month (tsToObj l)) in *.
    assert (M : In m [1; 2; 3; 4; 5; 6; 7; 8; 9; 10; 11; 12]) by (simpl; lia).
    simpl in M. repeat (destruct M as [<-|M]; [apply Z.leb_le; reflexivity|]). contradiction. }
  pose proof (hour_bound l). pose proof (minute_bound l). lia.
Qed.

Lemma length_digitos2 (n : Z) : List.length (digitos2 n) = 2%nat.
Proof. reflexivity. Qed.

Lemma length_digitos4 (n : Z) : List.length (digitos4 n) = 4%nat.
Proof. reflexivity. Qed.

(** X7. [es_finde] is the weekend of the calendar: it is true exactly when the
    resolved date falls on a Saturday or a Sunday, in either language. *)
Theorem es_finde_fin_de_semana (t : Z) (z : Zone) (refDate : DateTime) (expresion : jsstring) :
  esFinde (body (Server.ensamblar (DT t z) refDate expresion))
  = option_map (fun w => 6 <=? w) (weekday (DT t z)).
Proof.
  unfold Server.ensamblar, toFormat_cccc. cbn [body esFinde].
  rewrite weekday_DT. cbn [option_map]. f_equal.
  apply finde_de_nombre. apply wd_range.
Qed.

(** X8. [iso_datetime] opens with the other two fields: for a year of four
    digits, [fecha_resuelta] is its first ten characters and [hora] the five
    after the [T]. *)
Theorem iso_empieza_por_fecha_y_hora (t : Z) (z : Zone) (refDate : DateTime)
        (expresion : jsstring) :
  0 <= year (tsToObj (localTS t z)) <= 9999 ->
  exists f h resto,
    fechaResuelta (body (Server.ensamblar (DT t z) refDate expresion)) = Some f
    /\ horaDe (body (Server.ensamblar (DT t z) refDate expresion)) = Some h
    /\ isoDatetime (body (Server.ensamblar (DT t z) refDate expresion))
       = Some (Some (f ++ js "T" ++ h ++ resto))
    /\ List.length f = 10%nat /\ List.length h = 5%nat.
Proof.
  intros Hy. unfold Server.ensamblar. cbn [body fechaResuelta horaDe isoDatetime].
  unfold toFormat_date, toFormat_time, toISO, toObject, toISODate, toISOTime.
  pose proof (campos_en_rango (localTS t z)) as (Hm & Hd & Hh & Hmi).
  set (o := tsToObj (localTS t z)) in *.
  replace (9999 <? year o) with false by (symmetry; apply Z.ltb_ge; lia).
  replace (year o <? 0) with false by (symmetry; apply Z.ltb_ge; lia).
  cbn [orb andb].
  eexists. eexists. eexists. split; [reflexivity|]. split; [reflexivity|].
  split.
  - rewrite <- !app_assoc. cbn [app]. reflexivity.
  - rewrite padStart_4, !padStart_2 by lia. split; reflexivity.
Qed.

(** X9. Round trip of the response: [iso_datetime], read in the zone the
    resolved date carries, is the resolved date again, and formats to
    [fecha_resuelta] and [hora]. *)
Theorem ida_y_vuelta_de_la_respuesta (t : Z) (z : Zone) (refDate : DateTime)
        (expresion : jsstring) :
  Z.abs t <= MAX_TS -> Z.abs (zoffset z) <= 5999 ->
  0 <= year (tsToObj (localTS t z)) <= 9999 ->
  exists iso,
    isoDatetime (body (Server.ensamblar (DT t z) refDate expresion)) = Some (Some iso)
    /\ fromISO iso (Some z) = DT t z
    /\ fechaResuelta (body (Server.ensamblar (DT t z) refDate expresion))
       = Some (toFormat_date (fromISO iso (Some z)))
    /\ horaDe (body (Server.ensamblar (DT t z) refDate expresion))
       = Some (toFormat_time (fromISO iso (Some z))).
Proof.
  intros Ht Hz Hy. destruct (ida_y_vuelta t z Ht Hz Hy) as (iso & E1 & E2).
  exists iso. unfold Server.ensamblar. cbn [body fechaResuelta horaDe isoDatetime].
  rewrite E1, E2. repeat split; reflexivity.
Qed.

End Respuesta.

(** ** Strings: [includes], [trim] and the replacement of words *)

Section Cadenas.

Lemma toLowerCase_app (a b : jsstring) : toLowerCase (a ++ b) = toLowerCase a ++ toLowerCase b.
Proof. apply map_app. Qed.

Lemma startsWith_app (k b : jsstring) : startsWith (k ++ b) k = true.
Proof.
  induction k as [|c k IH]; [destruct b; reflexivity|]. simpl. now rewrite Z.eqb_refl.
Qed.

Lemma includes_startsWith (s k : jsstring) : startsWith s k = true -> includes s k = true.
Proof. intros H. destruct s; cbn [includes]; rewrite H; reflexivity. Qed.

Lemma includes_app (a k b : jsstring) : includes (a ++ k ++ b) k = true.
Proof.
  induction a as [|x a IH].
  - change ([] ++ k ++ b) with (k ++ b). apply includes_startsWith, startsWith_app.
  - cbn [app includes]. rewrite IH. apply orb_true_r.
Qed.

Lemma lower_unit_espacio (c : Z) : isSpace c = true -> lower_unit c = c.
Proof.
  unfold isSpace, lower_unit. intros H.
  rewrite !orb_true_iff, !andb_true_iff, !Z.leb_le, !Z.eqb_eq in H.
  assert (N1 : (65 <=? c) && (c <=? 90) = false)
    by (apply andb_false_iff; rewrite !Z.leb_gt; lia).
  assert (N2 : (192 <=? c) && (c <=? 222) = false)
    by (apply andb_false_iff; rewrite !Z.leb_gt; lia).
  rewrite N1, N2. reflexivity.
Qed.

Lemma toLowerCase_espacios (sp : jsstring) : forallb isSpace sp = true -> toLowerCase sp = sp.
Proof.
  induction sp as [|c sp IH]; [reflexivity|]. simpl. intros H.
  apply andb_true_iff in H as [Hc Hs]. now rewrite lower_unit_espacio, IH.
Qed.

Lemma trimStart_todo_espacios (sp : jsstring) : forallb isSpace sp = true -> trimStart sp = [].
Proof.
  induction sp as [|c sp IH]; [reflexivity|]. simpl. intros H.
  apply andb_true_iff in H as [Hc Hs]. rewrite Hc. auto.
Qed.

Lemma trimStart_espacios (sp s : jsstring) :
  forallb isSpace sp = true -> trimStart (sp ++ s) = trimStart s.
Proof.
  induction sp as [|c sp IH]; [reflexivity|]. simpl. intros H.
  apply andb_true_iff in H as [Hc Hs]. rewrite Hc. auto.
Qed.

Lemma trimStart_app_espacios (s sp : jsstring) :
  forallb isSpace sp = true ->
  trimStart (s ++ sp) = trimStart s ++ sp \/ (trimStart (s ++ sp) = [] /\ trimStart s = []).
Proof.
  intros Hsp. induction s as [|c s IH].
  - right. split; [now apply trimStart_todo_espacios|reflexivity].
  - simpl. destruct (isSpace c); [exact IH|left; reflexivity].
Qed.

(** White space around a text does not change what [trim] gives. *)
Lemma trim_relleno (sp1 s sp2 : jsstring) :
  forallb isSpace sp1 = true -> forallb isSpace sp2 = true ->
  trim (sp1 ++ s ++ sp2) = trim s.
Proof.
  intros H1 H2. unfold trim. rewrite trimStart_espacios by exact H1.
  destruct (trimStart_app_espacios s sp2 H2) as [E|[E E']].
  - rewrite E, rev_app_distr, trimStart_espacios; [reflexivity|].
    now apply forallb_rev.
  - now rewrite E, E'.
Qed.

Lemma trimStart_split (s : jsstring) :
  exists pre, s = pre ++ trimStart s /\ forallb isSpace pre = true.
Proof.
  induction s as [|c s (pre & E & Hp)].
  - exists []. split; reflexivity.
  - simpl. destruct (isSpace c) eqn:Hc.
    + exists (c :: pre). simpl. rewrite Hc, Hp. split; [now f_equal|reflexivity].
    + exists []. split; reflexivity.
Qed.

Lemma trimStart_cabeza (s : jsstring) :
  match trimStart s with c :: _ => isSpace c = false | [] => True end.
Proof.
  induction s as [|c s IH]; [exact I|]. simpl. destruct (isSpace c) eqn:Hc; [exact IH|exact Hc].
Qed.

Lemma trimStart_sin_cabeza (s : jsstring) :
  match s with c :: _ => isSpace c = false | [] => True end -> trimStart s = s.
Proof. destruct s as [|c s]; [reflexivity|]. simpl. now intros ->. Qed.

Lemma trimStart_forallb (p : Z -> bool) (s : jsstring) :
  forallb p s = true -> forallb p (trimStart s) = true.
Proof.
  induction s as [|c s IH]; [reflexivity|]. simpl. intros H.
  pose proof H as H'. apply andb_true_iff in H' as [Hc Hs].
  destruct (isSpace c); [auto|exact H].
Qed.

Lemma trim_forallb (p : Z -> bool) (s : jsstring) :
  forallb p s = true -> forallb p (trim s) = true.
Proof.
  intros H. unfold trim. apply forallb_rev, trimStart_forallb, forallb_rev, trimStart_forallb, H.
Qed.

(** What [trim] gives has no white space at either end: [trim] leaves it
    as it is. *)
Lemma trim_trim (s : jsstring) : trim (trim s) = trim s.
Proof.
  unfold trim. set (a := trimStart s). set (b := trimStart (rev a)).
  assert (Hb : trimStart b = b) by (apply trimStart_sin_cabeza, trimStart_cabeza).
  assert (Ha : trimStart (rev b) = rev b).
  { apply trimStart_sin_cabeza.
    destruct (trimStart_split (rev a)) as (pre & E & Hp). fold b in E.
    assert (Ea : a = rev b ++ rev pre).
    { rewrite <- (rev_involutive a), E, rev_app_distr. reflexivity. }
    pose proof (trimStart_cabeza s) as Hc. fold a in Hc. rewrite Ea in Hc.
    destruct (rev b) as [|c r]; [exact I|exact Hc]. }
  rewrite Ha, rev_involutive, Hb. reflexivity.
Qed.

Lemma stripQuotes_sinComilla (s : jsstring) : forallb sinComilla (stripQuotes s) = true.
Proof.
  unfold stripQuotes. induction s as [|c s IH]; [reflexivity|]. simpl.
  destruct (negb ((c =? 39) || (c =? 34))) eqn:Hc; [|exact IH].
  simpl. unfold sinComilla at 1. now rewrite Hc.
Qed.

Lemma letra_spec (c : Z) :
  letra c = true <-> 97 <= c <= 122 \/ (224 <= c <= 254 /\ c <> 247).
Proof.
  unfold letra.
  rewrite orb_true_iff, !andb_true_iff, negb_true_iff, !Z.leb_le, Z.eqb_neq. tauto.
Qed.

Lemma canon_inv (x v : Z) :
  canon x = v -> x = v \/ x = v + 32 \/ v = 376 \/ v = 924.
Proof.
  unfold canon.
  destruct ((97 <=? x) && (x <=? 122)); [lia|].
  destruct ((224 <=? x) && (x <=? 254) && negb (x =? 247)); [lia|].
  destruct (x =? 255); [lia|].
  destruct (x =? 181); lia.
Qed.

Lemma canon_de_letra (c : Z) : letra c = true -> canon c = c - 32.
Proof.
  intros Hc. unfold canon. unfold letra in Hc.
  destruct ((97 <=? c) && (c <=? 122)); [reflexivity|].
  destruct ((224 <=? c) && (c <=? 254) && negb (c =? 247)); [reflexivity|discriminate].
Qed.

Lemma lower_unit_letra (c : Z) : letra c = true -> lower_unit c = c /\ lower_unit (c - 32) = c.
Proof.
  intros Hc. apply letra_spec in Hc. unfold lower_unit. split.
  - assert (N1 : (65 <=? c) && (c <=? 90) = false)
      by (apply andb_false_iff; rewrite !Z.leb_gt; lia).
    assert (N2 : (192 <=? c) && (c <=? 222) = false)
      by (apply andb_false_iff; rewrite !Z.leb_gt; lia).
    rewrite N1, N2. reflexivity.
  - destruct Hc as [Hc|[Hc Hn]].
    + assert (N1 : (65 <=? c - 32) && (c - 32 <=? 90) = true)
        by (apply andb_true_iff; rewrite !Z.leb_le; lia).
      rewrite N1. lia.
    + assert (N1 : (65 <=? c - 32) && (c - 32 <=? 90) = false)
        by (apply andb_false_iff; rewrite !Z.leb_gt; lia).
      assert (N2 : (192 <=? c - 32) && (c - 32 <=? 222) && negb (c - 32 =? 215) = true).
      { rewrite !andb_true_iff, negb_true_iff, !Z.leb_le, Z.eqb_neq. lia. }
      rewrite N1, N2. lia.
Qed.

(** A letter of a pattern matches, under the flag [i], the letter and its
    capital, and both are lowered to the letter. *)
Lemma canon_letra (x c : Z) : letra c = true -> canon x = canon c -> lower_unit x = c.
Proof.
  intros Hc E. rewrite (canon_de_letra c Hc) in E.
  pose proof (lower_unit_letra c Hc) as [L1 L2].
  pose proof Hc as Hc'. apply letra_spec in Hc'.
  apply canon_inv in E as [->|[E|[E|E]]]; [exact L2| |lia|lia].
  replace x with c by lia. exact L1.
Qed.

Lemma startsWith_ci_lower (s k : jsstring) :
  forallb letra k = true -> startsWith_ci s k = true -> startsWith (toLowerCase s) k = true.
Proof.
  revert s. induction k as [|c k IH]; intros s Hk H; [destruct s; reflexivity|].
  destruct s as [|x s]; [discriminate|]. simpl in *.
  apply andb_true_iff in Hk as [Hc Hk]. apply andb_true_iff in H as [Hx H].
  apply Z.eqb_eq in Hx. rewrite (canon_letra x c Hc Hx), Z.eqb_refl. simpl. auto.
Qed.

(** A word that the lowered text does not hold is not replaced. *)
Lemma replace_gi_id (s pat rep : jsstring) :
  forallb letra pat = true -> pat <> [] ->
  includes (toLowerCase s) pat = false ->
  replace_gi O s pat rep = s.
Proof.
  intros Hl Hne. destruct pat as [|c pat']; [contradiction|].
  induction s as [|x s IH]; [reflexivity|]. intros H.
  cbn [toLowerCase map includes] in H. apply orb_false_iff in H as [Hs Hi].
  cbn [replace_gi].
  destruct (startsWith_ci (x :: s) (c :: pat')) eqn:E.
  - apply (startsWith_ci_lower _ _ Hl) in E. cbn [toLowerCase map] in E. congruence.
  - f_equal. apply IH. exact Hi.
Qed.

End Cadenas.

(** ** The language detector, the classifier and the translations *)

Section Idioma.

Lemma some_false {A : Type} (p : A -> bool) (l : list A) (x : A) :
  some p l = false -> In x l -> p x = false.
Proof.
  unfold some. intros H Hin. destruct (p x) eqn:E; [|reflexivity].
  assert (T : existsb p l = true) by (apply existsb_exists; exists x; auto). congruence.
Qed.

Lemma claves_tabla_ok : claves_tabla = true.
Proof. vm_compute; reflexivity. Qed.

Lemma tabla_id (e : jsstring) (tabla : list (jsstring * jsstring)) :
  (forall p, In p tabla ->
             forallb letra (fst p) = true /\ fst p <> []
             /\ includes (toLowerCase e) (fst p) = false) ->
  fold_left (fun acc p => replace_gi O acc (fst p) (snd p)) tabla e = e.
Proof.
  induction tabla as [|p tabla IH]; [reflexivity|]. intros H. cbn [fold_left].
  destruct (H p (or_introl eq_refl)) as (Hl & Hn & Hi).
  rewrite (replace_gi_id e (fst p) (snd p) Hl Hn Hi).
  apply IH. intros q Hq. apply H. right. exact Hq.
Qed.

(** X10. A Catalan word of the detector, in any letter case and anywhere in the
    text, makes the language Catalan. *)
Theorem catalan_en_cualquier_contexto (antes palabra despues : jsstring) :
  In (toLowerCase palabra) Server.palabrasCatalanas ->
  Server.detectarIdioma (antes ++ palabra ++ despues) = ca.
Proof.
  intros Hin. unfold Server.detectarIdioma.
  assert (E : some (fun p => includes (toLowerCase (antes ++ palabra ++ despues)) p)
                   Server.palabrasCatalanas = true).
  { unfold some. apply existsb_exists. exists (toLowerCase palabra). split; [exact Hin|].
    rewrite !toLowerCase_app. apply includes_app. }
  rewrite E. reflexivity.
Qed.

(** X11. The table of translations changes only texts that the detector takes
    for Catalan: a text detected as Spanish goes through the table as it
    is, so that every word of the table is a word of the detector. *)
Theorem tabla_deja_el_castellano (expresion : jsstring) :
  Server.detectarIdioma expresion = es ->
  Server.traducirConTabla expresion = expresion.
Proof.
  intros H. unfold Server.detectarIdioma in H.
  destruct (some _ Server.palabrasCatalanas) eqn:S; [discriminate|].
  unfold Server.traducirConTabla. apply tabla_id. intros p Hp.
  pose proof claves_tabla_ok as T. unfold claves_tabla in T.
  rewrite forallb_forall in T. specialize (T p Hp).
  apply andb_true_iff in T as [T Hlen]. apply andb_true_iff in T as [Hk Hl].
  split; [exact Hl|]. split.
  - intros E. rewrite E in Hlen. discriminate.
  - apply existsb_exists in Hk as (k & Hin & Ek). apply str_eqb_eq in Ek. rewrite Ek.
    exact (some_false _ _ k S Hin).
Qed.

(** X12. [traducirCatalanaEspanol] gives a text only when there is a client and
    it answered something that is not blank; the text it gives holds no
    quote and no white space at its ends. *)
Theorem traduccion_limpia (openai : option OpenAI) (expresion s : jsstring) :
  Server.traducirCatalanaEspanol openai expresion = Some s ->
  forallb sinComilla s = true /\ trim s = s
  /\ exists client c,
      openai = Some client /\ translation client expresion = Content (Some c)
      /\ trim c <> [].
Proof.
  unfold Server.traducirCatalanaEspanol.
  destruct openai as [client|]; [|discriminate].
  destruct (translation client expresion) as [m|[c|]] eqn:Et; try discriminate.
  cbn [option_map]. destruct (trim c) as [|x t] eqn:Ec; cbn [truthy]; [discriminate|].
  intros H. apply Some_eq in H. subst s.
  split; [apply trim_forallb, stripQuotes_sinComilla|]. split; [apply trim_trim|].
  exists client, c. rewrite Ec. repeat split; auto. discriminate.
Qed.

(** X13. The verdict of the classifier does not depend on the letter case of
    the expression nor on white space around it. *)
Theorem clasificador_sin_relleno_ni_mayusculas (sp1 e1 sp2 e2 : jsstring) :
  forallb isSpace sp1 = true -> forallb isSpace sp2 = true ->
  toLowerCase e1 = toLowerCase e2 ->
  Server.esExpresionTemporalClara (sp1 ++ e1 ++ sp2) = Server.esExpresionTemporalClara e2.
Proof.
  intros H1 H2 E. unfold Server.esExpresionTemporalClara.
  rewrite !toLowerCase_app, (toLowerCase_espacios sp1 H1), (toLowerCase_espacios sp2 H2).
  rewrite (trim_relleno sp1 _ sp2 H1 H2), E. reflexivity.
Qed.

End Idioma.

(** ** The handler *)

Section ManejadorPropiedades.

Variable systemZone : Zone.
Variable normalizeZone : jsstring -> option Zone.

(** A client whose every call fails, with whatever messages. *)
Lemma parsearConOpenAI_caido (mt : jsstring -> jsstring)
      (mc : jsstring -> option jsstring -> jsstring -> jsstring)
      (e : jsstring) (ref : Z) (zona : jsstring) :
  Server.parsearConOpenAI normalizeZone
    (Some (mkOpenAI (fun x => Throws (mt x)) (fun x r z => Throws (mc x r z)))) e ref zona
  = Server.parsearConOpenAI normalizeZone None e ref zona.
Proof. reflexivity. Qed.

Lemma parsearBase_caido (parseDate : jsstring -> Z -> option Z) (mt : jsstring -> jsstring)
      (mc : jsstring -> option jsstring -> jsstring -> jsstring) (e : jsstring) (ref : Z) :
  Server.parsearBase parseDate
    (Some (mkOpenAI (fun x => Throws (mt x)) (fun x r z => Throws (mc x r z)))) e ref
  = Server.parsearBase parseDate None e ref.
Proof.
  unfold Server.parsearBase, Server.parsearCatalan, Server.traducirCatalanaEspanol.
  destruct (Server.detectarIdioma e); try reflexivity.
  cbn [translation].
  destruct (parseDate e ref); [reflexivity|].
  destruct (negb _); [|reflexivity].
  destruct (parseDate _ ref); reflexivity.
Qed.

Lemma resolver_caido (parseDate : jsstring -> Z -> option Z) (mt : jsstring -> jsstring)
      (mc : jsstring -> option jsstring -> jsstring -> jsstring)
      (e : jsstring) (refDate : DateTime) (zona : jsstring) :
  Server.resolver systemZone normalizeZone parseDate
    (Some (mkOpenAI (fun x => Throws (mt x)) (fun x r z => Throws (mc x r z)))) e refDate zona
  = Server.resolver systemZone normalizeZone parseDate None e refDate zona.
Proof.
  unfold Server.resolver.
  destruct (Server.preprocesarExpresion _ _ _); [reflexivity|].
  rewrite parsearBase_caido, parsearConOpenAI_caido.
  destruct (Server.parsearBase _ _ _ _); [|reflexivity].
  rewrite andb_false_r.
  destruct (lt _ _); reflexivity.
Qed.

(** X14. The errors of the model are swallowed: with a client whose every
    call fails, the translation as well as the completion, the handler
    answers every request as it does without a client; the answer 500 of
    its [catch] is not reached through the model. *)
Theorem cliente_caido_es_sin_cliente (parseDate : jsstring -> Z -> option Z)
        (mt : jsstring -> jsstring) (mc : jsstring -> option jsstring -> jsstring -> jsstring)
        (req : Request) :
  Server.parse_fecha systemZone normalizeZone parseDate
    (Some (mkOpenAI (fun x => Throws (mt x)) (fun x r z => Throws (mc x r z)))) req
  = Server.parse_fecha systemZone normalizeZone parseDate None req.
Proof.
  unfold Server.parse_fecha.
  destruct (referencia req) as [[|r rs]|]; try reflexivity.
  destruct (expresion_usuario req) as [[|e ex]|]; try reflexivity.
  destruct (negb (Server.esExpresionTemporalClara (e :: ex))); [reflexivity|].
  destruct (negb (isValid _)); [reflexivity|].
  rewrite resolver_caido. reflexivity.
Qed.

(** X15. What the preprocessor resolves is answered without chrono and without
    the model: the response is the same for any other parser and client. *)
Theorem preprocesado_decide (parseDate parseDate' : jsstring -> Z -> option Z)
        (openai openai' : option OpenAI) (r e : jsstring) (zona : option jsstring)
        (fecha : DateTime) :
  let zonaHoraria := match zona with Some z => z | None => js "Europe/Madrid" end in
  Server.preprocesarExpresion systemZone e (toJSDate (fromISO r (normalizeZone zonaHoraria)))
  = Some fecha ->
  Server.parse_fecha systemZone normalizeZone parseDate openai (mkRequest (Some r) (Some e) zona)
  = Server.parse_fecha systemZone normalizeZone parseDate' openai' (mkRequest (Some r) (Some e) zona).
Proof.
  intros zonaHoraria H. unfold Server.parse_fecha.
  cbn [referencia expresion_usuario zona_horaria]. fold zonaHoraria.
  destruct r as [|r0 rs]; [reflexivity|]. destruct e as [|e0 ex]; [reflexivity|].
  destruct (negb (Server.esExpresionTemporalClara (e0 :: ex))); [reflexivity|].
  destruct (negb (isValid _)); [reflexivity|].
  rewrite (resolver_preprocesado systemZone normalizeZone parseDate openai _ _ _ zonaHoraria H).
  rewrite (resolver_preprocesado systemZone normalizeZone parseDate' openai' _ _ _ zonaHoraria H).
  reflexivity.
Qed.

End ManejadorPropiedades.

(** ** The handler of [src/server.js] *)

Section ManejadorJs.

Variable systemZone : Zone.
Variable normalizeZone : jsstring -> option Zone.
Variable parseDate : jsstring -> Z -> option Z.
Variable openai : option OpenAI.

Lemma preprocesar_js_noAntes (expresion : jsstring) (ref : Z) (fecha : DateTime) :
  Z.abs ref <= MAX_TS ->
  ServerJs.preprocesarExpresion systemZone expresion ref = Some fecha ->
  noAntes fecha ref.
Proof.
  intros Hr. unfold ServerJs.preprocesarExpresion, fromJSDate. rewrite (mk_valid _ _ Hr).
  destruct (match_ expresion Server.rePasadoMananaHora) as [m|] eqn:E1.
  { apply hora_capturada_es in E1 as (ds & -> & Hd). intros H; apply Some_eq in H; subst fecha.
    apply en_punto_noAntes; [lia|now apply parseInt_digits_nonneg]. }
  destruct (match_ expresion Server.reDemaPassatHora) as [m|] eqn:E2.
  { apply hora_capturada_ca in E2 as (ds & -> & Hd). intros H; apply Some_eq in H; subst fecha.
    apply en_punto_noAntes; [lia|now apply parseInt_digits_nonneg]. }
  destruct (includes _ _ || includes _ _).
  { intros H; apply Some_eq in H; subst fecha. apply plusDays_noAntes. lia. }
  rewrite weekday_DT.
  destruct (match_ _ Server.reQueViene) as [m'|]; [|discriminate].
  destruct (Server.diaObjetivoDe m') as [X|] eqn:EX; [|discriminate].
  intros H; apply Some_eq in H; subst fecha.
  pose proof (diasQueViene_range X _ (diaObjetivo_range m' X EX)
                (wd_range (dayNumber (localTS ref systemZone)))) as [K _].
  apply en_punto_noAntes; lia.
Qed.

Lemma isValid_DT (d : DateTime) : isValid d = true -> exists t z, d = DT t z.
Proof. destruct d as [|t z]; [discriminate|eauto]. Qed.

(** After chrono has read the expression the corrected date is the answer:
    the test of the second consultation of the model never holds. *)
Lemma resolver_js_base (expresion : jsstring) (r : Z) (zr : Zone) (zonaHoraria : jsstring)
      (p : Z) :
  Z.abs r <= MAX_TS ->
  ServerJs.preprocesarExpresion systemZone expresion r = None ->
  Server.parsearBase parseDate openai expresion r = Some p ->
  ServerJs.resolver systemZone normalizeZone parseDate openai expresion (DT r zr) zonaHoraria
  = Server.Resuelta
      (ServerJs.validarYCorregirFecha systemZone
         (match normalizeZone zonaHoraria with
          | Some z => fromJSDate p z
          | None => Invalid
          end) r expresion).
Proof.
  intros Hr Hp Hb. unfold ServerJs.resolver. cbn [toJSDate]. rewrite Hp, Hb.
  set (fecha := ServerJs.validarYCorregirFecha _ _ _ _).
  assert (L : lt fecha (DT r zr) = false).
  { apply lt_false_noAntes. apply validar_js_noAntes. exact Hr. }
  rewrite L. reflexivity.
Qed.

Lemma fromISO_vacia (zone : option Zone) : isValid (fromISO [] zone) = false.
Proof. destruct zone; reflexivity. Qed.

Lemma parse_fecha_js_resuelve (r e : jsstring) (zona : option jsstring) :
  let zonaHoraria := match zona with Some z => z | None => js "Europe/Madrid" end in
  let refDate := fromISO r (normalizeZone zonaHoraria) in
  e <> [] ->
  isValid refDate = true ->
  ServerJs.parse_fecha systemZone normalizeZone parseDate openai
    (mkRequest (Some r) (Some e) zona)
  = match ServerJs.resolver systemZone normalizeZone parseDate openai e refDate
            zonaHoraria with
    | Server.Responde resp => resp
    | Server.Resuelta fecha => Server.ensamblar fecha refDate e
    end.
Proof.
  intros zonaHoraria refDate He Hv. unfold ServerJs.parse_fecha.
  cbn [referencia expresion_usuario zona_horaria]. fold zonaHoraria.
  destruct r as [|r0 rs]; [unfold refDate in Hv; rewrite fromISO_vacia in Hv; discriminate|].
  destruct e as [|e0 ex]; [contradiction|].
  fold refDate. rewrite Hv. reflexivity.
Qed.

(** X16. In [src/server.js], once chrono has read the expression, the answer is
    the corrected date and [es_pasado] is false: the model is not asked a
    second time, with or without a client. *)
Theorem js_tras_chrono_no_se_consulta_el_modelo (r e : jsstring) (zona : option jsstring)
        (p : Z) :
  let zonaHoraria := match zona with Some z => z | None => js "Europe/Madrid" end in
  let refDate := fromISO r (normalizeZone zonaHoraria) in
  e <> [] ->
  isValid refDate = true ->
  ServerJs.preprocesarExpresion systemZone e (toJSDate refDate) = None ->
  Server.parsearBase parseDate openai e (toJSDate refDate) = Some p ->
  ServerJs.parse_fecha systemZone normalizeZone parseDate openai
    (mkRequest (Some r) (Some e) zona)
  = Server.ensamblar
      (ServerJs.validarYCorregirFecha systemZone
         (match normalizeZone zonaHoraria with
          | Some z => fromJSDate p z
          | None => Invalid
          end) (toJSDate refDate) e)
      refDate e
  /\ esPasado (body (ServerJs.parse_fecha systemZone normalizeZone parseDate openai
                       (mkRequest (Some r) (Some e) zona))) = Some false.
Proof.
  intros zonaHoraria refDate He Hv Hp Hb.
  pose proof (parse_fecha_js_resuelve r e zona He Hv) as Q. rewrite Q. clear Q.
  fold zonaHoraria. fold refDate.
  destruct (isValid_DT _ Hv) as (t & z & Er).
  pose proof (fromISO_bound _ _ _ _ Er) as Ht.
  rewrite Er in *. cbn [toJSDate] in *.
  rewrite (resolver_js_base _ _ _ zonaHoraria p Ht Hp Hb).
  split; [reflexivity|].
  unfold Server.ensamblar. cbn [body esPasado]. f_equal.
  apply lt_false_noAntes. apply validar_js_noAntes. exact Ht.
Qed.

(** X17. In [src/server.js] a date that the preprocessor or chrono gave is never
    answered as past: [es_pasado] can be true only for a date that comes
    from the model alone. *)
Theorem js_respuesta_nunca_pasada (r e : jsstring) (zona : option jsstring) :
  let zonaHoraria := match zona with Some z => z | None => js "Europe/Madrid" end in
  let refDate := fromISO r (normalizeZone zonaHoraria) in
  ServerJs.preprocesarExpresion systemZone e (toJSDate refDate) <> None
  \/ Server.parsearBase parseDate openai e (toJSDate refDate) <> None ->
  esPasado (body (ServerJs.parse_fecha systemZone normalizeZone parseDate openai
                    (mkRequest (Some r) (Some e) zona))) <> Some true.
Proof.
  intros zonaHoraria refDate H.
  destruct e as [|e0 ex].
  { unfold ServerJs.parse_fecha. cbn [referencia expresion_usuario zona_horaria].
    destruct r; discriminate. }
  destruct (isValid refDate) eqn:Hv.
  2:{ unfold ServerJs.parse_fecha. cbn [referencia expresion_usuario zona_horaria].
      fold zonaHoraria. destruct r as [|r0 rs]; [discriminate|].
      fold refDate. rewrite Hv. discriminate. }
  assert (He : e0 :: ex <> []) by discriminate.
  pose proof (parse_fecha_js_resuelve r (e0 :: ex) zona He Hv) as Q. rewrite Q. clear Q.
  fold zonaHoraria. fold refDate.
  destruct (isValid_DT _ Hv) as (t & z & Er).
  pose proof (fromISO_bound _ _ _ _ Er) as Ht.
  rewrite Er in *. cbn [toJSDate] in *.
  destruct (ServerJs.preprocesarExpresion systemZone (e0 :: ex) t) as [f|] eqn:Hp.
  - unfold ServerJs.resolver. cbn [toJSDate]. rewrite Hp.
    unfold Server.ensamblar. cbn [body esPasado].
    pose proof (preprocesar_js_noAntes _ _ _ Ht Hp) as N.
    apply (lt_false_noAntes f t z) in N. rewrite N. discriminate.
  - destruct (Server.parsearBase parseDate openai (e0 :: ex) t) as [p|] eqn:Hb;
      [|destruct H; contradiction].
    rewrite (resolver_js_base _ _ _ zonaHoraria p Ht Hp Hb).
    unfold Server.ensamblar. cbn [body esPasado].
    pose proof (validar_js_noAntes systemZone
                  (match normalizeZone zonaHoraria with
                   | Some z0 => fromJSDate p z0
                   | None => Invalid
                   end) t (e0 :: ex) Ht) as N.
    apply (lt_false_noAntes _ t z) in N. rewrite N. discriminate.
Qed.

End ManejadorJs.

(** ** The preprocessor *)

Section PreprocesadorPropiedades.

Variable systemZone : Zone.

(** X18. What the preprocessor answers is never before the reference, in the
    latest revision and in [src/server.js], for every expression and every
    hour that an expression may name. *)
Theorem preprocesador_nunca_antes (expresion : jsstring) (ref t : Z) (z : Zone) :
  Z.abs ref <= MAX_TS ->
  Server.preprocesarExpresion systemZone expresion ref = Some (DT t z)
  \/ ServerJs.preprocesarExpresion systemZone expresion ref = Some (DT t z) ->
  ref <= t.
Proof.
  intros Hr [H|H].
  - exact (preprocesar_noAntes systemZone expresion ref _ Hr H).
  - exact (preprocesar_js_noAntes systemZone expresion ref _ Hr H).
Qed.

End PreprocesadorPropiedades.

(** ** The round trip in the zone of the request *)

Section IdaYVueltaPeticion.

Variable systemZone : Zone.
Variable normalizeZone : jsstring -> option Zone.
Variable parseDate : jsstring -> Z -> option Z.
Variable openai : option OpenAI.

Lemma set_bound (d : DateTime) (v : SetValues) (t : Z) (z : Zone) :
  set d v = DT t z -> Z.abs t <= MAX_TS.
Proof.
  destruct d as [|t0 z0]; [discriminate|]. rewrite set_DT. intros H.
  apply mk_DT_inv in H as (-> & _ & H). exact H.
Qed.

(** The hour rules keep the zone; their result is a time stamp of the
    range of Date when the candidate is one, and is not before it. *)
Lemma horas_zona (t : Z) (z : Zone) (n : jsstring) (t' : Z) (z' : Zone) :
  Z.abs t <= MAX_TS ->
  Server.hora7 (Server.horaPorDefecto (DT t z) n) n = DT t' z' ->
  z' = z /\ Z.abs t' <= MAX_TS.
Proof.
  intros Ht H.
  destruct (Server.horaPorDefecto (DT t z) n) as [|t1 z1] eqn:E1.
  { rewrite hora7_Invalid in H. discriminate. }
  pose proof (horaPorDefecto_same_day _ _ _ _ _ E1) as [-> _].
  pose proof (hora7_same_day _ _ _ _ _ H) as [-> _].
  split; [reflexivity|].
  assert (B1 : Z.abs t1 <= MAX_TS).
  { destruct (horaPorDefecto_casos (DT t z) n) as [A|(_ & _ & _ & A)]; rewrite A in E1.
    - apply DT_inj in E1 as [<- _]. exact Ht.
    - exact (set_bound _ _ _ _ E1). }
  destruct (hora7_casos (DT t1 z) n) as [A|(_ & A)]; rewrite A in H.
  - apply DT_inj in H as [<- _]. exact B1.
  - exact (set_bound _ _ _ _ H).
Qed.

Lemma parse_fecha_resuelve_cadenas (r e : jsstring) (zona : option jsstring) :
  let zonaHoraria := match zona with Some z => z | None => js "Europe/Madrid" end in
  let refDate := fromISO r (normalizeZone zonaHoraria) in
  e <> [] ->
  Server.esExpresionTemporalClara e = true ->
  isValid refDate = true ->
  Server.parse_fecha systemZone normalizeZone parseDate openai (mkRequest (Some r) (Some e) zona)
  = match Server.resolver systemZone normalizeZone parseDate openai e refDate zonaHoraria with
    | Server.Responde resp => resp
    | Server.Resuelta fecha => Server.ensamblar fecha refDate e
    end.
Proof.
  intros zonaHoraria refDate He Hc Hv. unfold Server.parse_fecha.
  cbn [referencia expresion_usuario zona_horaria]. fold zonaHoraria.
  destruct r as [|r0 rs]; [unfold refDate in Hv; rewrite fromISO_vacia in Hv; discriminate|].
  destruct e as [|e0 ex]; [contradiction|].
  fold refDate. rewrite Hc, Hv. reflexivity.
Qed.

(** X20. When chrono reads the expression as a date that is not before the
    reference, the response is in the zone of the request: its
    [iso_datetime], read in that zone, formats to [fecha_resuelta] and
    [hora]. *)
Theorem ida_y_vuelta_en_zona_de_la_peticion (r e : jsstring) (zona : option jsstring)
        (z : Zone) (p t' : Z) (z' : Zone) :
  let zonaHoraria := match zona with Some z => z | None => js "Europe/Madrid" end in
  let refDate := fromISO r (normalizeZone zonaHoraria) in
  let respuesta :=
    Server.parse_fecha systemZone normalizeZone parseDate openai
      (mkRequest (Some r) (Some e) zona) in
  e <> [] ->
  Server.esExpresionTemporalClara e = true ->
  isValid refDate = true ->
  normalizeZone zonaHoraria = Some z ->
  Z.abs (zoffset z) <= 5999 ->
  Server.preprocesarExpresion systemZone e (toJSDate refDate) = None ->
  Server.parsearBase parseDate openai e (toJSDate refDate) = Some p ->
  Z.abs p <= MAX_TS ->
  lt (DT p z) refDate = false ->
  Server.validarYCorregirFecha systemZone (DT p z) (toJSDate refDate) e = DT t' z' ->
  0 <= year (tsToObj (localTS t' z')) <= 9999 ->
  exists iso,
    isoDatetime (body respuesta) = Some (Some iso)
    /\ fechaResuelta (body respuesta)
       = Some (toFormat_date (fromISO iso (normalizeZone zonaHoraria)))
    /\ horaDe (body respuesta)
       = Some (toFormat_time (fromISO iso (normalizeZone zonaHoraria))).
Proof.
  intros zonaHoraria refDate respuesta He Hc Hv Hz Hoff Hp Hb Hpb Hlt Hf Hy.
  destruct (isValid_DT _ Hv) as (rt & zr & Er).
  pose proof (fromISO_bound _ _ _ _ Er) as Hrb.
  assert (Ev : Server.validarYCorregirFecha systemZone (DT p z) (toJSDate refDate) e
               = Server.hora7 (Server.horaPorDefecto (DT p z) (toLowerCase e)) (toLowerCase e)).
  { apply validar_sin_correccion. left. rewrite Er in *. cbn [toJSDate].
    unfold fromJSDate. rewrite (mk_valid _ _ Hrb). rewrite lt_DT in *. exact Hlt. }
  pose proof Hf as Hh. rewrite Ev in Hh.
  apply (horas_zona _ _ _ _ _ Hpb) in Hh as [-> Htb].
  pose proof (validar_no_retrocede_aux systemZone p z (toJSDate refDate) e t' z Hf) as Hle.
  assert (Hl : lt (DT t' z) refDate = false).
  { rewrite Er in *. rewrite lt_DT in *. apply Z.ltb_ge. apply Z.ltb_ge in Hlt. lia. }
  assert (R : respuesta = Server.ensamblar (DT t' z) refDate e).
  { unfold respuesta.
    pose proof (parse_fecha_resuelve_cadenas r e zona He Hc Hv) as Q. rewrite Q. clear Q.
    fold zonaHoraria. fold refDate.
    rewrite (resolver_base systemZone normalizeZone parseDate openai e refDate zonaHoraria p z
               Hp Hb Hz).
    - unfold fromJSDate. rewrite (mk_valid _ _ Hpb), Hf. reflexivity.
    - unfold fromJSDate. rewrite (mk_valid _ _ Hpb), Hf. exact Hl. }
  rewrite R, Hz. destruct (ida_y_vuelta t' z Htb Hoff Hy) as (iso & E1 & E2).
  exists iso. unfold Server.ensamblar. cbn [body fechaResuelta horaDe isoDatetime].
  rewrite E1, E2. repeat split; reflexivity.
Qed.

End IdaYVueltaPeticion.

(** ** The patterns of the preprocessor and the weekday names *)

Section NombresDeDia.

Lemma sufijo_refl (s : jsstring) : sufijo s s.
Proof. exists []. reflexivity. Qed.

Lemma sufijo_trans (a b c : jsstring) : sufijo a b -> sufijo b c -> sufijo a c.
Proof. intros [p ->] [q ->]. exists (q ++ p). now rewrite app_assoc. Qed.

Lemma sufijo_cons (x : Z) (s : jsstring) : sufijo s (x :: s).
Proof. exists [x]. reflexivity. Qed.

(** A match hands to its continuation an end of the text it was given. *)
Lemma rmatch_sufijo (r : regex) :
  forall prev s cap (k : cont) res,
    rmatch r prev s cap k = Some res ->
    exists p' s' c', k p' s' c' = Some res /\ sufijo s' s.
Proof.
  induction r as [|c|cs|p|a IHa b IHb|a IHa b IHb|a IHa|a IHa|];
    intros prev s cap k res H; simpl in H.
  - exists prev, s, cap. split; [exact H|apply sufijo_refl].
  - destruct s as [|x s']; [discriminate|].
    destruct (canon x =? canon c); [|discriminate].
    exists (Some x), s', cap. split; [exact H|apply sufijo_cons].
  - destruct s as [|x s']; [discriminate|].
    destruct (existsb _ cs); [|discriminate].
    exists (Some x), s', cap. split; [exact H|apply sufijo_cons].
  - destruct s as [|x s']; [discriminate|]. destruct (p x); [|discriminate].
    exists (Some x), s', cap. split; [exact H|apply sufijo_cons].
  - apply IHa in H as (p1 & s1 & c1 & H & S1).
    apply IHb in H as (p2 & s2 & c2 & H & S2).
    exists p2, s2, c2. split; [exact H|exact (sufijo_trans _ _ _ S2 S1)].
  - destruct (rmatch a prev s cap k) eqn:E.
    + injection H as <-. apply IHa in E. exact E.
    + apply IHb in H. exact H.
  - revert H. generalize (List.length s) as n. intros n. revert prev s cap.
    induction n as [|n IHn]; intros prev s cap H; simpl in H.
    + exists prev, s, cap. split; [exact H|apply sufijo_refl].
    + match type of H with
      | match ?X with _ => _ end = _ => destruct X eqn:E
      end.
      * injection H as <-. apply IHa in E as (p1 & s1 & c1 & E & S1).
        destruct (List.length s1 <? List.length s)%nat; [|discriminate].
        apply IHn in E as (p2 & s2 & c2 & E & S2).
        exists p2, s2, c2. split; [exact E|exact (sufijo_trans _ _ _ S2 S1)].
      * exists prev, s, cap. split; [exact H|apply sufijo_refl].
  - apply IHa in H as (p1 & s1 & c1 & H & S1). eauto.
  - destruct (xorb _ _); [|discriminate].
    exists prev, s, cap. split; [exact H|apply sufijo_refl].
Qed.

Lemma search_from_sufijo (r : regex) :
  forall s prev c,
    search_from r prev s = Some c ->
    exists p' s', sufijo s' s /\ rmatch r p' s' None (fun _ _ c => Some c) = Some c.
Proof.
  induction s as [|x s IH]; intros prev c H; simpl in H.
  - destruct (rmatch r prev [] None _) eqn:E; [|discriminate].
    injection H as <-. exists prev, []. split; [apply sufijo_refl|exact E].
  - destruct (rmatch r prev (x :: s) None _) eqn:E.
    + injection H as <-. exists prev, (x :: s). split; [apply sufijo_refl|exact E].
    + apply IH in H as (p' & s' & S & H). exists p', s'.
      split; [exact (sufijo_trans _ _ _ S (sufijo_cons x s))|exact H].
Qed.

Lemma rmatch_alts (ls : list regex) prev s cap (k : cont) res :
  rmatch (alts ls) prev s cap k = Some res ->
  exists l, In l ls /\ rmatch l prev s cap k = Some res.
Proof.
  induction ls as [|a ls IH]; intros H.
  - simpl in H. destruct s; discriminate.
  - destruct ls as [|b ls].
    + exists a. split; [left; reflexivity|exact H].
    + change (alts (a :: b :: ls)) with (RAlt a (alts (b :: ls))) in H.
      cbn [rmatch] in H. destruct (rmatch a prev s cap k) eqn:E.
      * exists a. split; [left; reflexivity|]. rewrite E. exact H.
      * destruct (IH H) as (l & Hin & Hl). exists l. split; [right; exact Hin|exact Hl].
Qed.

Lemma startsWith_ci_nil (s : jsstring) : startsWith_ci s [] = true.
Proof. destruct s; reflexivity. Qed.

Lemma rmatch_lit_units (w : jsstring) :
  forall prev s cap (k : cont) res,
    rmatch (lit_units w) prev s cap k = Some res -> startsWith_ci s w = true.
Proof.
  induction w as [|c w IH]; intros prev s cap k res H.
  - apply startsWith_ci_nil.
  - destruct w as [|c2 w].
    + simpl in H. destruct s as [|x s']; [discriminate|].
      simpl. destruct (canon x =? canon c); [|discriminate]. apply startsWith_ci_nil.
    + change (lit_units (c :: c2 :: w)) with (RSeq (RChar c) (lit_units (c2 :: w))) in H.
      cbn [rmatch] in H. destruct s as [|x s']; [discriminate|].
      cbn [startsWith_ci]. destruct (canon x =? canon c); [|discriminate].
      cbn [andb]. exact (IH _ _ _ _ _ H).
Qed.

Lemma nombresDia_forma : Server.nombresDia = alts (map lit_units nombresDeDia).
Proof. reflexivity. Qed.

(** A pattern that opens with an optional part and the group of the
    weekday names finds a weekday name in the text. *)
Lemma patron_con_nombre (A B : regex) (s : jsstring) (c : option jsstring) :
  match_ s (RSeq A (RSeq (RGroup Server.nombresDia) B)) = Some c ->
  exists s' nombre, sufijo s' s /\ In nombre nombresDeDia /\ startsWith_ci s' nombre = true.
Proof.
  unfold match_. intros H.
  apply search_from_sufijo in H as (p0 & s0 & S0 & H).
  cbn [rmatch] in H.
  apply rmatch_sufijo in H as (p1 & s1 & c1 & H & S1).
  rewrite nombresDia_forma in H.
  apply rmatch_alts in H as (l & Hin & H).
  apply in_map_iff in Hin as (nombre & <- & Hin).
  apply rmatch_lit_units in H.
  exists s1, nombre. split; [exact (sufijo_trans _ _ _ S1 S0)|]. split; assumption.
Qed.

Lemma includes_sufijo (s s' w : jsstring) :
  sufijo s' s -> startsWith s' w = true -> includes s w = true.
Proof.
  intros [pre ->] H. induction pre as [|x pre IH].
  - apply includes_startsWith. exact H.
  - cbn [app includes]. rewrite IH. apply orb_true_r.
Qed.

Lemma nombres_letras : forallb (forallb letra) nombresDeDia = true.
Proof. vm_compute; reflexivity. Qed.

Lemma lower_unit_idem (c : Z) : lower_unit (lower_unit c) = lower_unit c.
Proof.
  unfold lower_unit.
  destruct ((65 <=? c) && (c <=? 90)) eqn:A.
  - apply andb_true_iff in A as [A1 A2]. apply Z.leb_le in A1. apply Z.leb_le in A2.
    assert (N1 : (65 <=? c + 32) && (c + 32 <=? 90) = false)
      by (apply andb_false_iff; rewrite !Z.leb_gt; lia).
    assert (N2 : (192 <=? c + 32) && (c + 32 <=? 222) = false)
      by (apply andb_false_iff; rewrite !Z.leb_gt; lia).
    rewrite N1, N2. reflexivity.
  - destruct ((192 <=? c) && (c <=? 222) && negb (c =? 215)) eqn:B.
    + apply andb_true_iff in B as [B _]. apply andb_true_iff in B as [B1 B2].
      apply Z.leb_le in B1. apply Z.leb_le in B2.
      assert (N1 : (65 <=? c + 32) && (c + 32 <=? 90) = false)
        by (apply andb_false_iff; rewrite !Z.leb_gt; lia).
      assert (N2 : (192 <=? c + 32) && (c + 32 <=? 222) = false)
        by (apply andb_false_iff; rewrite !Z.leb_gt; lia).
      rewrite N1, N2. reflexivity.
    + rewrite A, B. reflexivity.
Qed.

Lemma toLowerCase_trim_lower (e : jsstring) :
  toLowerCase (trim (toLowerCase e)) = trim (toLowerCase e).
Proof.
  assert (F : forallb (fun c => lower_unit c =? c) (trim (toLowerCase e)) = true).
  { apply trim_forallb. unfold toLowerCase. apply forallb_forall. intros c Hc.
    apply in_map_iff in Hc as (c0 & <- & _). apply Z.eqb_eq, lower_unit_idem. }
  unfold toLowerCase at 1. rewrite forallb_forall in F.
  rewrite <- (map_id (trim (toLowerCase e))) at 2. apply map_ext_in.
  intros c Hc. apply Z.eqb_eq, F, Hc.
Qed.

(** A pattern of the preprocessor that matches the normalised expression
    finds there one of the weekday names. *)
Lemma patron_en_normalizada (A B : regex) (e : jsstring) (c : option jsstring) :
  match_ (trim (toLowerCase e)) (RSeq A (RSeq (RGroup Server.nombresDia) B)) = Some c ->
  some (fun nombre => includes (trim (toLowerCase e)) nombre) nombresDeDia = true.
Proof.
  intros H. apply patron_con_nombre in H as (s' & nombre & S & Hin & H).
  unfold some. apply existsb_exists. exists nombre. split; [exact Hin|].
  pose proof nombres_letras as L. rewrite forallb_forall in L. specialize (L nombre Hin).
  apply (startsWith_ci_lower _ _ L) in H.
  rewrite <- toLowerCase_trim_lower. destruct S as [pre ->].
  rewrite toLowerCase_app. apply (includes_sufijo _ (toLowerCase s')); [|exact H].
  exists (toLowerCase pre). reflexivity.
Qed.

Lemma reQueViene_forma :
  exists A B, Server.reQueViene = RSeq A (RSeq (RGroup Server.nombresDia) B).
Proof. eexists. eexists. reflexivity. Qed.

Lemma reSemanaQueViene1_forma :
  exists A B, Server.reSemanaQueViene1 = RSeq A (RSeq (RGroup Server.nombresDia) B).
Proof. eexists. eexists. reflexivity. Qed.

Lemma reSemanaQueViene2_forma :
  exists A B, Server.reSemanaQueViene2 = RSeq A (RSeq (RGroup Server.nombresDia) B).
Proof. eexists. eexists. reflexivity. Qed.

(** X21. The preprocessor leaves to chrono every expression that holds no
    weekday name and none of the "pasado mañana" phrases: it answers
    [null], in the latest revision and in [src/server.js]. *)
Theorem sin_nombre_de_dia_no_preprocesa (systemZone : Zone) (expresion : jsstring) (ref : Z) :
  sinPasadoManana expresion = true ->
  some (fun nombre => includes (trim (toLowerCase expresion)) nombre) nombresDeDia = false ->
  Server.preprocesarExpresion systemZone expresion ref = None
  /\ ServerJs.preprocesarExpresion systemZone expresion ref = None.
Proof.
  intros Hs Hn.
  assert (Q : match_ (trim (toLowerCase expresion)) Server.reQueViene = None).
  { destruct (match_ _ Server.reQueViene) as [c|] eqn:E; [|reflexivity].
    destruct reQueViene_forma as (A & B & F). rewrite F in E.
    apply patron_en_normalizada in E. congruence. }
  assert (S : Server.matchSemanaQueViene (trim (toLowerCase expresion)) = None).
  { unfold Server.matchSemanaQueViene, Server.orMatch.
    destruct (match_ _ Server.reSemanaQueViene1) as [c|] eqn:E1.
    { destruct reSemanaQueViene1_forma as (A & B & F). rewrite F in E1.
      apply patron_en_normalizada in E1. congruence. }
    destruct (match_ _ Server.reSemanaQueViene2) as [c|] eqn:E2; [|reflexivity].
    destruct reSemanaQueViene2_forma as (A & B & F). rewrite F in E2.
    apply patron_en_normalizada in E2. congruence. }
  split.
  - apply preprocesar_ninguna; assumption.
  - rewrite (preprocesar_js_coincide systemZone expresion ref S).
    apply preprocesar_ninguna; assumption.
Qed.

End NombresDeDia.

(** ** The first revision *)

Section PrimeraVersion.

Variable normalizeZone : jsstring -> option Zone.
Variable parseDate : jsstring -> Z -> option Z.

Lemma finde_tabla_es_ok : finde_tabla_es = true.
Proof. vm_compute; reflexivity. Qed.

(** X22. The handler of the first revision answers what chrono read, in the
    zone of the request: [iso_datetime] read in that zone is the date of
    chrono and formats to [fecha_resuelta] and [hora]; [es_finde] is the
    weekend of the calendar and [es_pasado] the comparison with the
    reference. *)
Theorem primera_version_coherente (r e : jsstring) (zona : option jsstring) (z : Zone) (p : Z) :
  let zonaHoraria := match zona with Some z => z | None => js "Europe/Madrid" end in
  let refDate := fromISO r (normalizeZone zonaHoraria) in
  let respuesta :=
    PrimerServidor.parse_fecha normalizeZone parseDate (mkRequest (Some r) (Some e) zona) in
  e <> [] ->
  isValid refDate = true ->
  normalizeZone zonaHoraria = Some z ->
  Z.abs (zoffset z) <= 5999 ->
  parseDate e (toJSDate refDate) = Some p ->
  Z.abs p <= MAX_TS ->
  0 <= year (tsToObj (localTS p z)) <= 9999 ->
  status respuesta = 200
  /\ (exists iso,
         isoDatetime (body respuesta) = Some (Some iso)
         /\ fromISO iso (normalizeZone zonaHoraria) = DT p z
         /\ fechaResuelta (body respuesta)
            = Some (toFormat_date (fromISO iso (normalizeZone zonaHoraria)))
         /\ horaDe (body respuesta)
            = Some (toFormat_time (fromISO iso (normalizeZone zonaHoraria))))
  /\ esFinde (body respuesta) = option_map (fun w => 6 <=? w) (weekday (DT p z))
  /\ esPasado (body respuesta) = Some (lt (DT p z) refDate).
Proof.
  intros zonaHoraria refDate respuesta He Hv Hz Hoff Hp Hpb Hy.
  assert (R : respuesta
              = mkResponse 200
                  (FechaBody (toFormat_date (DT p z)) (toFormat_cccc es (DT p z))
                             (toFormat_time (DT p z)) (toISO (DT p z))
                             (existsb (str_eqb (toLowerCase (toFormat_cccc es (DT p z))))
                                      (map js ["sábado"; "domingo"]%string))
                             (lt (DT p z) refDate))).
  { unfold respuesta, PrimerServidor.parse_fecha.
    cbn [referencia expresion_usuario zona_horaria]. fold zonaHoraria.
    destruct r as [|r0 rs]; [unfold refDate in Hv; rewrite fromISO_vacia in Hv; discriminate|].
    destruct e as [|e0 ex]; [contradiction|].
    fold refDate. rewrite Hv, Hp, Hz. unfold fromJSDate. rewrite (mk_valid _ _ Hpb).
    reflexivity. }
  rewrite R, Hz. cbn [status body isoDatetime fechaResuelta horaDe esFinde esPasado].
  split; [reflexivity|]. split; [|split; [|reflexivity]].
  - destruct (ida_y_vuelta p z Hpb Hoff Hy) as (iso & E1 & E2).
    exists iso. rewrite E1, E2. repeat split; reflexivity.
  - unfold toFormat_cccc. rewrite weekday_DT. cbn [option_map]. f_equal.
    pose proof finde_tabla_es_ok as T. unfold finde_tabla_es in T.
    rewrite forallb_forall in T.
    pose proof (wd_range (dayNumber (localTS p z))) as Hw.
    assert (Iw : In (wd (dayNumber (localTS p z))) [1; 2; 3; 4; 5; 6; 7]) by (simpl; lia).
    specialize (T _ Iw). apply Bool.eqb_prop in T. exact T.
Qed.

End PrimeraVersion.

(** ** Instances of the further properties *)

Lemma validar_no_retrocede_witness :
  Server.validarYCorregirFecha Madrid (DT 1762513200000 Madrid) 1762592400000 (js "el viernes")
  = DT 1763118000000 Madrid
  /\ 1762513200000 <= 1763118000000.
Proof.
  assert (H : Server.validarYCorregirFecha Madrid (DT 1762513200000 Madrid) 1762592400000
                (js "el viernes") = DT 1763118000000 Madrid) by (vm_compute; reflexivity).
  split; [exact H|].
  exact (validar_no_retrocede Madrid _ _ _ _ _ _ H).
Defined.

Lemma hora_por_defecto_mediodia_witness :
  (get hour (DT 1762470000000 Madrid) = Some 0
   /\ get minute (DT 1762470000000 Madrid) = Some 0
   /\ matches (toLowerCase (js "el viernes")) Server.reHoraExplicita = false
   /\ Server.validarYCorregirFecha Madrid (DT 1762470000000 Madrid) 1762243200000
        (js "el viernes") = DT 1762513200000 Madrid)
  /\ get hour (DT 1762513200000 Madrid) = Some 12
  /\ get minute (DT 1762513200000 Madrid) = Some 0
  /\ (lt (DT 1762470000000 Madrid) (fromJSDate 1762243200000 Madrid) = false ->
      Madrid = Madrid
      /\ dayNumber (localTS 1762513200000 Madrid) = dayNumber (localTS 1762470000000 Madrid)).
Proof.
  assert (H1 : get hour (DT 1762470000000 Madrid) = Some 0) by (vm_compute; reflexivity).
  assert (H2 : get minute (DT 1762470000000 Madrid) = Some 0) by (vm_compute; reflexivity).
  assert (H3 : matches (toLowerCase (js "el viernes")) Server.reHoraExplicita = false)
    by (vm_compute; reflexivity).
  assert (H4 : Server.validarYCorregirFecha Madrid (DT 1762470000000 Madrid) 1762243200000
                 (js "el viernes") = DT 1762513200000 Madrid) by (vm_compute; reflexivity).
  split; [repeat split; assumption|].
  exact (hora_por_defecto_mediodia Madrid _ _ _ _ _ _ H1 H2 H3 H4).
Defined.

Lemma validar_js_nunca_pasada_witness :
  (Z.abs 1762592400000 <= MAX_TS
   /\ ServerJs.validarYCorregirFecha Madrid (DT 1762513200000 Madrid) 1762592400000
        (js "el viernes") = DT 1763118000000 Madrid)
  /\ 1762592400000 <= 1763118000000
  /\ lt (DT 1763118000000 Madrid) (fromJSDate 1762592400000 Madrid) = false.
Proof.
  assert (H1 : Z.abs 1762592400000 <= MAX_TS) by (vm_compute; discriminate).
  assert (H2 : ServerJs.validarYCorregirFecha Madrid (DT 1762513200000 Madrid) 1762592400000
                 (js "el viernes") = DT 1763118000000 Madrid) by (vm_compute; reflexivity).
  split; [split; assumption|].
  exact (validar_js_nunca_pasada Madrid _ _ _ _ _ H1 H2).
Defined.

Lemma manana_solo_viernes_witness :
  (ServerJs.validarYCorregirFecha Madrid (DT 1762423200000 Madrid) 1762243200000
     (js "el jueves a las 11") = DT 1762434000000 Madrid
   /\ weekday (DT 1762434000000 Madrid) = Some 4
   /\ get hour (DT 1762434000000 Madrid) = Some 14)
  /\ (4 = 5 \/ 14 < 10 \/ 14 <= 14).
Proof.
  assert (H1 : ServerJs.validarYCorregirFecha Madrid (DT 1762423200000 Madrid) 1762243200000
                 (js "el jueves a las 11") = DT 1762434000000 Madrid)
    by (vm_compute; reflexivity).
  assert (H2 : weekday (DT 1762434000000 Madrid) = Some 4) by (vm_compute; reflexivity).
  assert (H3 : get hour (DT 1762434000000 Madrid) = Some 14) by (vm_compute; reflexivity).
  split; [repeat split; assumption|].
  exact (manana_solo_viernes Madrid _ _ _ _ _ _ _ H1 H2 H3).
Defined.

Lemma viernes_salta_fin_de_semana_witness :
  (Z.abs 1762506000000 <= MAX_TS
   /\ weekday (DT 1762506000000 Madrid) = Some 5
   /\ 1761987600000 < 1762506000000
   /\ ServerJs.validarYCorregirFecha Madrid (DT 1761987600000 Madrid) 1762506000000
        (js "el sábado") = DT 1762779600000 Madrid)
  /\ Madrid = Madrid
  /\ (exists w, weekday (DT 1762779600000 Madrid) = Some w /\ 1 <= w <= 5)
  /\ dayNumber (localTS 1762506000000 Madrid) + 3 <= dayNumber (localTS 1762779600000 Madrid)
     <= dayNumber (localTS 1762506000000 Madrid) + 7.
Proof.
  assert (H1 : Z.abs 1762506000000 <= MAX_TS) by (vm_compute; discriminate).
  assert (H2 : weekday (DT 1762506000000 Madrid) = Some 5) by (vm_compute; reflexivity).
  assert (H3 : 1761987600000 < 1762506000000) by reflexivity.
  assert (H4 : ServerJs.validarYCorregirFecha Madrid (DT 1761987600000 Madrid) 1762506000000
                 (js "el sábado") = DT 1762779600000 Madrid) by (vm_compute; reflexivity).
  split; [repeat split; assumption|].
  exact (viernes_salta_fin_de_semana Madrid _ _ _ _ _ _ H1 H2 H3 H4).
Defined.

Lemma iso_empieza_por_fecha_y_hora_witness :
  0 <= year (tsToObj (localTS 1762437600000 NuevaYork)) <= 9999
  /\ exists f h resto,
      fechaResuelta (body (Server.ensamblar (DT 1762437600000 NuevaYork)
                             (DT 1762264800000 NuevaYork) (js "en 2 días"))) = Some f
      /\ horaDe (body (Server.ensamblar (DT 1762437600000 NuevaYork)
                         (DT 1762264800000 NuevaYork) (js "en 2 días"))) = Some h
      /\ isoDatetime (body (Server.ensamblar (DT 1762437600000 NuevaYork)
                              (DT 1762264800000 NuevaYork) (js "en 2 días")))
         = Some (Some (f ++ js "T" ++ h ++ resto))
      /\ List.length f = 10%nat /\ List.length h = 5%nat.
Proof.
  assert (H : 0 <= year (tsToObj (localTS 1762437600000 NuevaYork)) <= 9999)
    by (split; vm_compute; discriminate).
  split; [exact H|].
  exact (iso_empieza_por_fecha_y_hora _ _ (DT 1762264800000 NuevaYork) (js "en 2 días") H).
Defined.

Lemma ida_y_vuelta_de_la_respuesta_witness :
  (Z.abs 1762437600000 <= MAX_TS /\ Z.abs (zoffset NuevaYork) <= 5999
   /\ 0 <= year (tsToObj (localTS 1762437600000 NuevaYork)) <= 9999)
  /\ exists iso,
      isoDatetime (body (Server.ensamblar (DT 1762437600000 NuevaYork)
                           (DT 1762264800000 NuevaYork) (js "en 2 días"))) = Some (Some iso)
      /\ fromISO iso (Some NuevaYork) = DT 1762437600000 NuevaYork
      /\ fechaResuelta (body (Server.ensamblar (DT 1762437600000 NuevaYork)
                                (DT 1762264800000 NuevaYork) (js "en 2 días")))
         = Some (toFormat_date (fromISO iso (Some NuevaYork)))
      /\ horaDe (body (Server.ensamblar (DT 1762437600000 NuevaYork)
                         (DT 1762264800000 NuevaYork) (js "en 2 días")))
         = Some (toFormat_time (fromISO iso (Some NuevaYork))).
Proof.
  assert (H1 : Z.abs 1762437600000 <= MAX_TS) by (vm_compute; discriminate).
  assert (H2 : Z.abs (zoffset NuevaYork) <= 5999) by (vm_compute; discriminate).
  assert (H3 : 0 <= year (tsToObj (localTS 1762437600000 NuevaYork)) <= 9999)
    by (split; vm_compute; discriminate).
  split; [repeat split; first [assumption | apply H3]|].
  exact (ida_y_vuelta_de_la_respuesta _ _ (DT 1762264800000 NuevaYork) (js "en 2 días")
           H1 H2 H3).
Defined.

Lemma catalan_en_cualquier_contexto_witness :
  In (toLowerCase (js "DIVENDRES")) Server.palabrasCatalanas
  /\ Server.detectarIdioma (js "el " ++ js "DIVENDRES" ++ js " a les 5") = ca.
Proof.
  assert (H : In (toLowerCase (js "DIVENDRES")) Server.palabrasCatalanas)
    by (vm_compute; repeat (first [left; reflexivity | right])).
  split; [exact H|].
  exact (catalan_en_cualquier_contexto (js "el ") (js "DIVENDRES") (js " a les 5") H).
Defined.

Lemma tabla_deja_el_castellano_witness :
  Server.detectarIdioma (js "el viernes a las 7") = es
  /\ Server.traducirConTabla (js "el viernes a las 7") = js "el viernes a las 7".
Proof.
  assert (H : Server.detectarIdioma (js "el viernes a las 7") = es) by (vm_compute; reflexivity).
  split; [exact H|].
  exact (tabla_deja_el_castellano (js "el viernes a las 7") H).
Defined.

Lemma traduccion_limpia_witness :
  Server.traducirCatalanaEspanol
    (Some (clienteFijo (Some ([32; 34] ++ js "el viernes" ++ [34; 32])))) (js "divendres")
  = Some (js "el viernes")
  /\ forallb sinComilla (js "el viernes") = true
  /\ trim (js "el viernes") = js "el viernes"
  /\ exists client c,
      Some (clienteFijo (Some ([32; 34] ++ js "el viernes" ++ [34; 32]))) = Some client
      /\ translation client (js "divendres") = Content (Some c)
      /\ trim c <> [].
Proof.
  assert (H : Server.traducirCatalanaEspanol
                (Some (clienteFijo (Some ([32; 34] ++ js "el viernes" ++ [34; 32]))))
                (js "divendres") = Some (js "el viernes")) by (vm_compute; reflexivity).
  split; [exact H|].
  exact (traduccion_limpia _ _ _ H).
Defined.

Lemma clasificador_sin_relleno_ni_mayusculas_witness :
  (forallb isSpace (js "  ") = true /\ forallb isSpace (js " ") = true
   /\ toLowerCase (js "HOLA") = toLowerCase (js "hola"))
  /\ Server.esExpresionTemporalClara (js "  " ++ js "HOLA" ++ js " ")
     = Server.esExpresionTemporalClara (js "hola").
Proof.
  assert (H1 : forallb isSpace (js "  ") = true) by (vm_compute; reflexivity).
  assert (H2 : forallb isSpace (js " ") = true) by (vm_compute; reflexivity).
  assert (H3 : toLowerCase (js "HOLA") = toLowerCase (js "hola")) by (vm_compute; reflexivity).
  split; [repeat split; assumption|].
  exact (clasificador_sin_relleno_ni_mayusculas _ _ _ _ H1 H2 H3).
Defined.

Lemma preprocesado_decide_witness :
  Server.preprocesarExpresion Madrid (js "pasado mañana")
    (toJSDate (fromISO (js "2025-11-04T09:00:00+01:00") (zonas (js "Europe/Madrid"))))
  = Some (DT 1762416000000 Madrid)
  /\ Server.parse_fecha Madrid zonas sinChrono None
       (peticion "2025-11-04T09:00:00+01:00" "pasado mañana" "Europe/Madrid")
     = Server.parse_fecha Madrid zonas (chronoFijo 0) (Some clienteCaido)
         (peticion "2025-11-04T09:00:00+01:00" "pasado mañana" "Europe/Madrid").
Proof.
  assert (H : Server.preprocesarExpresion Madrid (js "pasado mañana")
                (toJSDate (fromISO (js "2025-11-04T09:00:00+01:00")
                                   (zonas (js "Europe/Madrid"))))
              = Some (DT 1762416000000 Madrid)) by (vm_compute; reflexivity).
  split; [exact H|].
  exact (preprocesado_decide Madrid zonas sinChrono (chronoFijo 0) None (Some clienteCaido)
           (js "2025-11-04T09:00:00+01:00") (js "pasado mañana") (Some (js "Europe/Madrid"))
           (DT 1762416000000 Madrid) H).
Defined.

Lemma js_tras_chrono_no_se_consulta_el_modelo_witness :
  (js "el viernes a las 7" <> []
   /\ isValid (fromISO (js "2025-11-04T09:00:00+01:00") (zonas (js "Europe/Madrid"))) = true
   /\ ServerJs.preprocesarExpresion Madrid (js "el viernes a las 7")
        (toJSDate (fromISO (js "2025-11-04T09:00:00+01:00") (zonas (js "Europe/Madrid"))))
      = None
   /\ Server.parsearBase (chronoFijo 1762495200000) (Some clienteCaido)
        (js "el viernes a las 7")
        (toJSDate (fromISO (js "2025-11-04T09:00:00+01:00") (zonas (js "Europe/Madrid"))))
      = Some 1762495200000)
  /\ ServerJs.parse_fecha Madrid zonas (chronoFijo 1762495200000) (Some clienteCaido)
       (mkRequest (Some (js "2025-11-04T09:00:00+01:00")) (Some (js "el viernes a las 7"))
                  (Some (js "Europe/Madrid")))
     = Server.ensamblar
         (ServerJs.validarYCorregirFecha Madrid
            (match zonas (js "Europe/Madrid") with
             | Some z => fromJSDate 1762495200000 z
             | None => Invalid
             end)
            (toJSDate (fromISO (js "2025-11-04T09:00:00+01:00") (zonas (js "Europe/Madrid"))))
            (js "el viernes a las 7"))
         (fromISO (js "2025-11-04T09:00:00+01:00") (zonas (js "Europe/Madrid")))
         (js "el viernes a las 7")
  /\ esPasado (body (ServerJs.parse_fecha Madrid zonas (chronoFijo 1762495200000)
                       (Some clienteCaido)
                       (mkRequest (Some (js "2025-11-04T09:00:00+01:00"))
                                  (Some (js "el viernes a las 7"))
                                  (Some (js "Europe/Madrid"))))) = Some false.
Proof.
  assert (H1 : js "el viernes a las 7" <> []) by (vm_compute; discriminate).
  assert (H2 : isValid (fromISO (js "2025-11-04T09:00:00+01:00") (zonas (js "Europe/Madrid")))
               = true) by (vm_compute; reflexivity).
  assert (H3 : ServerJs.preprocesarExpresion Madrid (js "el viernes a las 7")
                 (toJSDate (fromISO (js "2025-11-04T09:00:00+01:00")
                                    (zonas (js "Europe/Madrid")))) = None)
    by (vm_compute; reflexivity).
  assert (H4 : Server.parsearBase (chronoFijo 1762495200000) (Some clienteCaido)
                 (js "el viernes a las 7")
                 (toJSDate (fromISO (js "2025-11-04T09:00:00+01:00")
                                    (zonas (js "Europe/Madrid")))) = Some 1762495200000)
    by (vm_compute; reflexivity).
  split; [repeat split; assumption|].
  exact (js_tras_chrono_no_se_consulta_el_modelo Madrid zonas (chronoFijo 1762495200000)
           (Some clienteCaido) (js "2025-11-04T09:00:00+01:00") (js "el viernes a las 7")
           (Some (js "Europe/Madrid")) 1762495200000 H1 H2 H3 H4).
Defined.

Lemma js_respuesta_nunca_pasada_witness :
  (ServerJs.preprocesarExpresion Madrid (js "el viernes a las 7")
     (toJSDate (fromISO (js "2025-11-04T09:00:00+01:00") (zonas (js "Europe/Madrid"))))
   <> None
   \/ Server.parsearBase (chronoFijo 1762495200000) None (js "el viernes a las 7")
        (toJSDate (fromISO (js "2025-11-04T09:00:00+01:00") (zonas (js "Europe/Madrid"))))
      <> None)
  /\ esPasado (body (ServerJs.parse_fecha Madrid zonas (chronoFijo 1762495200000) None
                       (peticion "2025-11-04T09:00:00+01:00" "el viernes a las 7"
                                 "Europe/Madrid"))) <> Some true.
Proof.
  assert (H : ServerJs.preprocesarExpresion Madrid (js "el viernes a las 7")
                (toJSDate (fromISO (js "2025-11-04T09:00:00+01:00")
                                   (zonas (js "Europe/Madrid")))) <> None
              \/ Server.parsearBase (chronoFijo 1762495200000) None (js "el viernes a las 7")
                   (toJSDate (fromISO (js "2025-11-04T09:00:00+01:00")
                                      (zonas (js "Europe/Madrid")))) <> None)
    by (right; vm_compute; discriminate).
  split; [exact H|].
  exact (js_respuesta_nunca_pasada Madrid zonas (chronoFijo 1762495200000) None
           (js "2025-11-04T09:00:00+01:00") (js "el viernes a las 7")
           (Some (js "Europe/Madrid")) H).
Defined.

Lemma preprocesador_nunca_antes_witness :
  (Z.abs 1762243200000 <= MAX_TS
   /\ (Server.preprocesarExpresion Madrid (js "pasado mañana a las 9") 1762243200000
       = Some (DT 1762416000000 Madrid)
       \/ ServerJs.preprocesarExpresion Madrid (js "pasado mañana a las 9") 1762243200000
          = Some (DT 1762416000000 Madrid)))
  /\ 1762243200000 <= 1762416000000.
Proof.
  assert (H1 : Z.abs 1762243200000 <= MAX_TS) by (vm_compute; discriminate).
  assert (H2 : Server.preprocesarExpresion Madrid (js "pasado mañana a las 9") 1762243200000
               = Some (DT 1762416000000 Madrid)
               \/ ServerJs.preprocesarExpresion Madrid (js "pasado mañana a las 9")
                    1762243200000 = Some (DT 1762416000000 Madrid))
    by (left; vm_compute; reflexivity).
  split; [split; assumption|].
  exact (preprocesador_nunca_antes Madrid _ _ _ _ H1 H2).
Defined.

Lemma sin_nombre_de_dia_no_preprocesa_witness :
  (sinPasadoManana (js "en 2 días") = true
   /\ some (fun nombre => includes (trim (toLowerCase (js "en 2 días"))) nombre) nombresDeDia
      = false)
  /\ Server.preprocesarExpresion Madrid (js "en 2 días") 1762243200000 = None
  /\ ServerJs.preprocesarExpresion Madrid (js "en 2 días") 1762243200000 = None.
Proof.
  assert (H1 : sinPasadoManana (js "en 2 días") = true) by (vm_compute; reflexivity).
  assert (H2 : some (fun nombre => includes (trim (toLowerCase (js "en 2 días"))) nombre)
                    nombresDeDia = false) by (vm_compute; reflexivity).
  split; [split; assumption|].
  exact (sin_nombre_de_dia_no_preprocesa Madrid _ 1762243200000 H1 H2).
Defined.

Lemma ida_y_vuelta_en_zona_de_la_peticion_witness :
  (js "en 2 días" <> []
   /\ Server.esExpresionTemporalClara (js "en 2 días") = true
   /\ isValid (fromISO (js "2025-11-04T09:00:00-05:00") (zonas (js "America/New_York"))) = true
   /\ zonas (js "America/New_York") = Some NuevaYork
   /\ Z.abs (zoffset NuevaYork) <= 5999
   /\ Server.preprocesarExpresion Madrid (js "en 2 días")
        (toJSDate (fromISO (js "2025-11-04T09:00:00-05:00") (zonas (js "America/New_York"))))
      = None
   /\ Server.parsearBase (chronoFijo 1762437600000) None (js "en 2 días")
        (toJSDate (fromISO (js "2025-11-04T09:00:00-05:00") (zonas (js "America/New_York"))))
      = Some 1762437600000
   /\ Z.abs 1762437600000 <= MAX_TS
   /\ lt (DT 1762437600000 NuevaYork)
         (fromISO (js "2025-11-04T09:00:00-05:00") (zonas (js "America/New_York"))) = false
   /\ Server.validarYCorregirFecha Madrid (DT 1762437600000 NuevaYork)
        (toJSDate (fromISO (js "2025-11-04T09:00:00-05:00") (zonas (js "America/New_York"))))
        (js "en 2 días") = DT 1762437600000 NuevaYork
   /\ 0 <= year (tsToObj (localTS 1762437600000 NuevaYork)) <= 9999)
  /\ exists iso,
      isoDatetime
        (body (Server.parse_fecha Madrid zonas (chronoFijo 1762437600000) None
                 (mkRequest (Some (js "2025-11-04T09:00:00-05:00")) (Some (js "en 2 días"))
                            (Some (js "America/New_York"))))) = Some (Some iso)
      /\ fechaResuelta
           (body (Server.parse_fecha Madrid zonas (chronoFijo 1762437600000) None
                    (mkRequest (Some (js "2025-11-04T09:00:00-05:00")) (Some (js "en 2 días"))
                               (Some (js "America/New_York")))))
         = Some (toFormat_date (fromISO iso (zonas (js "America/New_York"))))
      /\ horaDe
           (body (Server.parse_fecha Madrid zonas (chronoFijo 1762437600000) None
                    (mkRequest (Some (js "2025-11-04T09:00:00-05:00")) (Some (js "en 2 días"))
                               (Some (js "America/New_York")))))
         = Some (toFormat_time (fromISO iso (zonas (js "America/New_York")))).
Proof.
  assert (H1 : js "en 2 días" <> []) by (vm_compute; discriminate).
  assert (H2 : Server.esExpresionTemporalClara (js "en 2 días") = true)
    by (vm_compute; reflexivity).
  assert (H3 : isValid (fromISO (js "2025-11-04T09:00:00-05:00")
                                (zonas (js "America/New_York"))) = true)
    by (vm_compute; reflexivity).
  assert (H4 : zonas (js "America/New_York") = Some NuevaYork) by (vm_compute; reflexivity).
  assert (H5 : Z.abs (zoffset NuevaYork) <= 5999) by (vm_compute; discriminate).
  assert (H6 : Server.preprocesarExpresion Madrid (js "en 2 días")
                 (toJSDate (fromISO (js "2025-11-04T09:00:00-05:00")
                                    (zonas (js "America/New_York")))) = None)
    by (vm_compute; reflexivity).
  assert (H7 : Server.parsearBase (chronoFijo 1762437600000) None (js "en 2 días")
                 (toJSDate (fromISO (js "2025-11-04T09:00:00-05:00")
                                    (zonas (js "America/New_York")))) = Some 1762437600000)
    by (vm_compute; reflexivity).
  assert (H8 : Z.abs 1762437600000 <= MAX_TS) by (vm_compute; discriminate).
  assert (H9 : lt (DT 1762437600000 NuevaYork)
                  (fromISO (js "2025-11-04T09:00:00-05:00") (zonas (js "America/New_York")))
               = false) by (vm_compute; reflexivity).
  assert (H10 : Server.validarYCorregirFecha Madrid (DT 1762437600000 NuevaYork)
                  (toJSDate (fromISO (js "2025-11-04T09:00:00-05:00")
                                     (zonas (js "America/New_York"))))
                  (js "en 2 días") = DT 1762437600000 NuevaYork)
    by (vm_compute; reflexivity).
  assert (H11 : 0 <= year (tsToObj (localTS 1762437600000 NuevaYork)) <= 9999)
    by (split; vm_compute; discriminate).
  split; [repeat split; first [assumption | apply H11]|].
  exact (ida_y_vuelta_en_zona_de_la_peticion Madrid zonas (chronoFijo 1762437600000) None
           (js "2025-11-04T09:00:00-05:00") (js "en 2 días") (Some (js "America/New_York"))
           NuevaYork 1762437600000 1762437600000 NuevaYork
           H1 H2 H3 H4 H5 H6 H7 H8 H9 H10 H11).
Defined.

Lemma primera_version_coherente_witness :
  (js "en 2 días" <> []
   /\ isValid (fromISO (js "2025-11-04T09:00:00-05:00") (zonas (js "America/New_York"))) = true
   /\ zonas (js "America/New_York") = Some NuevaYork
   /\ Z.abs (zoffset NuevaYork) <= 5999
   /\ chronoFijo 1762437600000 (js "en 2 días")
        (toJSDate (fromISO (js "2025-11-04T09:00:00-05:00") (zonas (js "America/New_York"))))
      = Some 1762437600000
   /\ Z.abs 1762437600000 <= MAX_TS
   /\ 0 <= year (tsToObj (localTS 1762437600000 NuevaYork)) <= 9999)
  /\ status (PrimerServidor.parse_fecha zonas (chronoFijo 1762437600000)
               (mkRequest (Some (js "2025-11-04T09:00:00-05:00")) (Some (js "en 2 días"))
                          (Some (js "America/New_York")))) = 200
  /\ (exists iso,
         isoDatetime
           (body (PrimerServidor.parse_fecha zonas (chronoFijo 1762437600000)
                    (mkRequest (Some (js "2025-11-04T09:00:00-05:00")) (Some (js "en 2 días"))
                               (Some (js "America/New_York"))))) = Some (Some iso)
         /\ fromISO iso (zonas (js "America/New_York")) = DT 1762437600000 NuevaYork
         /\ fechaResuelta
              (body (PrimerServidor.parse_fecha zonas (chronoFijo 1762437600000)
                       (mkRequest (Some (js "2025-11-04T09:00:00-05:00"))
                                  (Some (js "en 2 días")) (Some (js "America/New_York")))))
            = Some (toFormat_date (fromISO iso (zonas (js "America/New_York"))))
         /\ horaDe
              (body (PrimerServidor.parse_fecha zonas (chronoFijo 1762437600000)
                       (mkRequest (Some (js "2025-11-04T09:00:00-05:00"))
                                  (Some (js "en 2 días")) (Some (js "America/New_York")))))
            = Some (toFormat_time (fromISO iso (zonas (js "America/New_York")))))
  /\ esFinde
       (body (PrimerServidor.parse_fecha zonas (chronoFijo 1762437600000)
                (mkRequest (Some (js "2025-11-04T09:00:00-05:00")) (Some (js "en 2 días"))
                           (Some (js "America/New_York")))))
     = option_map (fun w => 6 <=? w) (weekday (DT 1762437600000 NuevaYork))
  /\ esPasado
       (body (PrimerServidor.parse_fecha zonas (chronoFijo 1762437600000)
                (mkRequest (Some (js "2025-11-04T09:00:00-05:00")) (Some (js "en 2 días"))
                           (Some (js "America/New_York")))))
     = Some (lt (DT 1762437600000 NuevaYork)
                (fromISO (js "2025-11-04T09:00:00-05:00") (zonas (js "America/New_York")))).
Proof.
  assert (H1 : js "en 2 días" <> []) by (vm_compute; discriminate).
  assert (H2 : isValid (fromISO (js "2025-11-04T09:00:00-05:00")
                                (zonas (js "America/New_York"))) = true)
    by (vm_compute; reflexivity).
  assert (H3 : zonas (js "America/New_York") = Some NuevaYork) by (vm_compute; reflexivity).
  assert (H4 : Z.abs (zoffset NuevaYork) <= 5999) by (vm_compute; discriminate).
  assert (H5 : chronoFijo 1762437600000 (js "en 2 días")
                 (toJSDate (fromISO (js "2025-11-04T09:00:00-05:00")
                                    (zonas (js "America/New_York")))) = Some 1762437600000)
    by reflexivity.
  assert (H6 : Z.abs 1762437600000 <= MAX_TS) by (vm_compute; discriminate).
  assert (H7 : 0 <= year (tsToObj (localTS 1762437600000 NuevaYork)) <= 9999)
    by (split; vm_compute; discriminate).
  split; [repeat split; first [assumption | apply H7]|].
  exact (primera_version_coherente zonas (chronoFijo 1762437600000)
           (js "2025-11-04T09:00:00-05:00") (js "en 2 días") (Some (js "America/New_York"))
           NuevaYork 1762437600000 H1 H2 H3 H4 H5 H6 H7).
Defined.

(** ** More on [src/server.js]: a second pass of the corrector, the dates
    of the model *)

Section MasServerJs.

Lemma hora7_js_fija (g : DateTime) (n : jsstring) (h : Z) :
  get hour g = Some h -> h <> 7 -> ServerJs.hora7 g n = g.
Proof.
  intros Hh Hn. unfold ServerJs.hora7. destruct (matches n Server.reHora7); [|reflexivity].
  rewrite Hh. destruct h as [|p|p]; try reflexivity.
  repeat (destruct p as [p|p|]; try reflexivity). contradiction.
Qed.

Lemma horas_js_fijas (g : DateTime) (n : jsstring) (h : Z) :
  get hour g = Some h -> 14 <= h ->
  ServerJs.soloViernesManana (ServerJs.hora7 (ServerJs.horaPorDefecto g n) n) = g.
Proof.
  intros Hh Hle.
  rewrite (horaPorDefecto_js_id g n h Hh) by lia.
  rewrite (hora7_js_fija g n h Hh) by lia.
  apply (soloViernesManana_id g h Hh Hle).
Qed.

(** The three hour rules, applied to their own result, change nothing. *)
Lemma horas_js_estables (g : DateTime) (n : jsstring) :
  let r := ServerJs.soloViernesManana (ServerJs.hora7 (ServerJs.horaPorDefecto g n) n) in
  ServerJs.soloViernesManana (ServerJs.hora7 (ServerJs.horaPorDefecto r n) n) = r.
Proof.
  cbv zeta.
  assert (I0 : ServerJs.soloViernesManana
                 (ServerJs.hora7 (ServerJs.horaPorDefecto Invalid n) n) = Invalid)
    by (rewrite horaPorDefecto_js_Invalid, hora7_js_Invalid; reflexivity).
  destruct g as [|t z]; [now rewrite !I0|].
  destruct (horaPorDefecto_js_casos (DT t z) n) as [A|(_ & _ & A)]; rewrite A.
  - destruct (hora7_js_casos (DT t z) n) as [B|(_ & B)]; rewrite B.
    + destruct (soloViernesManana_casos (DT t z)) as [[C _]|(h & Hh & Hr & C)]; rewrite C.
      * rewrite A, B, C. reflexivity.
      * destruct (set (DT t z) _) as [|t3 z3] eqn:E; [exact I0|].
        apply set_hora_campo in E; [|lia]. apply (horas_js_fijas _ n 14 E). lia.
    + destruct (set (DT t z) _) as [|t2 z2] eqn:E; [exact I0|].
      apply set_hora_campo in E; [|lia].
      rewrite (soloViernesManana_id _ 19 E) by lia. apply (horas_js_fijas _ n 19 E). lia.
  - destruct (set (DT t z) _) as [|t1 z1] eqn:E;
      [rewrite hora7_js_Invalid; exact I0|].
    apply set_campos_hm in E as [E _]; [|lia|lia].
    rewrite (hora7_js_fija _ n 14 E) by lia.
    rewrite (soloViernesManana_id _ 14 E) by lia. apply (horas_js_fijas _ n 14 E). lia.
Qed.

(** X23. The corrector of [src/server.js] is idempotent. *)
Theorem validar_js_idempotente (systemZone : Zone) (fecha : DateTime) (ref : Z)
        (expresion : jsstring) :
  ServerJs.validarYCorregirFecha systemZone
    (ServerJs.validarYCorregirFecha systemZone fecha ref expresion) ref expresion
  = ServerJs.validarYCorregirFecha systemZone fecha ref expresion.
Proof.
  rewrite (validar_js_eq systemZone (ServerJs.validarYCorregirFecha systemZone fecha ref expresion)).
  assert (C : ServerJs.corregirPasado
                (ServerJs.validarYCorregirFecha systemZone fecha ref expresion)
                (fromJSDate ref systemZone)
              = ServerJs.validarYCorregirFecha systemZone fecha ref expresion).
  { apply corregirPasado_js_id.
    destruct (Z_le_gt_dec (Z.abs ref) MAX_TS) as [Hr|Hr].
    - unfold fromJSDate. rewrite (mk_valid _ _ Hr).
      apply lt_false_noAntes. apply validar_js_noAntes. exact Hr.
    - assert (E : fromJSDate ref systemZone = Invalid).
      { unfold fromJSDate, mk, timeClip.
        destruct (Z.leb_spec (Z.abs ref) MAX_TS); [lia|reflexivity]. }
      rewrite E. apply lt_Invalid_r. }
  rewrite C. rewrite validar_js_eq. apply horas_js_estables.
Qed.

Lemma fromISO_zona (text : jsstring) (zone : option Zone) (t : Z) (z : Zone) :
  fromISO text zone = DT t z -> zone = Some z.
Proof.
  unfold fromISO. destruct zone as [z0|]; [|discriminate].
  destruct (parseISODate text) as [p|]; [|discriminate].
  destruct (_ || _); [discriminate|].
  intros H. apply mk_DT_inv in H as (_ & -> & _). reflexivity.
Qed.

(** X24. [parsearConOpenAI] of [src/server.js] gives a date only when a client
    answered a text that reads as an ISO date: the date is valid and in the
    zone of the request. Without a client, and when the call fails, it
    gives [null]. *)
Theorem modelo_js_fecha_valida (normalizeZone : jsstring -> option Zone)
        (openai : option OpenAI) (e : jsstring) (ref : Z) (zona : jsstring) (d : DateTime) :
  ServerJs.parsearConOpenAI normalizeZone openai e ref zona = Some d ->
  isValid d = true
  /\ (exists t z, d = DT t z /\ normalizeZone zona = Some z)
  /\ exists client c,
      openai = Some client
      /\ completion client e
           (toISO (match normalizeZone zona with
                   | Some z => fromJSDate ref z
                   | None => Invalid
                   end)) zona = Content (Some c)
      /\ d = fromISO (trim (stripQuotes (trim c))) (normalizeZone zona).
Proof.
  unfold ServerJs.parsearConOpenAI, ServerJs.parsearConOpenAI_try.
  destruct openai as [client|]; [|discriminate].
  destruct (completion client e _ zona) as [m|[c|]] eqn:Ec; try discriminate.
  cbn [option_map]. destruct (trim c) as [|x t] eqn:Et; [discriminate|].
  destruct (isValid (fromISO _ _)) eqn:Hv; [|discriminate].
  intros H. apply Some_eq in H. subst d.
  split; [exact Hv|]. split.
  - destruct (isValid_DT _ Hv) as (t0 & z0 & E). exists t0, z0. split; [exact E|].
    exact (fromISO_zona _ _ _ _ E).
  - exists client, c. rewrite Et. repeat split; auto.
Qed.

End MasServerJs.

Lemma modelo_js_fecha_valida_witness :
  ServerJs.parsearConOpenAI zonas
    (Some (clienteFijo (Some ([32; 39] ++ js "2025-11-07T19:00:00+01:00" ++ [39; 10]))))
    (js "el viernes a las 7") 1762243200000 (js "Europe/Madrid")
  = Some (DT 1762538400000 Madrid)
  /\ isValid (DT 1762538400000 Madrid) = true
  /\ (exists t z, DT 1762538400000 Madrid = DT t z /\ zonas (js "Europe/Madrid") = Some z)
  /\ exists client c,
      Some (clienteFijo (Some ([32; 39] ++ js "2025-11-07T19:00:00+01:00" ++ [39; 10])))
      = Some client
      /\ completion client (js "el viernes a las 7")
           (toISO (match zonas (js "Europe/Madrid") with
                   | Some z => fromJSDate 1762243200000 z
                   | None => Invalid
                   end)) (js "Europe/Madrid") = Content (Some c)
      /\ DT 1762538400000 Madrid
         = fromISO (trim (stripQuotes (trim c))) (zonas (js "Europe/Madrid")).
Proof.
  assert (H : ServerJs.parsearConOpenAI zonas
                (Some (clienteFijo
                         (Some ([32; 39] ++ js "2025-11-07T19:00:00+01:00" ++ [39; 10]))))
                (js "el viernes a las 7") 1762243200000 (js "Europe/Madrid")
              = Some (DT 1762538400000 Madrid)) by (vm_compute; reflexivity).
  split; [exact H|].
  exact (modelo_js_fecha_valida _ _ _ _ _ _ H).
Defined.

(** ** The preprocessor across the revisions *)

Section Revisiones.

Variable systemZone : Zone.

(** X25. The later revisions extend the preprocessor of the second one: where
    the second revision answers, [src/server.js] and the latest revision
    give the same answer; where it answers [null], no "pasado mañana"
    phrase is in the expression. *)
Theorem preprocesador_se_extiende (expresion : jsstring) (ref : Z) :
  (forall fecha,
      SegundoServidor.preprocesarExpresion systemZone expresion ref = Some fecha ->
      ServerJs.preprocesarExpresion systemZone expresion ref = Some fecha
      /\ Server.preprocesarExpresion systemZone expresion ref = Some fecha)
  /\ (SegundoServidor.preprocesarExpresion systemZone expresion ref = None <->
      sinPasadoManana expresion = true).
Proof.
  unfold SegundoServidor.preprocesarExpresion, ServerJs.preprocesarExpresion,
    Server.preprocesarExpresion, sinPasadoManana, matches.
  destruct (match_ expresion Server.rePasadoMananaHora) as [m1|].
  { split; [auto|]. split; discriminate. }
  destruct (match_ expresion Server.reDemaPassatHora) as [m2|].
  { split; [auto|]. split; discriminate. }
  destruct (includes _ (js "pasado mañana")); cbn [orb negb andb].
  { split; [auto|]. split; discriminate. }
  destruct (includes _ (js "demà passat")); cbn [orb negb andb].
  { split; [auto|]. split; discriminate. }
  split; [discriminate|]. split; reflexivity.
Qed.

End Revisiones.

Lemma preprocesador_se_extiende_witness :
  SegundoServidor.preprocesarExpresion Madrid (js "demà passat a les 9") 1762243200000
  = Some (DT 1762416000000 Madrid)
  /\ ServerJs.preprocesarExpresion Madrid (js "demà passat a les 9") 1762243200000
     = Some (DT 1762416000000 Madrid)
  /\ Server.preprocesarExpresion Madrid (js "demà passat a les 9") 1762243200000
     = Some (DT 1762416000000 Madrid).
Proof.
  assert (H : SegundoServidor.preprocesarExpresion Madrid (js "demà passat a les 9")
                1762243200000 = Some (DT 1762416000000 Madrid)) by (vm_compute; reflexivity).
  split; [exact H|].
  exact (proj1 (preprocesador_se_extiende Madrid (js "demà passat a les 9") 1762243200000)
               _ H).
Defined.
